(** * Orbit KTR model template: knot placement, scale multipliers,
      coefficient reconstruction and prediction

    Shallow embedding of [orbit/template/ktr.py] (class [KTRModel]).

    Conventions of the embedding:
    - Python [int] is [Z]; lengths and counts obtained with [len] are [nat].
    - Python/NumPy floats are idealised as rationals ([Q]); a value that
      NumPy reports as [nan] is [NaN] of [float64] below, and only the
      statistics that can be undefined (means and medians of possibly empty
      slices) and the multiplier built from them carry that type.
    - A date is the integer time stamp behind [numpy.datetime64] ([Z]).
    - A 2-D array is the list of its rows, a 3-D array the list of its 2-D
      slices along axis 0.  An array without rows carries no column count.
    - An exception is the [Raise] branch of [result]; statements are
      sequenced with [x <- c ;; k].
    - The instance is the record [KTRModel]; a method that assigns to
      [self] returns the updated record.  An attribute that the class never
      assigns before a given read is [Missing] there; the base class
      [ModelTemplate] is outside this file and is taken to add none of the
      attributes modelled here.
    - The sample arrays of the posteriors have the rank the estimator gives
      them (level knots 2-D, coefficient knots 3-D); on an array of another
      rank the embedding raises.
    - The external kernels, the date utilities and the random sources are
      parameters of the definitions that call them. *)

From Stdlib Require Import String ZArith QArith Qround Qabs Bool Lia Arith List.
Import ListNotations.

Open Scope Z_scope.

(** ** Exceptions and the error monad *)

Inductive exn : Type :=
| IllegalArgument     (* orbit.exceptions *)
| ModelException      (* orbit.exceptions *)
| AttributeError
| IndexError
| KeyError
| TypeError
| ValueError
| RuntimeError
| ZeroDivisionError.

Inductive result (A : Type) : Type :=
| Ok (a : A)
| Raise (e : exn).

Arguments Ok {A} a.
Arguments Raise {A} e.

Definition bind {A B : Type} (c : result A) (k : A -> result B) : result B :=
  match c with
  | Ok a => k a
  | Raise e => Raise e
  end.

Notation "x <- c ;; k" := (bind c (fun x => k))
  (at level 61, c at next level, right associativity).
Notation "' p <- c ;; k" := (bind c (fun x => let p := x in k))
  (at level 61, p pattern, c at next level, right associativity).

Fixpoint mapM {A B : Type} (f : A -> result B) (l : list A) : result (list B) :=
  match l with
  | [] => Ok []
  | a :: tl => b <- f a ;; bs <- mapM f tl ;; Ok (b :: bs)
  end.

Fixpoint zipWithM {A B C : Type} (f : A -> B -> result C)
         (xs : list A) (ys : list B) : result (list C) :=
  match xs, ys with
  | x :: xs', y :: ys' => c <- f x y ;; cs <- zipWithM f xs' ys' ;; Ok (c :: cs)
  | _, _ => Ok []
  end.

(** An instance attribute: [Missing] until some statement assigns it. *)
Inductive attr (A : Type) : Type :=
| Missing
| Bound (a : A).

Arguments Missing {A}.
Arguments Bound {A} a.

Definition getattr {A : Type} (a : attr A) : result A :=
  match a with
  | Bound v => Ok v
  | Missing => Raise AttributeError
  end.

(** ** Python built-ins *)

Module Py.

(** [round(x)]: nearest integer, ties to the even neighbour. *)
Definition round (x : Q) : Z :=
  let f := Qfloor x in
  match Qcompare (x - inject_Z f) (1 # 2) with
  | Lt => f
  | Gt => f + 1
  | Eq => if Z.even f then f else f + 1
  end.

(** [math.ceil(a / b)] on two ints. *)
Definition ceil_div (a b : Z) : result Z :=
  if b =? 0 then Raise ZeroDivisionError
  else Ok (Qceiling (inject_Z a / inject_Z b)).

(** [l[i]] with Python's negative indices. *)
Definition index {A : Type} (l : list A) (i : Z) : result A :=
  let n := Z.of_nat (length l) in
  let j := if i <? 0 then i + n else i in
  if (0 <=? j) && (j <? n) then
    match nth_error l (Z.to_nat j) with
    | Some a => Ok a
    | None => Raise IndexError
    end
  else Raise IndexError.

(** [l[s:e]]: bounds are wrapped when negative and clipped to the length. *)
Definition clip {A : Type} (l : list A) (i : Z) : nat :=
  let n := Z.of_nat (length l) in
  Z.to_nat (if i <? 0 then Z.max 0 (i + n) else Z.min i n).

Definition slice {A : Type} (l : list A) (s e : Z) : list A :=
  firstn (clip l e - clip l s) (skipn (clip l s) l).

(** [[x] * n] *)
Definition replicate {A : Type} (x : A) (n : nat) : list A := repeat x n.

End Py.

(** ** NumPy arrays over the rationals *)

Module Np.

Definition vector := list Q.
Definition matrix := list (list Q).
Definition tensor3 := list (list (list Q)).

Inductive ndarray : Type :=
| A1 (v : vector)
| A2 (m : matrix)
| A3 (t : tensor3).

(** [a.shape[0]] *)
Definition shape0 (a : ndarray) : nat :=
  match a with
  | A1 v => length v
  | A2 m => length m
  | A3 t => length t
  end.

Definition ncols (m : matrix) : nat :=
  match m with
  | [] => O
  | r :: _ => length r
  end.

(** [np.arange(start, stop, step)] on ints. *)
Definition arange (start stop step : Z) : result (list Z) :=
  if step =? 0 then Raise ZeroDivisionError
  else
    let n := Z.to_nat (- ((start - stop) / step)) in
    Ok (map (fun i => start + Z.of_nat i * step) (seq 0 n)).

(** [np.arange(start, stop)] with the default unit step. *)
Definition arange1 (start stop : Z) : list Z :=
  map (fun i => start + Z.of_nat i) (seq 0 (Z.to_nat (stop - start))).

(** [np.arange(start, stop, step)] on floats: [ceil((stop - start) / step)]
    elements [start + i * step]. *)
Definition arangeQ (start stop step : Q) : result (list Q) :=
  if Qeq_bool step 0 then Raise ZeroDivisionError
  else
    let n := Z.to_nat (Qceiling ((stop - start) / step)) in
    Ok (map (fun i => (start + inject_Z (Z.of_nat i) * step)%Q) (seq 0 n)).

Definition zeros (r c : nat) : matrix := repeat (repeat 0%Q c) r.

Definition sum (v : vector) : Q := fold_right Qplus 0%Q v.

(** Broadcasting of one axis: equal lengths are zipped, a length-one
    operand is stretched, anything else is a shape error. *)
Definition bzip {A B C : Type} (f : A -> B -> result C)
           (xs : list A) (ys : list B) : result (list C) :=
  if (length xs =? length ys)%nat then zipWithM f xs ys
  else
    match xs, ys with
    | [x], _ => mapM (f x) ys
    | _, [y] => mapM (fun x => f x y) xs
    | _, _ => Raise ValueError
    end.

(** [a + b] on 2-D operands. *)
Definition add2 (a b : matrix) : result matrix :=
  bzip (bzip (fun x y => Ok (x + y)%Q)) a b.

(** [np.sum(a * b, axis=-1)] for a 3-D [a] and a 2-D [b]: the product is
    broadcast along the two trailing axes, then summed along the last. *)
Definition mul_sum_last (a : tensor3) (b : matrix) : result matrix :=
  mapM (fun a_s =>
          rows <- bzip (bzip (fun x y => Ok (x * y)%Q)) a_s b ;;
          Ok (map sum rows)) a.

Definition dot (u v : vector) : result Q :=
  if (length u =? length v)%nat
  then Ok (sum (map (fun p => (fst p * snd p)%Q) (combine u v)))
  else Raise ValueError.

(** [np.matmul(a, k.transpose((1, 0)))]: entry (i, j) is the inner
    product of row i of [a] with row j of [k]. *)
Definition matmul_t (a k : matrix) : result matrix :=
  mapM (fun row => mapM (fun krow => dot row krow) k) a.

(** The same product on a 3-D left operand, slice by slice. *)
Definition matmul_t3 (a : tensor3) (k : matrix) : result tensor3 :=
  mapM (fun a_s => matmul_t a_s k) a.

(** [m.transpose((1, 0))] of a rectangular matrix with [c] columns. *)
Definition transpose (c : nat) (m : matrix) : matrix :=
  map (fun j => map (fun row => nth j row 0%Q) m) (seq 0 c).

(** [t.transpose((0, 2, 1))] *)
Definition transpose_021 (t : tensor3) : tensor3 :=
  map (fun m => transpose (ncols m) m) t.

(** [np.cumsum(v)] *)
Fixpoint cumsum_from (acc : Q) (v : vector) : vector :=
  match v with
  | [] => []
  | x :: tl => (acc + x)%Q :: cumsum_from (acc + x)%Q tl
  end.

Definition cumsum (v : vector) : vector := cumsum_from 0%Q v.

End Np.

(** ** Statistics that can be undefined *)

Inductive float64 : Type :=
| Fin (q : Q)
| NaN.

Module Stats.

(** [np.mean] of a 1-D sample; the mean of an empty slice is [nan]. *)
Definition mean (v : list Q) : float64 :=
  match v with
  | [] => NaN
  | _ => Fin (Np.sum v / inject_Z (Z.of_nat (length v)))%Q
  end.

Fixpoint insert (x : Q) (l : list Q) : list Q :=
  match l with
  | [] => [x]
  | y :: tl => if Qle_bool x y then x :: l else y :: insert x tl
  end.

Definition sort (l : list Q) : list Q := fold_right insert [] l.

(** [np.median] of a 1-D sample: the middle order statistic, or the mean
    of the two middle ones. *)
Definition median (v : list Q) : float64 :=
  let s := sort v in
  let n := length s in
  match n with
  | O => NaN
  | _ =>
      if Nat.even n
      then Fin ((nth (n / 2 - 1)%nat s 0 + nth (n / 2)%nat s 0) / 2)%Q
      else Fin (nth (n / 2)%nat s 0%Q)
  end.

(** Column [j] of a 2-D array, in absolute value: [np.fabs(m)[:, j]]. *)
Definition abs_column (m : Np.matrix) (j : nat) : list Q :=
  map (fun row => Qabs (nth j row 0%Q)) m.

(** [a < b] on floats: false as soon as one side is [nan]. *)
Definition lt (a b : float64) : bool :=
  match a, b with
  | Fin x, Fin y =>
      match Qcompare x y with
      | Lt => true
      | _ => false
      end
  | _, _ => false
  end.

Definition scale (c : Q) (a : float64) : float64 :=
  match a with
  | Fin x => Fin (c * x)%Q
  | NaN => NaN
  end.

Definition isnan (a : float64) : bool :=
  match a with
  | NaN => true
  | Fin _ => false
  end.

End Stats.

(** ** Inputs of the template *)

(** The input table: the date column and the numeric columns by name.
    [df.shape[0]] is the number of dates. *)
Record DataFrame : Type := {
  df_dates : list Z;
  df_columns : list (string * list Q)
}.

Definition df_lookup (df : DataFrame) (c : string) : option (list Q) :=
  match find (fun p => String.eqb (fst p) c) (df_columns df) with
  | Some p => Some (snd p)
  | None => None
  end.

(** [df.filter(items=cols).values]: the requested columns that exist, in
    the order requested, one row per table row. *)
Definition df_filter_values (df : DataFrame) (cols : list string) : Np.matrix :=
  let present :=
    flat_map (fun c => match df_lookup df c with
                       | Some v => [v]
                       | None => []
                       end) cols in
  map (fun i => map (fun v => nth i v 0%Q) present)
      (seq 0 (length (df_dates df))).

(** [set(cols).issubset(df.columns)] *)
Definition df_has_columns (df : DataFrame) (cols : list string) : bool :=
  forallb (fun c => match df_lookup df c with
                    | Some _ => true
                    | None => false
                    end) cols.

(** The training meta data handed over by the forecaster. *)
Record TrainingMeta : Type := {
  num_of_observations : Z;
  date_array : list Z;
  training_start : Z;
  training_end : Z
}.

(** The prediction meta data handed over by the forecaster. *)
Record PredictionMeta : Type := {
  df_length : Z;
  prediction_start : Z;
  pm_date_array : list Z     (* prediction_meta['date_array'] *)
}.

(** Posterior samples: parameter name to sample array, in insertion order. *)
Definition posteriors : Type := list (string * Np.ndarray).

Definition dict_get {V : Type} (d : list (string * V)) (k : string) : option V :=
  match find (fun p => String.eqb (fst p) k) d with
  | Some p => Some (snd p)
  | None => None
  end.

(** [BaseSamplingParameters] and [RegressionSamplingParameters] *)
Definition LEVEL_KNOT : string := "lev_knot".
Definition OBS_SCALE : string := "obs_scale".
Definition COEFFICIENTS_KNOT : string := "coef_knot".

(** Default values *)
Definition DEFAULT_REGRESSOR_SIGN : string := "=".
Definition DEFAULT_COEFFICIENTS_INIT_KNOT_SCALE : Q := 1.
Definition DEFAULT_COEFFICIENTS_INIT_KNOT_LOC : Q := 0.
Definition DEFAULT_COEFFICIENTS_KNOT_SCALE : Q := 1 # 10.
Definition DEFAULT_LOWER_BOUND_SCALE_MULTIPLIER : Q := 1 # 100.
Definition DEFAULT_UPPER_BOUND_SCALE_MULTIPLIER : Q := 1.

(** ** Coefficient priors

    A prior is a dict that the user writes, meant to hold the six
    documented keys; [_set_coef_prior_idx] adds
    ['prior_regressor_col_idx'].  Its mean and sd are the user's lists until
    [_filter_coef_prior] replaces them with full arrays. *)

Inductive prior_value : Type :=
| PriorList (v : list Q)
| PriorArray (a : Np.matrix).

(** The keys of a prior dict: the six documented ones
    ([CoefPriorDictKeys]) and any other key [k] that the user may have
    written, which is listed with its value [v] (no code reads it, but the
    comparison of two dicts does). *)
Inductive PriorKey : Type :=
| NAME
| PRIOR_START_TP_IDX
| PRIOR_END_TP_IDX
| PRIOR_MEAN
| PRIOR_SD
| PRIOR_REGRESSOR_COL
| OTHER_KEY (k : string) (v : prior_value).

(** Two keys are the same key. *)
Definition PriorKey_eqb (a b : PriorKey) : bool :=
  match a, b with
  | NAME, NAME
  | PRIOR_START_TP_IDX, PRIOR_START_TP_IDX
  | PRIOR_END_TP_IDX, PRIOR_END_TP_IDX
  | PRIOR_MEAN, PRIOR_MEAN
  | PRIOR_SD, PRIOR_SD
  | PRIOR_REGRESSOR_COL, PRIOR_REGRESSOR_COL => true
  | OTHER_KEY k _, OTHER_KEY k' _ => String.eqb k k'
  | _, _ => false
  end.

Definition documented_keys : list PriorKey :=
  [NAME; PRIOR_START_TP_IDX; PRIOR_END_TP_IDX; PRIOR_MEAN; PRIOR_SD;
   PRIOR_REGRESSOR_COL].

(** [prior_keys] lists the keys that the dict holds, each once, in the
    order in which the dict was written (a dict keeps insertion order); the
    value of a documented key that is not listed is not part of the dict.
    The key ['prior_regressor_col_idx'] is present exactly when its value
    is [Some]; [dict.update] appends it after the other keys. *)
Record CoefPrior : Type := {
  prior_keys : list PriorKey;
  name : string;
  prior_start_tp_idx : Z;
  prior_end_tp_idx : Z;
  prior_mean : prior_value;
  prior_sd : prior_value;
  prior_regressor_col : list string;
  prior_regressor_col_idx : option (list nat)
}.

(** [key in test_dict] and [len(test_dict)] *)
Definition has_key (d : CoefPrior) (k : PriorKey) : bool :=
  existsb (PriorKey_eqb k) (prior_keys d).

(** [test_dict[k]] raises when the dict does not hold the key; the value
    is then read from the record. *)
Definition getitem (d : CoefPrior) (k : PriorKey) : result unit :=
  if has_key d k then Ok tt else Raise KeyError.

Definition dict_len (d : CoefPrior) : nat :=
  length (prior_keys d)
  + match prior_regressor_col_idx d with
    | Some _ => 1
    | None => 0
    end.

(** [len(val)] *)
Definition prior_value_len (v : prior_value) : nat :=
  match v with
  | PriorList l => length l
  | PriorArray a => length a
  end.

(** ** The model instance *)

(** A knot scale prior: the 1-D array built by the constructor, the 2-D
    array (regressor x knot) after [_set_knots_scale_matrix]. *)
Inductive scale_array : Type :=
| Scale1 (v : list Q)
| Scale2 (m : list (list float64)).

Record SeasonalKnotsInput : Type := {
  _seas_coef_knot_dates : list Z;
  _sea_coef_knot : Np.tensor3;
  _seasonality : list Q;
  _seasonality_fs_order : list Z
}.

Record KTRModel : Type := {
  (* level *)
  level_knot_scale : Q;
  knots_tp_level : option (list Q);
  (* regression configuration *)
  regressor_col : option (list string);
  regressor_sign : option (list string);
  regressor_init_knot_loc : option (list Q);
  regressor_init_knot_scale : option (list Q);
  regressor_knot_scale : option (list Q);
  regression_knot_distance : option Z;
  regression_segments : Z;
  _regression_knot_dates : option (list Z);
  regression_rho : Q;
  flat_multiplier : bool;
  _regressor_sign : option (list string);
  _regressor_init_knot_loc : option (list Q);
  _regressor_init_knot_scale : option (list Q);
  _regressor_knot_scale : option (list Q);
  coef_prior_list : option (list CoefPrior);
  _coef_prior_list : list CoefPrior;
  _regression_knots_idx : option (list Z);
  _num_of_regressors : nat;
  (* positive regressors *)
  _num_of_positive_regressors : nat;
  _positive_regressor_col : list string;
  _positive_regressor_init_knot_loc : list Q;
  _positive_regressor_init_knot_scale : list Q;
  _positive_regressor_knot_scale : scale_array;
  (* regular regressors *)
  _num_of_regular_regressors : nat;
  _regular_regressor_col : list string;
  _regular_regressor_init_knot_loc : list Q;
  _regular_regressor_init_knot_scale : list Q;
  _regular_regressor_knot_scale : scale_array;
  _regressor_col : list string;
  (* regression data *)
  _knots_tp_coefficients : option (list Q);
  _positive_regressor_matrix : option Np.matrix;
  _regular_regressor_matrix : option Np.matrix;
  (* other configurations *)
  date_freq : option string;
  degree_of_freedom : Z;
  (* attributes the constructor does not create *)
  _kernel_coefficients : attr Np.matrix;
  _seasonal_knots_input : attr (option SeasonalKnotsInput);
  rho_coefficients : attr Q;
  pred_array : attr (option Np.matrix)
}.

(** The keyword arguments of [KTRModel.__init__] that the embedded methods
    depend on. *)
Module Args.
Record t : Type := {
  level_knot_scale : Q;
  regressor_col : option (list string);
  regressor_sign : option (list string);
  regressor_init_knot_loc : option (list Q);
  regressor_init_knot_scale : option (list Q);
  regressor_knot_scale : option (list Q);
  regression_segments : Z;
  regression_knot_distance : option Z;
  regression_knot_dates : option (list Z);
  regression_rho : Q;
  degree_of_freedom : Z;
  coef_prior_list : option (list CoefPrior);
  date_freq : option string;
  flat_multiplier : bool
}.

(** The defaults of the signature. *)
Definition default : t := {|
  level_knot_scale := 1 # 10;
  regressor_col := None;
  regressor_sign := None;
  regressor_init_knot_loc := None;
  regressor_init_knot_scale := None;
  regressor_knot_scale := None;
  regression_segments := 5;
  regression_knot_distance := None;
  regression_knot_dates := None;
  regression_rho := 15 # 100;
  degree_of_freedom := 30;
  coef_prior_list := None;
  date_freq := None;
  flat_multiplier := true
|}.
End Args.

(** ** Assignments to [self]

    Each definition below is the instance after the named attributes have
    been assigned; every other attribute keeps its value. *)

(** [self._coef_prior_list = ...] *)
Definition assign_coef_prior_list (self : KTRModel) (_coef_prior_list' : list CoefPrior) : KTRModel := {|
  level_knot_scale := level_knot_scale self;
  knots_tp_level := knots_tp_level self;
  regressor_col := regressor_col self;
  regressor_sign := regressor_sign self;
  regressor_init_knot_loc := regressor_init_knot_loc self;
  regressor_init_knot_scale := regressor_init_knot_scale self;
  regressor_knot_scale := regressor_knot_scale self;
  regression_knot_distance := regression_knot_distance self;
  regression_segments := regression_segments self;
  _regression_knot_dates := _regression_knot_dates self;
  regression_rho := regression_rho self;
  flat_multiplier := flat_multiplier self;
  _regressor_sign := _regressor_sign self;
  _regressor_init_knot_loc := _regressor_init_knot_loc self;
  _regressor_init_knot_scale := _regressor_init_knot_scale self;
  _regressor_knot_scale := _regressor_knot_scale self;
  coef_prior_list := coef_prior_list self;
  _coef_prior_list := _coef_prior_list';
  _regression_knots_idx := _regression_knots_idx self;
  _num_of_regressors := _num_of_regressors self;
  _num_of_positive_regressors := _num_of_positive_regressors self;
  _positive_regressor_col := _positive_regressor_col self;
  _positive_regressor_init_knot_loc := _positive_regressor_init_knot_loc self;
  _positive_regressor_init_knot_scale := _positive_regressor_init_knot_scale self;
  _positive_regressor_knot_scale := _positive_regressor_knot_scale self;
  _num_of_regular_regressors := _num_of_regular_regressors self;
  _regular_regressor_col := _regular_regressor_col self;
  _regular_regressor_init_knot_loc := _regular_regressor_init_knot_loc self;
  _regular_regressor_init_knot_scale := _regular_regressor_init_knot_scale self;
  _regular_regressor_knot_scale := _regular_regressor_knot_scale self;
  _regressor_col := _regressor_col self;
  _knots_tp_coefficients := _knots_tp_coefficients self;
  _positive_regressor_matrix := _positive_regressor_matrix self;
  _regular_regressor_matrix := _regular_regressor_matrix self;
  date_freq := date_freq self;
  degree_of_freedom := degree_of_freedom self;
  _kernel_coefficients := _kernel_coefficients self;
  _seasonal_knots_input := _seasonal_knots_input self;
  rho_coefficients := rho_coefficients self;
  pred_array := pred_array self
|}.

(** The four private regressor parameter lists. *)
Definition assign_regressor_params (self : KTRModel) (_regressor_sign' : option (list string)) (_regressor_init_knot_loc' : option (list Q)) (_regressor_init_knot_scale' : option (list Q)) (_regressor_knot_scale' : option (list Q)) : KTRModel := {|
  level_knot_scale := level_knot_scale self;
  knots_tp_level := knots_tp_level self;
  regressor_col := regressor_col self;
  regressor_sign := regressor_sign self;
  regressor_init_knot_loc := regressor_init_knot_loc self;
  regressor_init_knot_scale := regressor_init_knot_scale self;
  regressor_knot_scale := regressor_knot_scale self;
  regression_knot_distance := regression_knot_distance self;
  regression_segments := regression_segments self;
  _regression_knot_dates := _regression_knot_dates self;
  regression_rho := regression_rho self;
  flat_multiplier := flat_multiplier self;
  _regressor_sign := _regressor_sign';
  _regressor_init_knot_loc := _regressor_init_knot_loc';
  _regressor_init_knot_scale := _regressor_init_knot_scale';
  _regressor_knot_scale := _regressor_knot_scale';
  coef_prior_list := coef_prior_list self;
  _coef_prior_list := _coef_prior_list self;
  _regression_knots_idx := _regression_knots_idx self;
  _num_of_regressors := _num_of_regressors self;
  _num_of_positive_regressors := _num_of_positive_regressors self;
  _positive_regressor_col := _positive_regressor_col self;
  _positive_regressor_init_knot_loc := _positive_regressor_init_knot_loc self;
  _positive_regressor_init_knot_scale := _positive_regressor_init_knot_scale self;
  _positive_regressor_knot_scale := _positive_regressor_knot_scale self;
  _num_of_regular_regressors := _num_of_regular_regressors self;
  _regular_regressor_col := _regular_regressor_col self;
  _regular_regressor_init_knot_loc := _regular_regressor_init_knot_loc self;
  _regular_regressor_init_knot_scale := _regular_regressor_init_knot_scale self;
  _regular_regressor_knot_scale := _regular_regressor_knot_scale self;
  _regressor_col := _regressor_col self;
  _knots_tp_coefficients := _knots_tp_coefficients self;
  _positive_regressor_matrix := _positive_regressor_matrix self;
  _regular_regressor_matrix := _regular_regressor_matrix self;
  date_freq := date_freq self;
  degree_of_freedom := degree_of_freedom self;
  _kernel_coefficients := _kernel_coefficients self;
  _seasonal_knots_input := _seasonal_knots_input self;
  rho_coefficients := rho_coefficients self;
  pred_array := pred_array self
|}.

(** [self._num_of_regressors = ...] *)
Definition assign_num_of_regressors (self : KTRModel) (_num_of_regressors' : nat) : KTRModel := {|
  level_knot_scale := level_knot_scale self;
  knots_tp_level := knots_tp_level self;
  regressor_col := regressor_col self;
  regressor_sign := regressor_sign self;
  regressor_init_knot_loc := regressor_init_knot_loc self;
  regressor_init_knot_scale := regressor_init_knot_scale self;
  regressor_knot_scale := regressor_knot_scale self;
  regression_knot_distance := regression_knot_distance self;
  regression_segments := regression_segments self;
  _regression_knot_dates := _regression_knot_dates self;
  regression_rho := regression_rho self;
  flat_multiplier := flat_multiplier self;
  _regressor_sign := _regressor_sign self;
  _regressor_init_knot_loc := _regressor_init_knot_loc self;
  _regressor_init_knot_scale := _regressor_init_knot_scale self;
  _regressor_knot_scale := _regressor_knot_scale self;
  coef_prior_list := coef_prior_list self;
  _coef_prior_list := _coef_prior_list self;
  _regression_knots_idx := _regression_knots_idx self;
  _num_of_regressors := _num_of_regressors';
  _num_of_positive_regressors := _num_of_positive_regressors self;
  _positive_regressor_col := _positive_regressor_col self;
  _positive_regressor_init_knot_loc := _positive_regressor_init_knot_loc self;
  _positive_regressor_init_knot_scale := _positive_regressor_init_knot_scale self;
  _positive_regressor_knot_scale := _positive_regressor_knot_scale self;
  _num_of_regular_regressors := _num_of_regular_regressors self;
  _regular_regressor_col := _regular_regressor_col self;
  _regular_regressor_init_knot_loc := _regular_regressor_init_knot_loc self;
  _regular_regressor_init_knot_scale := _regular_regressor_init_knot_scale self;
  _regular_regressor_knot_scale := _regular_regressor_knot_scale self;
  _regressor_col := _regressor_col self;
  _knots_tp_coefficients := _knots_tp_coefficients self;
  _positive_regressor_matrix := _positive_regressor_matrix self;
  _regular_regressor_matrix := _regular_regressor_matrix self;
  date_freq := date_freq self;
  degree_of_freedom := degree_of_freedom self;
  _kernel_coefficients := _kernel_coefficients self;
  _seasonal_knots_input := _seasonal_knots_input self;
  rho_coefficients := rho_coefficients self;
  pred_array := pred_array self
|}.

(** The attributes of the positive regressors. *)
Definition assign_positive (self : KTRModel) (_num_of_positive_regressors' : nat) (_positive_regressor_col' : list string) (_positive_regressor_init_knot_loc' : list Q) (_positive_regressor_init_knot_scale' : list Q) (_positive_regressor_knot_scale' : scale_array) : KTRModel := {|
  level_knot_scale := level_knot_scale self;
  knots_tp_level := knots_tp_level self;
  regressor_col := regressor_col self;
  regressor_sign := regressor_sign self;
  regressor_init_knot_loc := regressor_init_knot_loc self;
  regressor_init_knot_scale := regressor_init_knot_scale self;
  regressor_knot_scale := regressor_knot_scale self;
  regression_knot_distance := regression_knot_distance self;
  regression_segments := regression_segments self;
  _regression_knot_dates := _regression_knot_dates self;
  regression_rho := regression_rho self;
  flat_multiplier := flat_multiplier self;
  _regressor_sign := _regressor_sign self;
  _regressor_init_knot_loc := _regressor_init_knot_loc self;
  _regressor_init_knot_scale := _regressor_init_knot_scale self;
  _regressor_knot_scale := _regressor_knot_scale self;
  coef_prior_list := coef_prior_list self;
  _coef_prior_list := _coef_prior_list self;
  _regression_knots_idx := _regression_knots_idx self;
  _num_of_regressors := _num_of_regressors self;
  _num_of_positive_regressors := _num_of_positive_regressors';
  _positive_regressor_col := _positive_regressor_col';
  _positive_regressor_init_knot_loc := _positive_regressor_init_knot_loc';
  _positive_regressor_init_knot_scale := _positive_regressor_init_knot_scale';
  _positive_regressor_knot_scale := _positive_regressor_knot_scale';
  _num_of_regular_regressors := _num_of_regular_regressors self;
  _regular_regressor_col := _regular_regressor_col self;
  _regular_regressor_init_knot_loc := _regular_regressor_init_knot_loc self;
  _regular_regressor_init_knot_scale := _regular_regressor_init_knot_scale self;
  _regular_regressor_knot_scale := _regular_regressor_knot_scale self;
  _regressor_col := _regressor_col self;
  _knots_tp_coefficients := _knots_tp_coefficients self;
  _positive_regressor_matrix := _positive_regressor_matrix self;
  _regular_regressor_matrix := _regular_regressor_matrix self;
  date_freq := date_freq self;
  degree_of_freedom := degree_of_freedom self;
  _kernel_coefficients := _kernel_coefficients self;
  _seasonal_knots_input := _seasonal_knots_input self;
  rho_coefficients := rho_coefficients self;
  pred_array := pred_array self
|}.

(** The attributes of the regular regressors. *)
Definition assign_regular (self : KTRModel) (_num_of_regular_regressors' : nat) (_regular_regressor_col' : list string) (_regular_regressor_init_knot_loc' : list Q) (_regular_regressor_init_knot_scale' : list Q) (_regular_regressor_knot_scale' : scale_array) : KTRModel := {|
  level_knot_scale := level_knot_scale self;
  knots_tp_level := knots_tp_level self;
  regressor_col := regressor_col self;
  regressor_sign := regressor_sign self;
  regressor_init_knot_loc := regressor_init_knot_loc self;
  regressor_init_knot_scale := regressor_init_knot_scale self;
  regressor_knot_scale := regressor_knot_scale self;
  regression_knot_distance := regression_knot_distance self;
  regression_segments := regression_segments self;
  _regression_knot_dates := _regression_knot_dates self;
  regression_rho := regression_rho self;
  flat_multiplier := flat_multiplier self;
  _regressor_sign := _regressor_sign self;
  _regressor_init_knot_loc := _regressor_init_knot_loc self;
  _regressor_init_knot_scale := _regressor_init_knot_scale self;
  _regressor_knot_scale := _regressor_knot_scale self;
  coef_prior_list := coef_prior_list self;
  _coef_prior_list := _coef_prior_list self;
  _regression_knots_idx := _regression_knots_idx self;
  _num_of_regressors := _num_of_regressors self;
  _num_of_positive_regressors := _num_of_positive_regressors self;
  _positive_regressor_col := _positive_regressor_col self;
  _positive_regressor_init_knot_loc := _positive_regressor_init_knot_loc self;
  _positive_regressor_init_knot_scale := _positive_regressor_init_knot_scale self;
  _positive_regressor_knot_scale := _positive_regressor_knot_scale self;
  _num_of_regular_regressors := _num_of_regular_regressors';
  _regular_regressor_col := _regular_regressor_col';
  _regular_regressor_init_knot_loc := _regular_regressor_init_knot_loc';
  _regular_regressor_init_knot_scale := _regular_regressor_init_knot_scale';
  _regular_regressor_knot_scale := _regular_regressor_knot_scale';
  _regressor_col := _regressor_col self;
  _knots_tp_coefficients := _knots_tp_coefficients self;
  _positive_regressor_matrix := _positive_regressor_matrix self;
  _regular_regressor_matrix := _regular_regressor_matrix self;
  date_freq := date_freq self;
  degree_of_freedom := degree_of_freedom self;
  _kernel_coefficients := _kernel_coefficients self;
  _seasonal_knots_input := _seasonal_knots_input self;
  rho_coefficients := rho_coefficients self;
  pred_array := pred_array self
|}.

(** [self._regressor_col = ...] *)
Definition assign_regressor_col (self : KTRModel) (_regressor_col' : list string) : KTRModel := {|
  level_knot_scale := level_knot_scale self;
  knots_tp_level := knots_tp_level self;
  regressor_col := regressor_col self;
  regressor_sign := regressor_sign self;
  regressor_init_knot_loc := regressor_init_knot_loc self;
  regressor_init_knot_scale := regressor_init_knot_scale self;
  regressor_knot_scale := regressor_knot_scale self;
  regression_knot_distance := regression_knot_distance self;
  regression_segments := regression_segments self;
  _regression_knot_dates := _regression_knot_dates self;
  regression_rho := regression_rho self;
  flat_multiplier := flat_multiplier self;
  _regressor_sign := _regressor_sign self;
  _regressor_init_knot_loc := _regressor_init_knot_loc self;
  _regressor_init_knot_scale := _regressor_init_knot_scale self;
  _regressor_knot_scale := _regressor_knot_scale self;
  coef_prior_list := coef_prior_list self;
  _coef_prior_list := _coef_prior_list self;
  _regression_knots_idx := _regression_knots_idx self;
  _num_of_regressors := _num_of_regressors self;
  _num_of_positive_regressors := _num_of_positive_regressors self;
  _positive_regressor_col := _positive_regressor_col self;
  _positive_regressor_init_knot_loc := _positive_regressor_init_knot_loc self;
  _positive_regressor_init_knot_scale := _positive_regressor_init_knot_scale self;
  _positive_regressor_knot_scale := _positive_regressor_knot_scale self;
  _num_of_regular_regressors := _num_of_regular_regressors self;
  _regular_regressor_col := _regular_regressor_col self;
  _regular_regressor_init_knot_loc := _regular_regressor_init_knot_loc self;
  _regular_regressor_init_knot_scale := _regular_regressor_init_knot_scale self;
  _regular_regressor_knot_scale := _regular_regressor_knot_scale self;
  _regressor_col := _regressor_col';
  _knots_tp_coefficients := _knots_tp_coefficients self;
  _positive_regressor_matrix := _positive_regressor_matrix self;
  _regular_regressor_matrix := _regular_regressor_matrix self;
  date_freq := date_freq self;
  degree_of_freedom := degree_of_freedom self;
  _kernel_coefficients := _kernel_coefficients self;
  _seasonal_knots_input := _seasonal_knots_input self;
  rho_coefficients := rho_coefficients self;
  pred_array := pred_array self
|}.

(** The two regressor matrices. *)
Definition assign_regressor_matrices (self : KTRModel) (_positive_regressor_matrix' : option Np.matrix) (_regular_regressor_matrix' : option Np.matrix) : KTRModel := {|
  level_knot_scale := level_knot_scale self;
  knots_tp_level := knots_tp_level self;
  regressor_col := regressor_col self;
  regressor_sign := regressor_sign self;
  regressor_init_knot_loc := regressor_init_knot_loc self;
  regressor_init_knot_scale := regressor_init_knot_scale self;
  regressor_knot_scale := regressor_knot_scale self;
  regression_knot_distance := regression_knot_distance self;
  regression_segments := regression_segments self;
  _regression_knot_dates := _regression_knot_dates self;
  regression_rho := regression_rho self;
  flat_multiplier := flat_multiplier self;
  _regressor_sign := _regressor_sign self;
  _regressor_init_knot_loc := _regressor_init_knot_loc self;
  _regressor_init_knot_scale := _regressor_init_knot_scale self;
  _regressor_knot_scale := _regressor_knot_scale self;
  coef_prior_list := coef_prior_list self;
  _coef_prior_list := _coef_prior_list self;
  _regression_knots_idx := _regression_knots_idx self;
  _num_of_regressors := _num_of_regressors self;
  _num_of_positive_regressors := _num_of_positive_regressors self;
  _positive_regressor_col := _positive_regressor_col self;
  _positive_regressor_init_knot_loc := _positive_regressor_init_knot_loc self;
  _positive_regressor_init_knot_scale := _positive_regressor_init_knot_scale self;
  _positive_regressor_knot_scale := _positive_regressor_knot_scale self;
  _num_of_regular_regressors := _num_of_regular_regressors self;
  _regular_regressor_col := _regular_regressor_col self;
  _regular_regressor_init_knot_loc := _regular_regressor_init_knot_loc self;
  _regular_regressor_init_knot_scale := _regular_regressor_init_knot_scale self;
  _regular_regressor_knot_scale := _regular_regressor_knot_scale self;
  _regressor_col := _regressor_col self;
  _knots_tp_coefficients := _knots_tp_coefficients self;
  _positive_regressor_matrix := _positive_regressor_matrix';
  _regular_regressor_matrix := _regular_regressor_matrix';
  date_freq := date_freq self;
  degree_of_freedom := degree_of_freedom self;
  _kernel_coefficients := _kernel_coefficients self;
  _seasonal_knots_input := _seasonal_knots_input self;
  rho_coefficients := rho_coefficients self;
  pred_array := pred_array self
|}.

(** [self._kernel_coefficients] and [self.regression_segments]. *)
Definition assign_kernel_coefficients (self : KTRModel) (_kernel_coefficients' : attr Np.matrix) (regression_segments' : Z) : KTRModel := {|
  level_knot_scale := level_knot_scale self;
  knots_tp_level := knots_tp_level self;
  regressor_col := regressor_col self;
  regressor_sign := regressor_sign self;
  regressor_init_knot_loc := regressor_init_knot_loc self;
  regressor_init_knot_scale := regressor_init_knot_scale self;
  regressor_knot_scale := regressor_knot_scale self;
  regression_knot_distance := regression_knot_distance self;
  regression_segments := regression_segments';
  _regression_knot_dates := _regression_knot_dates self;
  regression_rho := regression_rho self;
  flat_multiplier := flat_multiplier self;
  _regressor_sign := _regressor_sign self;
  _regressor_init_knot_loc := _regressor_init_knot_loc self;
  _regressor_init_knot_scale := _regressor_init_knot_scale self;
  _regressor_knot_scale := _regressor_knot_scale self;
  coef_prior_list := coef_prior_list self;
  _coef_prior_list := _coef_prior_list self;
  _regression_knots_idx := _regression_knots_idx self;
  _num_of_regressors := _num_of_regressors self;
  _num_of_positive_regressors := _num_of_positive_regressors self;
  _positive_regressor_col := _positive_regressor_col self;
  _positive_regressor_init_knot_loc := _positive_regressor_init_knot_loc self;
  _positive_regressor_init_knot_scale := _positive_regressor_init_knot_scale self;
  _positive_regressor_knot_scale := _positive_regressor_knot_scale self;
  _num_of_regular_regressors := _num_of_regular_regressors self;
  _regular_regressor_col := _regular_regressor_col self;
  _regular_regressor_init_knot_loc := _regular_regressor_init_knot_loc self;
  _regular_regressor_init_knot_scale := _regular_regressor_init_knot_scale self;
  _regular_regressor_knot_scale := _regular_regressor_knot_scale self;
  _regressor_col := _regressor_col self;
  _knots_tp_coefficients := _knots_tp_coefficients self;
  _positive_regressor_matrix := _positive_regressor_matrix self;
  _regular_regressor_matrix := _regular_regressor_matrix self;
  date_freq := date_freq self;
  degree_of_freedom := degree_of_freedom self;
  _kernel_coefficients := _kernel_coefficients';
  _seasonal_knots_input := _seasonal_knots_input self;
  rho_coefficients := rho_coefficients self;
  pred_array := pred_array self
|}.

(** The regression knot positions, dates and indices. *)
Definition assign_regression_knots (self : KTRModel) (_knots_tp_coefficients' : option (list Q)) (_regression_knot_dates' : option (list Z)) (_regression_knots_idx' : option (list Z)) : KTRModel := {|
  level_knot_scale := level_knot_scale self;
  knots_tp_level := knots_tp_level self;
  regressor_col := regressor_col self;
  regressor_sign := regressor_sign self;
  regressor_init_knot_loc := regressor_init_knot_loc self;
  regressor_init_knot_scale := regressor_init_knot_scale self;
  regressor_knot_scale := regressor_knot_scale self;
  regression_knot_distance := regression_knot_distance self;
  regression_segments := regression_segments self;
  _regression_knot_dates := _regression_knot_dates';
  regression_rho := regression_rho self;
  flat_multiplier := flat_multiplier self;
  _regressor_sign := _regressor_sign self;
  _regressor_init_knot_loc := _regressor_init_knot_loc self;
  _regressor_init_knot_scale := _regressor_init_knot_scale self;
  _regressor_knot_scale := _regressor_knot_scale self;
  coef_prior_list := coef_prior_list self;
  _coef_prior_list := _coef_prior_list self;
  _regression_knots_idx := _regression_knots_idx';
  _num_of_regressors := _num_of_regressors self;
  _num_of_positive_regressors := _num_of_positive_regressors self;
  _positive_regressor_col := _positive_regressor_col self;
  _positive_regressor_init_knot_loc := _positive_regressor_init_knot_loc self;
  _positive_regressor_init_knot_scale := _positive_regressor_init_knot_scale self;
  _positive_regressor_knot_scale := _positive_regressor_knot_scale self;
  _num_of_regular_regressors := _num_of_regular_regressors self;
  _regular_regressor_col := _regular_regressor_col self;
  _regular_regressor_init_knot_loc := _regular_regressor_init_knot_loc self;
  _regular_regressor_init_knot_scale := _regular_regressor_init_knot_scale self;
  _regular_regressor_knot_scale := _regular_regressor_knot_scale self;
  _regressor_col := _regressor_col self;
  _knots_tp_coefficients := _knots_tp_coefficients';
  _positive_regressor_matrix := _positive_regressor_matrix self;
  _regular_regressor_matrix := _regular_regressor_matrix self;
  date_freq := date_freq self;
  degree_of_freedom := degree_of_freedom self;
  _kernel_coefficients := _kernel_coefficients self;
  _seasonal_knots_input := _seasonal_knots_input self;
  rho_coefficients := rho_coefficients self;
  pred_array := pred_array self
|}.

(** [self.date_freq = ...] *)
Definition assign_date_freq (self : KTRModel) (date_freq' : option string) : KTRModel := {|
  level_knot_scale := level_knot_scale self;
  knots_tp_level := knots_tp_level self;
  regressor_col := regressor_col self;
  regressor_sign := regressor_sign self;
  regressor_init_knot_loc := regressor_init_knot_loc self;
  regressor_init_knot_scale := regressor_init_knot_scale self;
  regressor_knot_scale := regressor_knot_scale self;
  regression_knot_distance := regression_knot_distance self;
  regression_segments := regression_segments self;
  _regression_knot_dates := _regression_knot_dates self;
  regression_rho := regression_rho self;
  flat_multiplier := flat_multiplier self;
  _regressor_sign := _regressor_sign self;
  _regressor_init_knot_loc := _regressor_init_knot_loc self;
  _regressor_init_knot_scale := _regressor_init_knot_scale self;
  _regressor_knot_scale := _regressor_knot_scale self;
  coef_prior_list := coef_prior_list self;
  _coef_prior_list := _coef_prior_list self;
  _regression_knots_idx := _regression_knots_idx self;
  _num_of_regressors := _num_of_regressors self;
  _num_of_positive_regressors := _num_of_positive_regressors self;
  _positive_regressor_col := _positive_regressor_col self;
  _positive_regressor_init_knot_loc := _positive_regressor_init_knot_loc self;
  _positive_regressor_init_knot_scale := _positive_regressor_init_knot_scale self;
  _positive_regressor_knot_scale := _positive_regressor_knot_scale self;
  _num_of_regular_regressors := _num_of_regular_regressors self;
  _regular_regressor_col := _regular_regressor_col self;
  _regular_regressor_init_knot_loc := _regular_regressor_init_knot_loc self;
  _regular_regressor_init_knot_scale := _regular_regressor_init_knot_scale self;
  _regular_regressor_knot_scale := _regular_regressor_knot_scale self;
  _regressor_col := _regressor_col self;
  _knots_tp_coefficients := _knots_tp_coefficients self;
  _positive_regressor_matrix := _positive_regressor_matrix self;
  _regular_regressor_matrix := _regular_regressor_matrix self;
  date_freq := date_freq';
  degree_of_freedom := degree_of_freedom self;
  _kernel_coefficients := _kernel_coefficients self;
  _seasonal_knots_input := _seasonal_knots_input self;
  rho_coefficients := rho_coefficients self;
  pred_array := pred_array self
|}.

(** The scale priors of the positive regressors. *)
Definition assign_positive_scales (self : KTRModel) (_positive_regressor_knot_scale' : scale_array) (_positive_regressor_init_knot_scale' : list Q) : KTRModel := {|
  level_knot_scale := level_knot_scale self;
  knots_tp_level := knots_tp_level self;
  regressor_col := regressor_col self;
  regressor_sign := regressor_sign self;
  regressor_init_knot_loc := regressor_init_knot_loc self;
  regressor_init_knot_scale := regressor_init_knot_scale self;
  regressor_knot_scale := regressor_knot_scale self;
  regression_knot_distance := regression_knot_distance self;
  regression_segments := regression_segments self;
  _regression_knot_dates := _regression_knot_dates self;
  regression_rho := regression_rho self;
  flat_multiplier := flat_multiplier self;
  _regressor_sign := _regressor_sign self;
  _regressor_init_knot_loc := _regressor_init_knot_loc self;
  _regressor_init_knot_scale := _regressor_init_knot_scale self;
  _regressor_knot_scale := _regressor_knot_scale self;
  coef_prior_list := coef_prior_list self;
  _coef_prior_list := _coef_prior_list self;
  _regression_knots_idx := _regression_knots_idx self;
  _num_of_regressors := _num_of_regressors self;
  _num_of_positive_regressors := _num_of_positive_regressors self;
  _positive_regressor_col := _positive_regressor_col self;
  _positive_regressor_init_knot_loc := _positive_regressor_init_knot_loc self;
  _positive_regressor_init_knot_scale := _positive_regressor_init_knot_scale';
  _positive_regressor_knot_scale := _positive_regressor_knot_scale';
  _num_of_regular_regressors := _num_of_regular_regressors self;
  _regular_regressor_col := _regular_regressor_col self;
  _regular_regressor_init_knot_loc := _regular_regressor_init_knot_loc self;
  _regular_regressor_init_knot_scale := _regular_regressor_init_knot_scale self;
  _regular_regressor_knot_scale := _regular_regressor_knot_scale self;
  _regressor_col := _regressor_col self;
  _knots_tp_coefficients := _knots_tp_coefficients self;
  _positive_regressor_matrix := _positive_regressor_matrix self;
  _regular_regressor_matrix := _regular_regressor_matrix self;
  date_freq := date_freq self;
  degree_of_freedom := degree_of_freedom self;
  _kernel_coefficients := _kernel_coefficients self;
  _seasonal_knots_input := _seasonal_knots_input self;
  rho_coefficients := rho_coefficients self;
  pred_array := pred_array self
|}.

(** The scale priors of the regular regressors. *)
Definition assign_regular_scales (self : KTRModel) (_regular_regressor_knot_scale' : scale_array) (_regular_regressor_init_knot_scale' : list Q) : KTRModel := {|
  level_knot_scale := level_knot_scale self;
  knots_tp_level := knots_tp_level self;
  regressor_col := regressor_col self;
  regressor_sign := regressor_sign self;
  regressor_init_knot_loc := regressor_init_knot_loc self;
  regressor_init_knot_scale := regressor_init_knot_scale self;
  regressor_knot_scale := regressor_knot_scale self;
  regression_knot_distance := regression_knot_distance self;
  regression_segments := regression_segments self;
  _regression_knot_dates := _regression_knot_dates self;
  regression_rho := regression_rho self;
  flat_multiplier := flat_multiplier self;
  _regressor_sign := _regressor_sign self;
  _regressor_init_knot_loc := _regressor_init_knot_loc self;
  _regressor_init_knot_scale := _regressor_init_knot_scale self;
  _regressor_knot_scale := _regressor_knot_scale self;
  coef_prior_list := coef_prior_list self;
  _coef_prior_list := _coef_prior_list self;
  _regression_knots_idx := _regression_knots_idx self;
  _num_of_regressors := _num_of_regressors self;
  _num_of_positive_regressors := _num_of_positive_regressors self;
  _positive_regressor_col := _positive_regressor_col self;
  _positive_regressor_init_knot_loc := _positive_regressor_init_knot_loc self;
  _positive_regressor_init_knot_scale := _positive_regressor_init_knot_scale self;
  _positive_regressor_knot_scale := _positive_regressor_knot_scale self;
  _num_of_regular_regressors := _num_of_regular_regressors self;
  _regular_regressor_col := _regular_regressor_col self;
  _regular_regressor_init_knot_loc := _regular_regressor_init_knot_loc self;
  _regular_regressor_init_knot_scale := _regular_regressor_init_knot_scale';
  _regular_regressor_knot_scale := _regular_regressor_knot_scale';
  _regressor_col := _regressor_col self;
  _knots_tp_coefficients := _knots_tp_coefficients self;
  _positive_regressor_matrix := _positive_regressor_matrix self;
  _regular_regressor_matrix := _regular_regressor_matrix self;
  date_freq := date_freq self;
  degree_of_freedom := degree_of_freedom self;
  _kernel_coefficients := _kernel_coefficients self;
  _seasonal_knots_input := _seasonal_knots_input self;
  rho_coefficients := rho_coefficients self;
  pred_array := pred_array self
|}.

(** [self.pred_array = ...] *)
Definition assign_pred_array (self : KTRModel) (pred_array' : attr (option Np.matrix)) : KTRModel := {|
  level_knot_scale := level_knot_scale self;
  knots_tp_level := knots_tp_level self;
  regressor_col := regressor_col self;
  regressor_sign := regressor_sign self;
  regressor_init_knot_loc := regressor_init_knot_loc self;
  regressor_init_knot_scale := regressor_init_knot_scale self;
  regressor_knot_scale := regressor_knot_scale self;
  regression_knot_distance := regression_knot_distance self;
  regression_segments := regression_segments self;
  _regression_knot_dates := _regression_knot_dates self;
  regression_rho := regression_rho self;
  flat_multiplier := flat_multiplier self;
  _regressor_sign := _regressor_sign self;
  _regressor_init_knot_loc := _regressor_init_knot_loc self;
  _regressor_init_knot_scale := _regressor_init_knot_scale self;
  _regressor_knot_scale := _regressor_knot_scale self;
  coef_prior_list := coef_prior_list self;
  _coef_prior_list := _coef_prior_list self;
  _regression_knots_idx := _regression_knots_idx self;
  _num_of_regressors := _num_of_regressors self;
  _num_of_positive_regressors := _num_of_positive_regressors self;
  _positive_regressor_col := _positive_regressor_col self;
  _positive_regressor_init_knot_loc := _positive_regressor_init_knot_loc self;
  _positive_regressor_init_knot_scale := _positive_regressor_init_knot_scale self;
  _positive_regressor_knot_scale := _positive_regressor_knot_scale self;
  _num_of_regular_regressors := _num_of_regular_regressors self;
  _regular_regressor_col := _regular_regressor_col self;
  _regular_regressor_init_knot_loc := _regular_regressor_init_knot_loc self;
  _regular_regressor_init_knot_scale := _regular_regressor_init_knot_scale self;
  _regular_regressor_knot_scale := _regular_regressor_knot_scale self;
  _regressor_col := _regressor_col self;
  _knots_tp_coefficients := _knots_tp_coefficients self;
  _positive_regressor_matrix := _positive_regressor_matrix self;
  _regular_regressor_matrix := _regular_regressor_matrix self;
  date_freq := date_freq self;
  degree_of_freedom := degree_of_freedom self;
  _kernel_coefficients := _kernel_coefficients self;
  _seasonal_knots_input := _seasonal_knots_input self;
  rho_coefficients := rho_coefficients self;
  pred_array := pred_array'
|}.

(** [self.regression_segments = ...] *)
Definition assign_regression_segments (self : KTRModel) (regression_segments' : Z) : KTRModel := {|
  level_knot_scale := level_knot_scale self;
  knots_tp_level := knots_tp_level self;
  regressor_col := regressor_col self;
  regressor_sign := regressor_sign self;
  regressor_init_knot_loc := regressor_init_knot_loc self;
  regressor_init_knot_scale := regressor_init_knot_scale self;
  regressor_knot_scale := regressor_knot_scale self;
  regression_knot_distance := regression_knot_distance self;
  regression_segments := regression_segments';
  _regression_knot_dates := _regression_knot_dates self;
  regression_rho := regression_rho self;
  flat_multiplier := flat_multiplier self;
  _regressor_sign := _regressor_sign self;
  _regressor_init_knot_loc := _regressor_init_knot_loc self;
  _regressor_init_knot_scale := _regressor_init_knot_scale self;
  _regressor_knot_scale := _regressor_knot_scale self;
  coef_prior_list := coef_prior_list self;
  _coef_prior_list := _coef_prior_list self;
  _regression_knots_idx := _regression_knots_idx self;
  _num_of_regressors := _num_of_regressors self;
  _num_of_positive_regressors := _num_of_positive_regressors self;
  _positive_regressor_col := _positive_regressor_col self;
  _positive_regressor_init_knot_loc := _positive_regressor_init_knot_loc self;
  _positive_regressor_init_knot_scale := _positive_regressor_init_knot_scale self;
  _positive_regressor_knot_scale := _positive_regressor_knot_scale self;
  _num_of_regular_regressors := _num_of_regular_regressors self;
  _regular_regressor_col := _regular_regressor_col self;
  _regular_regressor_init_knot_loc := _regular_regressor_init_knot_loc self;
  _regular_regressor_init_knot_scale := _regular_regressor_init_knot_scale self;
  _regular_regressor_knot_scale := _regular_regressor_knot_scale self;
  _regressor_col := _regressor_col self;
  _knots_tp_coefficients := _knots_tp_coefficients self;
  _positive_regressor_matrix := _positive_regressor_matrix self;
  _regular_regressor_matrix := _regular_regressor_matrix self;
  date_freq := date_freq self;
  degree_of_freedom := degree_of_freedom self;
  _kernel_coefficients := _kernel_coefficients self;
  _seasonal_knots_input := _seasonal_knots_input self;
  rho_coefficients := rho_coefficients self;
  pred_array := pred_array self
|}.

(** [self.knots_tp_level = ...], as [_set_levs_and_seas] does after the level
    knots have been bootstrapped. *)
Definition assign_knots_tp_level (self : KTRModel) (knots_tp_level' : option (list Q)) : KTRModel := {|
  level_knot_scale := level_knot_scale self;
  knots_tp_level := knots_tp_level';
  regressor_col := regressor_col self;
  regressor_sign := regressor_sign self;
  regressor_init_knot_loc := regressor_init_knot_loc self;
  regressor_init_knot_scale := regressor_init_knot_scale self;
  regressor_knot_scale := regressor_knot_scale self;
  regression_knot_distance := regression_knot_distance self;
  regression_segments := regression_segments self;
  _regression_knot_dates := _regression_knot_dates self;
  regression_rho := regression_rho self;
  flat_multiplier := flat_multiplier self;
  _regressor_sign := _regressor_sign self;
  _regressor_init_knot_loc := _regressor_init_knot_loc self;
  _regressor_init_knot_scale := _regressor_init_knot_scale self;
  _regressor_knot_scale := _regressor_knot_scale self;
  coef_prior_list := coef_prior_list self;
  _coef_prior_list := _coef_prior_list self;
  _regression_knots_idx := _regression_knots_idx self;
  _num_of_regressors := _num_of_regressors self;
  _num_of_positive_regressors := _num_of_positive_regressors self;
  _positive_regressor_col := _positive_regressor_col self;
  _positive_regressor_init_knot_loc := _positive_regressor_init_knot_loc self;
  _positive_regressor_init_knot_scale := _positive_regressor_init_knot_scale self;
  _positive_regressor_knot_scale := _positive_regressor_knot_scale self;
  _num_of_regular_regressors := _num_of_regular_regressors self;
  _regular_regressor_col := _regular_regressor_col self;
  _regular_regressor_init_knot_loc := _regular_regressor_init_knot_loc self;
  _regular_regressor_init_knot_scale := _regular_regressor_init_knot_scale self;
  _regular_regressor_knot_scale := _regular_regressor_knot_scale self;
  _regressor_col := _regressor_col self;
  _knots_tp_coefficients := _knots_tp_coefficients self;
  _positive_regressor_matrix := _positive_regressor_matrix self;
  _regular_regressor_matrix := _regular_regressor_matrix self;
  date_freq := date_freq self;
  degree_of_freedom := degree_of_freedom self;
  _kernel_coefficients := _kernel_coefficients self;
  _seasonal_knots_input := _seasonal_knots_input self;
  rho_coefficients := rho_coefficients self;
  pred_array := pred_array self
|}.

(** ** Construction: [__init__] and the static attributes *)

Definition require {A : Type} (o : option A) (e : exn) : result A :=
  match o with
  | Some a => Ok a
  | None => Raise e
  end.

(** [l[index]] for a non-negative position. *)
Definition item {A : Type} (l : list A) (index : nat) : result A :=
  require (nth_error l index) IndexError.

(** The local helper of [_set_default_args], on one parameter. *)
Definition _validate_params_len {A : Type} (p : option (list A))
           (valid_length : nat) : result unit :=
  match p with
  | Some l =>
      if (length l =? valid_length)%nat then Ok tt
      else Raise IllegalArgument
  | None => Ok tt
  end.

Definition _set_default_args (self : KTRModel) : result KTRModel :=
  let self :=
    match coef_prior_list self with
    | Some l => assign_coef_prior_list self l
    | None => self
    end in
  match regressor_col self with
  | None =>
      (* regardless of what args are set for these, if regressor_col is None
         these should all be empty lists *)
      Ok (assign_regressor_params self (Some []) (Some []) (Some []) (Some []))
  | Some cols =>
      let num_of_regressors := length cols in
      _ <- _validate_params_len (regressor_sign self) num_of_regressors ;;
      _ <- _validate_params_len (regressor_init_knot_loc self) num_of_regressors ;;
      _ <- _validate_params_len (regressor_init_knot_scale self) num_of_regressors ;;
      _ <- _validate_params_len (regressor_knot_scale self) num_of_regressors ;;
      let sign :=
        match regressor_sign self with
        | None => Some (Py.replicate DEFAULT_REGRESSOR_SIGN num_of_regressors)
        | Some _ => _regressor_sign self
        end in
      let loc :=
        match regressor_init_knot_loc self with
        | None => Some (Py.replicate DEFAULT_COEFFICIENTS_INIT_KNOT_LOC num_of_regressors)
        | Some _ => _regressor_init_knot_loc self
        end in
      let scale :=
        match regressor_init_knot_scale self with
        | None => Some (Py.replicate DEFAULT_COEFFICIENTS_INIT_KNOT_SCALE num_of_regressors)
        | Some _ => _regressor_init_knot_scale self
        end in
      let knot_scale :=
        match regressor_knot_scale self with
        | None => Some (Py.replicate DEFAULT_COEFFICIENTS_KNOT_SCALE num_of_regressors)
        | Some _ => _regressor_knot_scale self
        end in
      Ok (assign_num_of_regressors
            (assign_regressor_params self sign loc scale knot_scale)
            num_of_regressors)
  end.

(** [scale.append(x)]: defined on the list the constructor creates, not on
    the 2-D array a later fit leaves there. *)
Definition scale_append (s : scale_array) (x : Q) : result scale_array :=
  match s with
  | Scale1 v => Ok (Scale1 (v ++ [x]))
  | Scale2 _ => Raise AttributeError
  end.

(** One iteration of the loop over [enumerate(self._regressor_sign)]. *)
Definition static_regression_step (self : KTRModel) (index : nat)
           (reg_sign : string) : result KTRModel :=
  cols <- require (regressor_col self) TypeError ;;
  col <- item cols index ;;
  locs <- require (_regressor_init_knot_loc self) TypeError ;;
  loc <- item locs index ;;
  scales <- require (_regressor_init_knot_scale self) TypeError ;;
  scale <- item scales index ;;
  knot_scales <- require (_regressor_knot_scale self) TypeError ;;
  knot_scale <- item knot_scales index ;;
  if String.eqb reg_sign "+" then
    ks <- scale_append (_positive_regressor_knot_scale self) knot_scale ;;
    Ok (assign_positive self
          (S (_num_of_positive_regressors self))
          (_positive_regressor_col self ++ [col])
          (_positive_regressor_init_knot_loc self ++ [loc])
          (_positive_regressor_init_knot_scale self ++ [scale])
          ks)
  else
    ks <- scale_append (_regular_regressor_knot_scale self) knot_scale ;;
    Ok (assign_regular self
          (S (_num_of_regular_regressors self))
          (_regular_regressor_col self ++ [col])
          (_regular_regressor_init_knot_loc self ++ [loc])
          (_regular_regressor_init_knot_scale self ++ [scale])
          ks).

Fixpoint static_regression_loop (self : KTRModel) (index : nat)
         (signs : list string) : result KTRModel :=
  match signs with
  | [] => Ok self
  | reg_sign :: rest =>
      self' <- static_regression_step self index reg_sign ;;
      static_regression_loop self' (S index) rest
  end.

Definition _set_static_regression_attributes (self : KTRModel)
  : result KTRModel :=
  (* if no regressors, end here *)
  if (_num_of_regressors self =? 0)%nat then Ok self
  else
    signs <- require (_regressor_sign self) TypeError ;;
    self <- static_regression_loop self 0 signs ;;
    (* regular first, then positive *)
    Ok (assign_regressor_col self
          (_regular_regressor_col self ++ _positive_regressor_col self)).

Definition all_equal_nat (l : list nat) : bool :=
  match l with
  | [] => true
  | x :: _ => forallb (Nat.eqb x) l
  end.

(** [set(test_dict.keys()) != set([...])]: the keys of the dict are
    exactly the six documented ones. *)
Definition has_documented_keys (test_dict : CoefPrior) : bool :=
  forallb (has_key test_dict) documented_keys
  && forallb (fun k => existsb (PriorKey_eqb k) documented_keys)
             (prior_keys test_dict)
  && match prior_regressor_col_idx test_dict with
     | Some _ => false
     | None => true
     end.

(** [_validate_coef_prior]: the key set must be the documented one, and
    the three list-valued entries must have one length. *)
Definition _validate_coef_prior (coef_prior_list : list CoefPrior)
  : result unit :=
  _ <- mapM (fun test_dict =>
               if negb (has_documented_keys test_dict)
               then Raise IllegalArgument
               else
                 if all_equal_nat [prior_value_len (prior_mean test_dict);
                                   prior_value_len (prior_sd test_dict);
                                   length (prior_regressor_col test_dict)]
                 then Ok tt
                 else Raise IllegalArgument) coef_prior_list ;;
  Ok tt.

(** [np.where(np.array(cols) == col)[0][0]] *)
Fixpoint first_index (cols : list string) (col : string) : result nat :=
  match cols with
  | [] => Raise IndexError
  | c :: rest =>
      if String.eqb c col then Ok O
      else i <- first_index rest col ;; Ok (S i)
  end.

Definition with_col_idx (x : CoefPrior) (idx : list nat) : CoefPrior := {|
  prior_keys := prior_keys x;
  name := name x;
  prior_start_tp_idx := prior_start_tp_idx x;
  prior_end_tp_idx := prior_end_tp_idx x;
  prior_mean := prior_mean x;
  prior_sd := prior_sd x;
  prior_regressor_col := prior_regressor_col x;
  prior_regressor_col_idx := Some idx
|}.

Definition is_empty {A : Type} (l : list A) : bool :=
  match l with
  | [] => true
  | _ => false
  end.

Definition _set_coef_prior_idx (self : KTRModel) : result KTRModel :=
  if negb (is_empty (_coef_prior_list self))
     && (0 <? length (_regressor_col self))%nat
  then
    l <- mapM (fun x =>
                 idx <- mapM (first_index (_regressor_col self))
                             (prior_regressor_col x) ;;
                 Ok (with_col_idx x idx)) (_coef_prior_list self) ;;
    Ok (assign_coef_prior_list self l)
  else Ok self.

Definition _set_static_attributes (self : KTRModel) : result KTRModel :=
  self <- _set_default_args self ;;
  self <- _set_static_regression_attributes self ;;
  if negb (is_empty (_coef_prior_list self)) then
    _ <- _validate_coef_prior (_coef_prior_list self) ;;
    _set_coef_prior_idx self
  else Ok self.

(** The instance as the body of [__init__] leaves it just before the call
    of [_set_static_attributes].  [regression_segments] is assigned twice:
    first the argument, then 0. *)
Definition init_attributes (a : Args.t) : KTRModel :=
  let self := {|
    level_knot_scale := Args.level_knot_scale a;
    knots_tp_level := None;
    regressor_col := Args.regressor_col a;
    regressor_sign := Args.regressor_sign a;
    regressor_init_knot_loc := Args.regressor_init_knot_loc a;
    regressor_init_knot_scale := Args.regressor_init_knot_scale a;
    regressor_knot_scale := Args.regressor_knot_scale a;
    regression_knot_distance := Args.regression_knot_distance a;
    regression_segments := Args.regression_segments a;
    _regression_knot_dates := Args.regression_knot_dates a;
    regression_rho := Args.regression_rho a;
    flat_multiplier := Args.flat_multiplier a;
    _regressor_sign := Args.regressor_sign a;
    _regressor_init_knot_loc := Args.regressor_init_knot_loc a;
    _regressor_init_knot_scale := Args.regressor_init_knot_scale a;
    _regressor_knot_scale := Args.regressor_knot_scale a;
    coef_prior_list := Args.coef_prior_list a;
    _coef_prior_list := [];
    _regression_knots_idx := None;
    _num_of_regressors := 0;
    _num_of_positive_regressors := 0;
    _positive_regressor_col := [];
    _positive_regressor_init_knot_loc := [];
    _positive_regressor_init_knot_scale := [];
    _positive_regressor_knot_scale := Scale1 [];
    _num_of_regular_regressors := 0;
    _regular_regressor_col := [];
    _regular_regressor_init_knot_loc := [];
    _regular_regressor_init_knot_scale := [];
    _regular_regressor_knot_scale := Scale1 [];
    _regressor_col := [];
    _knots_tp_coefficients := None;
    _positive_regressor_matrix := None;
    _regular_regressor_matrix := None;
    date_freq := Args.date_freq a;
    degree_of_freedom := Args.degree_of_freedom a;
    _kernel_coefficients := Missing;
    _seasonal_knots_input := Missing;
    rho_coefficients := Missing;
    pred_array := Missing
  |} in
  assign_regression_segments self 0.

(** The constructor call with keyword arguments [a]. *)
Definition __init__ (a : Args.t) : result KTRModel :=
  _set_static_attributes (init_attributes a).

(** ** Fitting: regressor matrices, knots and kernel of the coefficients *)

Fixpoint foldM {A S : Type} (f : S -> A -> result S) (s : S) (l : list A)
  : result S :=
  match l with
  | [] => Ok s
  | a :: tl => s' <- f s a ;; foldM f s' tl
  end.

(** [tp = np.arange(lo, hi) / num_of_observations].  The rationals give
    a value to a division by 0 where NumPy answers inf or nan; every
    statement below has a positive number of observations. *)
Definition time_points (lo hi n : Z) : list Q :=
  map (fun i => (inject_Z i / inject_Z n)%Q) (Np.arange1 lo hi).

(** [pd.Index(l).get_loc(x)]: the position of the one exact match.  A
    missing label is a [KeyError]; with a repeated label pandas answers with
    a slice or a mask, and the arithmetic on it that follows fails. *)
Fixpoint positions (l : list Z) (x : Z) (from : Z) : list Z :=
  match l with
  | [] => []
  | y :: tl =>
      if y =? x then from :: positions tl x (from + 1)
      else positions tl x (from + 1)
  end.

Definition get_loc (l : list Z) (x : Z) : result Z :=
  match positions l x 0 with
  | [] => Raise KeyError
  | [i] => Ok i
  | _ => Raise TypeError
  end.

(** The conditional that resolves [start], written out in [_generate_tp],
    [_generate_seas], [predict] and [_get_regression_coefs_matrix]: a start
    after the training end continues from [num_of_observations], any other
    start is looked up in the training dates. *)
Definition start_index (training_meta : TrainingMeta) (prediction_start : Z)
  : result Z :=
  if training_end training_meta <? prediction_start
  then Ok (num_of_observations training_meta)
  else get_loc (date_array training_meta) prediction_start.

Definition list_max (l : list Z) : option Z :=
  match l with
  | [] => None
  | x :: tl => Some (fold_right Z.max x tl)
  end.

Definition list_min (l : list Z) : option Z :=
  match l with
  | [] => None
  | x :: tl => Some (fold_right Z.min x tl)
  end.

(** [x.astype(np.int32)] on a float within the 32-bit range: the fraction
    is dropped.  (Beyond that range NumPy leaves the result to the
    platform; such gaps are outside this function.) *)
Definition astype_int32 (x : Q) : Z :=
  if Qle_bool 0 x then Qfloor x else Qceiling x.

(** [s[0]] on a string *)
Definition first_char (s : string) : result string :=
  match s with
  | String c _ => Ok (String c EmptyString)
  | EmptyString => Raise IndexError
  end.

Definition _set_regressor_matrix (self : KTRModel) (df : DataFrame)
           (training_meta : TrainingMeta) : result KTRModel :=
  let num_of_observations := num_of_observations training_meta in
  (* validate regression columns *)
  _ <- match regressor_col self with
       | Some cols =>
           if negb (df_has_columns df cols) then Raise ModelException
           else Ok tt
       | None => Ok tt
       end ;;
  _ <- (if num_of_observations <? 0 then Raise ValueError else Ok tt) ;;
  let empty := Np.zeros (Z.to_nat num_of_observations) 0 in
  let positive :=
    if (0 <? _num_of_positive_regressors self)%nat
    then df_filter_values df (_positive_regressor_col self)
    else empty in
  let regular :=
    if (0 <? _num_of_regular_regressors self)%nat
    then df_filter_values df (_regular_regressor_col self)
    else empty in
  Ok (assign_regressor_matrices self (Some positive) (Some regular)).

(** [_set_knots_tp]: start in the middle of the first spacing. *)
Definition _set_knots_tp (knots_distance cutoff : Z) : result (list Z) :=
  let knots_idx_start := Py.round (inject_Z knots_distance / 2) in
  Np.arange knots_idx_start cutoff knots_distance.

Section Fit.

(** [orbit.utils.kernels.gauss_kernel(x, x_i, rho)]: one row per time
    point, one column per knot. *)
Variable gauss_kernel : list Q -> list Q -> Q -> Np.matrix.

(** [np.timedelta64(1, freq)] in ticks of the time stamps, for a unit
    [freq] that NumPy knows (for a string that is no unit of NumPy, the
    pandas alias ['H'] for one, the call is a [TypeError], which this
    function leaves out), and [pd.infer_freq] on a date column. *)
Variable timedelta64 : string -> Z.
Variable infer_freq : list Z -> option string.

(** [_get_gap_between_dates] *)
Definition _get_gap_between_dates (start_date end_date : Z) (freq : string)
  : Q :=
  (inject_Z (end_date - start_date) / inject_Z (timedelta64 freq))%Q.

Definition _set_coefficients_kernel_matrix (self : KTRModel)
           (df : DataFrame) (training_meta : TrainingMeta)
  : result KTRModel :=
  let num_of_observations := num_of_observations training_meta in
  (* Note that our tp starts by 1 *)
  let tp := time_points 1 (num_of_observations + 1) num_of_observations in
  let _cutoff := num_of_observations in
  _ <- (if num_of_observations <? 0 then Raise ValueError else Ok tt) ;;
  let self :=
    assign_kernel_coefficients self
      (Bound (Np.zeros (Z.to_nat num_of_observations) 0)) 0 in
  if (0 <? _num_of_regressors self)%nat then
    self <-
      match _regression_knot_dates self with
      | None =>
          knots_distance <-
            match regression_knot_distance self with
            | Some d => Ok d
            | None =>
                let number_of_knots := regression_segments self + 1 in
                Py.ceil_div _cutoff number_of_knots
            end ;;
          knots_idx_coef <- _set_knots_tp knots_distance _cutoff ;;
          let knots_tp :=
            map (fun i => (inject_Z (1 + i)
                           / inject_Z num_of_observations)%Q)
                knots_idx_coef in
          dates <- mapM (Py.index (df_dates df)) knots_idx_coef ;;
          Ok (assign_regression_knots self
                (Some knots_tp) (Some dates) (Some knots_idx_coef))
      | Some knot_dates =>
          let in_range (x : Z) : bool :=
            match list_max (df_dates df), list_min (df_dates df) with
            | Some hi, Some lo => (x <=? hi) && (lo <=? x)
            | _, _ => false
            end in
          let knot_dates := filter in_range knot_dates in
          freq <-
            match date_freq self with
            | Some f => Ok f
            | None =>
                f <- require (infer_freq (df_dates df)) TypeError ;;
                first_char f
            end ;;
          let self := assign_date_freq self (Some freq) in
          let start_date := training_start training_meta in
          let end_date := training_end training_meta in
          let gaps :=
            map (fun d => _get_gap_between_dates start_date d freq)
                knot_dates in
          let knots_tp :=
            map (fun g =>
                   ((g + 1)
                    / (_get_gap_between_dates start_date end_date freq + 1))%Q)
                gaps in
          Ok (assign_regression_knots self
                (Some knots_tp) (Some knot_dates)
                (Some (map astype_int32 gaps)))
      end ;;
    knots_tp <- require (_knots_tp_coefficients self) TypeError ;;
    let kernel_coefficients :=
      gauss_kernel tp knots_tp (regression_rho self) in
    Ok (assign_kernel_coefficients self
          (Bound kernel_coefficients)
          (Z.of_nat (length knots_tp)))
  else Ok self.

End Fit.

(** ** Fitting: the knot scale multipliers *)

(** [np.ones((n, k))] *)
Definition ones (n k : nat) : list (list float64) :=
  repeat (repeat (Fin 1) k) n.

(** [a[idx] = x] on one row *)
Fixpoint set_nth {A : Type} (l : list A) (idx : nat) (x : A) : result (list A) :=
  match l, idx with
  | [], _ => Raise IndexError
  | _ :: tl, O => Ok (x :: tl)
  | y :: tl, S i => tl' <- set_nth tl i x ;; Ok (y :: tl')
  end.

(** [a[:, idx] = v]: [v] has one entry per row of [a], or a single entry
    that is stretched. *)
Definition set_column {A : Type} (a : list (list A)) (idx : nat) (v : list A)
  : result (list (list A)) :=
  if (length v =? length a)%nat
  then zipWithM (fun row x => set_nth row idx x) a v
  else
    match v with
    | [x] => mapM (fun row => set_nth row idx x) a
    | _ => Raise ValueError
    end.

(** [np.mean(np.fabs(m[str_idx:end_idx]), axis=0)] for a matrix with
    [c] columns. *)
Definition segment_mean (c : nat) (m : Np.matrix) (str_idx end_idx : Z)
  : list float64 :=
  map (fun j => Stats.mean (Stats.abs_column (Py.slice m str_idx end_idx) j))
      (seq 0 c).

(** The body of the loop over [range(len(self._regression_knots_idx))]:
    the local value of every regressor on the range from knot [idx] to the
    next knot, or to the end of the series for the last knot. *)
Definition local_val_step (m : Np.matrix) (knots_idx : list Z)
           (num_of_observations : Z) (local_val : list (list float64))
           (idx : nat) : result (list (list float64)) :=
  str_idx <- item knots_idx idx ;;
  end_idx <- (if (idx <? length knots_idx - 1)%nat
              then item knots_idx (idx + 1)
              else Ok num_of_observations) ;;
  set_column local_val idx (segment_mean (Np.ncols m) m str_idx end_idx).

Definition local_val_loop (m : Np.matrix) (knots_idx : list Z)
           (num_of_observations : Z) (local_val : list (list float64))
  : result (list (list float64)) :=
  foldM (local_val_step m knots_idx num_of_observations) local_val
        (seq 0 (length knots_idx)).

(** [test_flag = local_val < 0.01 * global_med], with [global_med] one
    value per regressor, expanded to a column. *)
Definition low_volume_flags (local_val : list (list float64))
           (global_med : list float64) : result (list (list bool)) :=
  Np.bzip (fun row g =>
             Ok (map (fun x => Stats.lt x (Stats.scale (1 # 100) g)) row))
          local_val global_med.

(** [multiplier[test_flag] = DEFAULT_LOWER_BOUND_SCALE_MULTIPLIER] *)
Definition set_flagged (multiplier : list (list float64))
           (test_flag : list (list bool)) : result (list (list float64)) :=
  if (length test_flag =? length multiplier)%nat
  then Ok (map (fun p =>
                  map (fun q => if (snd q : bool)
                                then Fin DEFAULT_LOWER_BOUND_SCALE_MULTIPLIER
                                else fst q)
                      (combine (fst p) (snd p)))
               (combine multiplier test_flag))
  else Raise IndexError.

(** [multiplier[np.isnan(multiplier).all(axis=-1)] = 1.0] *)
Definition reset_nan_rows (multiplier : list (list float64))
  : list (list float64) :=
  map (fun row => if forallb Stats.isnan row
                  then map (fun _ => Fin 1) row
                  else row) multiplier.

(** The multiplier of the positive regressors, as computed at the top of
    [_set_knots_scale_matrix]. *)
Definition positive_multiplier (self : KTRModel) (num_of_observations : Z)
  : result (list (list float64)) :=
  let n := _num_of_positive_regressors self in
  let k := Z.to_nat (regression_segments self) in
  let local_val := ones n k in
  if flat_multiplier self then Ok (ones n k)
  else
    let multiplier := ones n k in
    knots_idx <- require (_regression_knots_idx self) TypeError ;;
    m <- require (_positive_regressor_matrix self) TypeError ;;
    (* store local value for the range on the left side since last knot *)
    local_val <- local_val_loop m knots_idx num_of_observations local_val ;;
    let global_med :=
      map (fun j => Stats.mean (Stats.abs_column m j)) (seq 0 (Np.ncols m)) in
    test_flag <- low_volume_flags local_val global_med ;;
    multiplier <- set_flagged multiplier test_flag ;;
    Ok (reset_nan_rows multiplier).

(** The multiplier of the regular regressors.  Both branches of the test on
    [flat_multiplier] start from ones, and everything after the test runs
    whatever its outcome. *)
Definition regular_multiplier (self : KTRModel) (num_of_observations : Z)
  : result (list (list float64)) :=
  let n := _num_of_regular_regressors self in
  let k := Z.to_nat (regression_segments self) in
  let local_val := ones n k in
  let multiplier := if flat_multiplier self then ones n k else ones n k in
  knots_idx <- require (_regression_knots_idx self) TypeError ;;
  m <- require (_regular_regressor_matrix self) TypeError ;;
  (* store local value for the range on the left side since last knot *)
  local_val <- local_val_loop m knots_idx num_of_observations local_val ;;
  let global_med :=
    map (fun j => Stats.median (Stats.abs_column m j)) (seq 0 (Np.ncols m)) in
  test_flag <- low_volume_flags local_val global_med ;;
  multiplier <- set_flagged multiplier test_flag ;;
  Ok (reset_nan_rows multiplier).

(** [multiplier * np.expand_dims(scale, -1)] followed by the lower bound
    [x[x < 1e-4] = 1e-4].  The scale is the 1-D array left by the
    constructor; on a 2-D array (a second fit of the same instance) NumPy
    broadcasts (n, k) against (n, k, 1), which is a shape error unless
    n = k or one of them is 1, and the embedding raises it in every case. *)
Definition floor_scale (x : float64) : float64 :=
  if Stats.lt x (Fin (1 # 10000)) then Fin (1 # 10000) else x.

Definition floor_scale_Q (x : Q) : Q :=
  match Qcompare x (1 # 10000) with
  | Lt => 1 # 10000
  | _ => x
  end.

Definition scale_by_multiplier (multiplier : list (list float64))
           (scale : scale_array) : result scale_array :=
  match scale with
  | Scale1 v =>
      rows <- Np.bzip (fun row s => Ok (map (Stats.scale s) row))
                      multiplier v ;;
      Ok (Scale2 (map (map floor_scale) rows))
  | Scale2 _ => Raise ValueError
  end.

Definition _set_knots_scale_matrix (self : KTRModel)
           (training_meta : TrainingMeta) : result KTRModel :=
  let num_of_observations := num_of_observations training_meta in
  self <-
    (if (0 <? _num_of_positive_regressors self)%nat then
       multiplier <- positive_multiplier self num_of_observations ;;
       knot_scale <- scale_by_multiplier multiplier
                       (_positive_regressor_knot_scale self) ;;
       Ok (assign_positive_scales self knot_scale
             (map floor_scale_Q (_positive_regressor_init_knot_scale self)))
     else Ok self) ;;
  if (0 <? _num_of_regular_regressors self)%nat then
    multiplier <- regular_multiplier self num_of_observations ;;
    knot_scale <- scale_by_multiplier multiplier
                    (_regular_regressor_knot_scale self) ;;
    Ok (assign_regular_scales self knot_scale
          (map floor_scale_Q (_regular_regressor_init_knot_scale self)))
  else Ok self.

(** ** Time points and seasonality *)

Definition _generate_tp (training_meta : TrainingMeta)
           (prediction_date_array : list Z) : result (list Q) :=
  let num_of_observations := num_of_observations training_meta in
  prediction_start <- Py.index prediction_date_array 0 ;;
  let output_len := Z.of_nat (length prediction_date_array) in
  start <- start_index training_meta prediction_start ;;
  Ok (time_points (start + 1) (start + output_len + 1) num_of_observations).

(** [np.nonzero(np.in1d(train_date_array, date_array))[0]] *)
Fixpoint in1d_positions (train_date_array date_array : list Z) (from : Z)
  : list Z :=
  match train_date_array with
  | [] => []
  | d :: tl =>
      if existsb (Z.eqb d) date_array
      then from :: in1d_positions tl date_array (from + 1)
      else in1d_positions tl date_array (from + 1)
  end.

Definition _generate_insample_tp (training_meta : TrainingMeta)
           (date_array' : list Z) : list Q :=
  let idx := in1d_positions (date_array training_meta) date_array' 0 in
  map (fun i => (inject_Z (i + 1)
                 / inject_Z (num_of_observations training_meta))%Q) idx.

(** [np.squeeze(t, axis=0)] *)
Definition squeeze0 (t : Np.tensor3) : result Np.matrix :=
  match t with
  | [m] => Ok m
  | _ => Raise ValueError
  end.

(** The columns of several blocks side by side, for a table of [rows]
    rows. *)
Definition hstack (rows : nat) (blocks : list Np.matrix) : Np.matrix :=
  map (fun i => flat_map (fun b => nth i b []) blocks) (seq 0 rows).

Section Predict.

Variable gauss_kernel : list Q -> list Q -> Q -> Np.matrix.

(** [orbit.utils.kernels.sandwich_kernel(x, x_i)]: one row per time
    point, one column per knot. *)
Variable sandwich_kernel : list Q -> list Q -> Np.matrix.

(** The Fourier columns that [make_fourier_series_df] adds to a table of
    the given number of rows, for one period, order and shift.  Distinct
    periods give distinct column names, so the seasonal regressor matrix
    is the blocks side by side. *)
Variable make_fourier_series : nat -> Q -> Z -> Z -> Np.matrix.

(** The random sources: entry (i, j) of a draw of [np.random.laplace]
    with the given scale, and of [nct.rvs] with the given degrees of
    freedom and scale. *)
Variable laplace : Q -> nat -> nat -> Q.
Variable nct_rvs : Z -> Q -> nat -> nat -> Q.

Definition _generate_coefs (training_meta : TrainingMeta)
           (prediction_date_array coef_knot_dates : list Z)
           (coef_knot : Np.tensor3) : result Np.matrix :=
  new_tp <- _generate_tp training_meta prediction_date_array ;;
  let knots_tp_coef := _generate_insample_tp training_meta coef_knot_dates in
  let kernel_coef := sandwich_kernel new_tp knots_tp_coef in
  prod <- Np.matmul_t3 coef_knot kernel_coef ;;
  coefs <- squeeze0 prod ;;
  Ok (Np.transpose (Np.ncols coefs) coefs).

Definition _generate_seas (df : DataFrame) (training_meta : TrainingMeta)
           (coef_knot_dates : list Z) (coef_knot : Np.tensor3)
           (seasonality : list Q) (seasonality_fs_order : list Z)
  : result Np.vector :=
  let prediction_date_array := df_dates df in
  prediction_start <- Py.index prediction_date_array 0 ;;
  start <- start_index training_meta prediction_start ;;
  blocks <-
    mapM (fun p =>
            order <- item seasonality_fs_order (fst p) ;;
            Ok (make_fourier_series (length (df_dates df)) (snd p)
                                    order start))
         (combine (seq 0 (length seasonality)) seasonality) ;;
  let sea_regressor_matrix := hstack (length (df_dates df)) blocks in
  sea_coefs <- _generate_coefs training_meta prediction_date_array
                               coef_knot_dates coef_knot ;;
  rows <- Np.bzip (Np.bzip (fun x y => Ok (x * y)%Q))
                  sea_coefs sea_regressor_matrix ;;
  Ok (map Np.sum rows).

(** *** Regression coefficients by date *)

(** Modelled from the spec: [orbit.utils.general.is_ordered_datetime] is
    not part of this file.  The date index must be "ordered and
    duplicate-free" (the message raised on its failure reads "must be
    ordered and not repeat"): every date is strictly before the next. *)
Fixpoint is_ordered_datetime (l : list Z) : bool :=
  match l with
  | x :: ((y :: _) as tl) => (x <? y) && is_ordered_datetime tl
  | _ => true
  end.

(** A sample array of the posteriors read at the rank the estimator gives
    it; [None] when the key is absent. *)
Definition get_tensor3 (p : posteriors) (k : string) : result Np.tensor3 :=
  match dict_get p k with
  | Some (Np.A3 t) => Ok t
  | Some _ => Raise ValueError
  | None => Raise TypeError
  end.

Definition _get_regression_coefs_matrix (self : KTRModel)
           (training_meta : TrainingMeta) (posteriors : posteriors)
           (date_array : option (list Z)) : result (option Np.tensor3) :=
  let num_of_observations := num_of_observations training_meta in
  if (_num_of_regular_regressors self + _num_of_positive_regressors self
      =? 0)%nat
  then Ok None
  else
    match date_array with
    | None =>
        (* dynamic coefficients in the training period *)
        kernel <- getattr (_kernel_coefficients self) ;;
        coef_knots <- get_tensor3 posteriors COEFFICIENTS_KNOT ;;
        regressor_betas <- Np.matmul_t3 coef_knots kernel ;;
        (* back to batch x time step x regressor columns shape *)
        Ok (Some (Np.transpose_021 regressor_betas))
    | Some date_array =>
        let output_len := Z.of_nat (length date_array) in
        (* some validation of date array *)
        if negb (is_ordered_datetime date_array) then Raise IllegalArgument
        else
          prediction_start <- Py.index date_array 0 ;;
          if prediction_start <? training_start training_meta
          then Raise ModelException
          else
            start <- start_index training_meta prediction_start ;;
            let new_tp :=
              time_points (start + 1) (start + output_len + 1)
                          num_of_observations in
            rho <- getattr (rho_coefficients self) ;;
            knots_tp <- require (_knots_tp_coefficients self) TypeError ;;
            let kernel_coefficients := gauss_kernel new_tp knots_tp rho in
            coef_knots <- get_tensor3 posteriors COEFFICIENTS_KNOT ;;
            regressor_betas <- Np.matmul_t3 coef_knots kernel_coefficients ;;
            Ok (Some (Np.transpose_021 regressor_betas))
    end.

(** *** Prediction *)

Definition tabulate (r c : nat) (f : nat -> nat -> Q) : Np.matrix :=
  map (fun i => map (fun j => f i j) (seq 0 c)) (seq 0 r).

(** [a.reshape(-1, 1)], as the list of its entries *)
Definition flatten (a : Np.ndarray) : list Q :=
  match a with
  | Np.A1 v => v
  | Np.A2 m => concat m
  | Np.A3 t => concat (concat t)
  end.

(** The level knots used for the trend: the time positions of the knots
    and their sampled values.  With [include_error], knots are added past
    the last training knot when the horizon reaches one knot width beyond
    it; their values continue each sample by a random walk. *)
Definition predict_level_knots (self : KTRModel) (model : posteriors)
           (new_tp : list Q) (include_error : bool)
  : result (list Q * option Np.ndarray) :=
  if include_error then
    (* in-sample knots *)
    let lev_knot_in := dict_get model LEVEL_KNOT in
    knots_tp_level <- require (knots_tp_level self) TypeError ;;
    last <- Py.index knots_tp_level (-1) ;;
    prev <- Py.index knots_tp_level (-2) ;;
    let lev_knot_width := (last - prev)%Q in
    new_last <- Py.index new_tp (-1) ;;
    (* check whether we need to put new knots for simulation *)
    if Qle_bool (last + lev_knot_width) new_last then
      (* derive knots tp *)
      knots_tp_level_out <-
        Np.arangeQ (last + lev_knot_width) new_last lev_knot_width ;;
      let new_knots_tp_level := knots_tp_level ++ knots_tp_level_out in
      lev_knot_in <-
        match lev_knot_in with
        | Some (Np.A2 m) => Ok m
        | Some _ => Raise IndexError
        | None => Raise AttributeError
        end ;;
      let draws :=
        tabulate (length lev_knot_in) (length knots_tp_level_out)
                 (laplace (level_knot_scale self)) in
      lev_knot <-
        zipWithM (fun row noise =>
                    last_value <- Py.index row (-1) ;;
                    Ok (row ++ skipn 1 (Np.cumsum (last_value :: noise))))
                 lev_knot_in draws ;;
      Ok (new_knots_tp_level, Some (Np.A2 lev_knot))
    else Ok (knots_tp_level, lev_knot_in)
  else
    knots_tp_level <- require (knots_tp_level self) TypeError ;;
    Ok (knots_tp_level, dict_get model LEVEL_KNOT).

(** [nct.rvs(df, nc=0, loc=0, scale=scales, size=(num_sample, t))]: one
    draw per sample and time step, at the scale of the sample. *)
Definition error_draws (dof : Z) (scales : list Q) (num_sample t : nat)
  : Np.matrix :=
  map (fun p => map (fun j => nct_rvs dof (snd p) (fst p) j) (seq 0 t))
      (combine (seq 0 num_sample) scales).

Definition decomp_dict : Type := list (string * Np.matrix).

(** The block of [predict] that computes the regression component from
    the trend: zeros of the trend's shape, replaced by the coefficient
    curves times the regressors when the model has regressors. *)
Definition predict_regression (self : KTRModel)
           (posterior_estimates : posteriors) (df : DataFrame)
           (training_meta : TrainingMeta) (prediction_meta : PredictionMeta)
           (trend : Np.matrix) : result Np.matrix :=
  let regression := Np.zeros (length trend) (Np.ncols trend) in
  if (0 <? _num_of_regressors self)%nat then
    let regressor_matrix := df_filter_values df (_regressor_col self) in
    regressor_betas <-
      _get_regression_coefs_matrix self training_meta
        posterior_estimates (Some (pm_date_array prediction_meta)) ;;
    regressor_betas <- require regressor_betas TypeError ;;
    Np.mul_sum_last regressor_betas regressor_matrix
  else Ok regression.

Definition predict (self : KTRModel) (posterior_estimates : posteriors)
           (df : DataFrame) (training_meta : TrainingMeta)
           (prediction_meta : PredictionMeta)
           (include_error store_prediction_array : bool)
  : result (decomp_dict * KTRModel) :=
  let model := posterior_estimates in
  arbitrary_posterior_value <-
    match model with
    | [] => Raise IndexError
    | p :: _ => Ok (snd p)
    end ;;
  let num_sample := Np.shape0 arbitrary_posterior_value in
  let output_len := df_length prediction_meta in
  let num_of_observations := num_of_observations training_meta in
  start <- start_index training_meta (prediction_start prediction_meta) ;;
  let new_tp :=
    time_points (start + 1) (start + output_len + 1) num_of_observations in
  ' (new_knots_tp_level, lev_knot) <-
    predict_level_knots self model new_tp include_error ;;
  let kernel_level := sandwich_kernel new_tp new_knots_tp_level in
  obs_scale <- require (dict_get model OBS_SCALE) AttributeError ;;
  let obs_scale := flatten obs_scale in
  seasonal_knots_input <- getattr (_seasonal_knots_input self) ;;
  seas <-
    match seasonal_knots_input with
    | Some inp =>
        seas <- _generate_seas df training_meta
                  (_seas_coef_knot_dates inp) (_sea_coef_knot inp)
                  (_seasonality inp) (_seasonality_fs_order inp) ;;
        (* seas is 1-d array, add the batch size back *)
        Ok [seas]
    | None =>
        (* follow component shapes *)
        if output_len <? 0 then Raise ValueError
        else Ok (Np.zeros 1 (Z.to_nat output_len))
    end ;;
  lev_knot <-
    match lev_knot with
    | Some (Np.A2 m) => Ok m
    | Some _ => Raise ValueError
    | None => Raise TypeError
    end ;;
  trend <- Np.matmul_t lev_knot kernel_level ;;
  regression <-
    predict_regression self posterior_estimates df training_meta
                       prediction_meta trend ;;
  pred_array <-
    (if include_error then
       scales <-
         (if (length obs_scale =? num_sample)%nat then Ok obs_scale
          else
            match obs_scale with
            | [s] => Ok (repeat s num_sample)
            | _ => Raise ValueError
            end) ;;
       let epsilon :=
         error_draws (degree_of_freedom self) scales num_sample
                     (length new_tp) in
       a <- Np.add2 trend seas ;;
       b <- Np.add2 a regression ;;
       Np.add2 b epsilon
     else
       a <- Np.add2 trend seas ;;
       Np.add2 a regression) ;;
  (* if decompose output dictionary of components *)
  let decomp_dict := [("prediction"%string, pred_array);
                      ("trend"%string, trend);
                      ("seasonality_input"%string, seas);
                      ("regression"%string, regression)] in
  let self :=
    assign_pred_array self
      (Bound (if store_prediction_array then Some pred_array else None)) in
  Ok (decomp_dict, self).

End Predict.

(** ** Concatenation of regression coefficients *)




(** ** The coefficient prior filter *)

(** One row stretched to [cols] entries. *)
Definition broadcast_row (cols : nat) (r : list Q) : result (list Q) :=
  if (length r =? cols)%nat then Ok r
  else
    match r with
    | [x] => Ok (repeat x cols)
    | _ => Raise ValueError
    end.

(** [np.full((rows, cols), v)] *)
Definition np_full (rows cols : nat) (v : prior_value) : result Np.matrix :=
  match v with
  | PriorList l => r <- broadcast_row cols l ;; Ok (repeat r rows)
  | PriorArray a =>
      a' <- mapM (broadcast_row cols) a ;;
      if (length a' =? rows)%nat then Ok a'
      else
        match a' with
        | [r] => Ok (repeat r rows)
        | _ => Raise ValueError
        end
  end.

(** The four [test_dict.update] calls of the non-empty branch. *)
Definition with_window (x : CoefPrior) (start_tp_idx end_tp_idx : Z)
           (m sd : Np.matrix) : CoefPrior := {|
  prior_keys := prior_keys x;
  name := name x;
  prior_start_tp_idx := start_tp_idx;
  prior_end_tp_idx := end_tp_idx;
  prior_mean := PriorArray m;
  prior_sd := PriorArray sd;
  prior_regressor_col := prior_regressor_col x;
  prior_regressor_col_idx := prior_regressor_col_idx x
|}.

(** [a == b] on two lists of strings or of ints *)
Fixpoint list_eqb {A : Type} (eqb : A -> A -> bool) (a b : list A) : bool :=
  match a, b with
  | [], [] => true
  | x :: a', y :: b' => eqb x y && list_eqb eqb a' b'
  | _, _ => false
  end.

Section CoefPriorFilter.

(** [aval == bval] and its truth value, for two values of [prior_mean],
    of [prior_sd] or of a key outside the documented ones (lists or
    arrays): NumPy's rules decide it and may refuse to (the truth value of
    an array comparison with more than one entry is a [ValueError]). *)
Variable value_eq : prior_value -> prior_value -> result bool.

(** The comparison of the values that two dicts hold under the key [k]. *)
Definition key_eq (k : PriorKey) (a b : CoefPrior) : result bool :=
  match k with
  | NAME => Ok (String.eqb (name a) (name b))
  | PRIOR_START_TP_IDX => Ok (prior_start_tp_idx a =? prior_start_tp_idx b)
  | PRIOR_END_TP_IDX => Ok (prior_end_tp_idx a =? prior_end_tp_idx b)
  | PRIOR_MEAN => value_eq (prior_mean a) (prior_mean b)
  | PRIOR_SD => value_eq (prior_sd a) (prior_sd b)
  | PRIOR_REGRESSOR_COL =>
      Ok (list_eqb String.eqb (prior_regressor_col a) (prior_regressor_col b))
  | OTHER_KEY _ v =>
      match find (PriorKey_eqb k) (prior_keys b) with
      | Some (OTHER_KEY _ v') => value_eq v v'
      | _ => Ok false
      end
  end.

(** The loop of the dict comparison over the keys of the left dict, in
    their order: a key that the right dict lacks, or the first value that
    differs, decides it; the seventh key comes last. *)
Fixpoint keys_eq (keys : list PriorKey) (a b : CoefPrior) : result bool :=
  match keys with
  | [] =>
      match prior_regressor_col_idx a, prior_regressor_col_idx b with
      | Some ia, Some ib => Ok (list_eqb Nat.eqb ia ib)
      | Some _, None => Ok false
      | None, _ => Ok true
      end
  | k :: tl =>
      if negb (has_key b k) then Ok false
      else
        same <- key_eq k a b ;;
        if (same : bool) then keys_eq tl a b else Ok false
  end.

(** [a == b] on two prior dicts: dicts of different sizes differ;
    otherwise the keys of [a] are gone through in the order of [a].  In
    the filter, [a] is an entry that the loop has kept and updated, so its
    mean and sd are arrays of their own and no value of [a] is the same
    object as a value of [b]. *)
Definition dict_eq (a b : CoefPrior) : result bool :=
  if negb (dict_len a =? dict_len b)%nat then Ok false
  else keys_eq (prior_keys a) a b.

(** The live list [self._coef_prior_list] holds dict objects; each is
    paired with its identity, the position it had when the loop started.
    [l.remove(x)] deletes the first entry that is [x] itself or compares
    equal to it. *)
Fixpoint list_remove (l : list (nat * CoefPrior)) (x_id : nat)
         (x : CoefPrior) : result (list (nat * CoefPrior)) :=
  match l with
  | [] => Raise ValueError
  | (i, d) :: tl =>
      if (i =? x_id)%nat then Ok tl
      else
        same <- dict_eq d x ;;
        if (same : bool) then Ok tl
        else tl' <- list_remove tl x_id x ;; Ok ((i, d) :: tl')
  end.

(** [test_dict.update(...)]: the object changes in place, wherever the
    live list still holds it. *)
Definition update_in_place (l : list (nat * CoefPrior)) (x_id : nat)
           (x' : CoefPrior) : list (nat * CoefPrior) :=
  map (fun p => if (fst p =? x_id)%nat then (x_id, x') else p) l.

(** The loop over the copy [self._coef_prior_list[:]]; [live] is the list
    being filtered, [rows] is [df.shape[0]]. *)
Fixpoint filter_loop (rows : Z) (copy live : list (nat * CoefPrior))
  : result (list (nat * CoefPrior)) :=
  match copy with
  | [] => Ok live
  | (id, test_dict) :: rest =>
      _ <- getitem test_dict PRIOR_REGRESSOR_COL ;;
      let prior_regressor_col := prior_regressor_col test_dict in
      _ <- getitem test_dict PRIOR_MEAN ;;
      let m := prior_mean test_dict in
      _ <- getitem test_dict PRIOR_SD ;;
      let sd := prior_sd test_dict in
      _ <- getitem test_dict PRIOR_END_TP_IDX ;;
      let end_tp_idx := Z.min (prior_end_tp_idx test_dict) rows in
      _ <- getitem test_dict PRIOR_START_TP_IDX ;;
      let start_tp_idx := Z.min (prior_start_tp_idx test_dict) rows in
      if start_tp_idx <? end_tp_idx then
        let window := Z.to_nat (end_tp_idx - start_tp_idx) in
        let width := length prior_regressor_col in
        (* mean/sd expanding *)
        m' <- np_full window width m ;;
        sd' <- np_full window width sd ;;
        filter_loop rows rest
          (update_in_place live id
             (with_window test_dict start_tp_idx end_tp_idx m' sd'))
      else
        (* removing invalid prior *)
        live' <- list_remove live id test_dict ;;
        filter_loop rows rest live'
  end.

Definition enumerate {A : Type} (l : list A) : list (nat * A) :=
  combine (seq 0 (length l)) l.

Definition _filter_coef_prior (self : KTRModel) (df : DataFrame)
  : result KTRModel :=
  if negb (is_empty (_coef_prior_list self))
     && (0 <? length (_regressor_col self))%nat
  then
    let objects := enumerate (_coef_prior_list self) in
    live <- filter_loop (Z.of_nat (length (df_dates df))) objects objects ;;
    Ok (assign_coef_prior_list self (map snd live))
  else Ok self.

End CoefPriorFilter.

(** ** Fitting: the valid responses *)

(** The attributes that [_set_valid_response_attributes] assigns. *)
Record ValidResponse : Type := {
  response_offset : float64;
  is_valid_response : list bool;
  which_valid_response : list Z;
  num_of_valid_response : nat
}.

(** The entries of a 1-D array that are not nan. *)
Definition defined_values (v : list float64) : list Q :=
  flat_map (fun x => match x with
                     | Fin q => [q]
                     | NaN => []
                     end) v.

(** [np.nanmean] of a 1-D array: the mean of the entries that are not nan,
    nan when there is none. *)
Definition nanmean (v : list float64) : float64 :=
  Stats.mean (defined_values v).

(** [np.where(flags)[0]]: the positions that hold [True]. *)
Fixpoint where_true (flags : list bool) (from : Z) : list Z :=
  match flags with
  | [] => []
  | b :: tl =>
      if b then from :: where_true tl (from + 1)
      else where_true tl (from + 1)
  end.

(** [np.max] of a non-empty 1-D array. *)
Definition np_max (x : Q) (tl : list Q) : Q :=
  fold_right (fun a b => if Qle_bool a b then b else a) x tl.

(** [_set_valid_response_attributes].  [_seasonality] is the attribute
    [self._seasonality], which the constructor sets to [None];
    [response] is [training_meta['response']]. *)
Definition _set_valid_response_attributes (_seasonality : option (list Q))
           (training_meta : TrainingMeta) (response : list float64)
  : result ValidResponse :=
  let num_of_observations := num_of_observations training_meta in
  _ <- match _seasonality with
       | Some (s :: tl) =>
           let max_seasonality := Py.round (np_max s tl) in
           if num_of_observations <? max_seasonality
           then Raise ModelException
           else Ok tt
       | _ => Ok tt
       end ;;
  (* get some reasonable offset to regularize response *)
  let response_offset :=
    match _seasonality with
    | Some (s :: tl) =>
        let max_seasonality := Py.round (np_max s tl) in
        nanmean (Py.slice response 0 max_seasonality)
    | _ => nanmean response
    end in
  let is_valid_response := map (fun x => negb (Stats.isnan x)) response in
  let which_valid_response := where_true is_valid_response 0 in
  Ok {| response_offset := response_offset;
        is_valid_response := is_valid_response;
        which_valid_response := which_valid_response;
        num_of_valid_response := length which_valid_response |}.

(** ** Fitting: the dynamic attributes *)

Section DynamicAttributes.

Variable gauss_kernel : list Q -> list Q -> Q -> Np.matrix.
Variable timedelta64 : string -> Z.
Variable infer_freq : list Z -> option string.
Variable value_eq : prior_value -> prior_value -> result bool.

(** The part of [_set_levs_and_seas] that runs outside this file: the fit
    of KTRLite and the time positions of those of its level knots that lie
    within the training dates.  It fails when the fit fails, when the
    frequency of the dates cannot be inferred, and with [ModelException]
    when no level knot is left. *)
Variable level_knots_tp :
  KTRModel -> DataFrame -> TrainingMeta -> result (list Q).

(** [_set_levs_and_seas].  The method ends with
    [if self._seasonality:], the only place that assigns
    [self._seasonal_knots_input]; [self._seasonality] is [None] from the
    constructor on and no statement assigns it again, so the branch is
    never taken. *)
Definition _set_levs_and_seas (self : KTRModel) (df : DataFrame)
           (training_meta : TrainingMeta) : result KTRModel :=
  knots_tp_level <- level_knots_tp self df training_meta ;;
  Ok (assign_knots_tp_level self (Some knots_tp_level)).

(** [set_dynamic_attributes]; [response] is [training_meta['response']]. *)
Definition set_dynamic_attributes (self : KTRModel) (df : DataFrame)
           (training_meta : TrainingMeta) (response : list float64)
  : result KTRModel :=
  _ <- _set_valid_response_attributes None training_meta response ;;
  self <- _set_regressor_matrix self df training_meta ;;
  self <- _set_coefficients_kernel_matrix gauss_kernel timedelta64 infer_freq
            self df training_meta ;;
  self <- _set_knots_scale_matrix self training_meta ;;
  self <- _set_levs_and_seas self df training_meta ;;
  _filter_coef_prior value_eq self df.

End DynamicAttributes.

(** * Vocabulary of the statements *)

(** The sign tag of a positive regressor. *)
Definition is_positive (sign : string) : bool := String.eqb sign "+".

(** The entries of [cols] whose sign tag is not positive, resp. is
    positive, in their order in [cols]. *)
Definition regular_of {A : Type} (cols : list A) (signs : list string)
  : list A :=
  map fst (filter (fun p => negb (is_positive (snd p))) (combine cols signs)).

Definition positive_of {A : Type} (cols : list A) (signs : list string)
  : list A :=
  map fst (filter (fun p => is_positive (snd p)) (combine cols signs)).




(** [np.full((window, cols), v)] for a list [v] of [cols] entries. *)
Definition expand (v : prior_value) (window : nat) : Np.matrix :=
  match v with
  | PriorList l => repeat l window
  | PriorArray a => a
  end.

(** What the filter leaves of one prior on a table of [rows] rows: the
    prior with both indices capped at [rows] and full mean and sd arrays,
    or nothing when the capped window is empty. *)
Definition filtered_prior (rows : Z) (p : CoefPrior) : list CoefPrior :=
  let start_tp_idx := Z.min (prior_start_tp_idx p) rows in
  let end_tp_idx := Z.min (prior_end_tp_idx p) rows in
  if start_tp_idx <? end_tp_idx then
    let window := Z.to_nat (end_tp_idx - start_tp_idx) in
    [with_window p start_tp_idx end_tp_idx
                 (expand (prior_mean p) window) (expand (prior_sd p) window)]
  else [].

(** A prior as the user writes it and [_validate_coef_prior] accepts it:
    mean and sd are lists with one entry per target column. *)
Definition listed_prior (p : CoefPrior) : Prop :=
  exists m sd,
    prior_mean p = PriorList m /\ prior_sd p = PriorList sd /\
    length m = length (prior_regressor_col p) /\
    length sd = length (prior_regressor_col p).

(** The keys of the dict up to, not including, the first of
    ['prior_mean'] and ['prior_sd'] (or a key outside the documented
    ones): the keys that come before a value that may be an array. *)
Fixpoint keys_before_values (keys : list PriorKey) : list PriorKey :=
  match keys with
  | [] => []
  | PRIOR_MEAN :: _ => []
  | PRIOR_SD :: _ => []
  | OTHER_KEY _ _ :: _ => []
  | k :: tl => k :: keys_before_values tl
  end.

(** The dict holds the six documented keys and lists the two window
    indices before the mean and the sd, as the documented order of the keys
    does. *)
Definition window_keys_first (p : CoefPrior) : Prop :=
  incl documented_keys (prior_keys p) /\
  In PRIOR_START_TP_IDX (keys_before_values (prior_keys p)) /\
  In PRIOR_END_TP_IDX (keys_before_values (prior_keys p)).

(** A prior the filter has kept: its window is not empty and ends within
    the table. *)
Definition kept_window (rows : Z) (p : CoefPrior) : Prop :=
  prior_start_tp_idx p < prior_end_tp_idx p /\ prior_end_tp_idx p <= rows.

(** Both window indices lie in [[0, rows]]. *)
Definition clamped_to_window (rows : Z) (p : CoefPrior) : Prop :=
  0 <= prior_start_tp_idx p <= rows /\ 0 <= prior_end_tp_idx p <= rows.

(** The two attributes that no step after their assignment in the
    constructor changes. *)
Definition same_attributes (s s' : KTRModel) : Prop :=
  _seasonal_knots_input s' = _seasonal_knots_input s /\
  _num_of_regressors s' = _num_of_regressors s.

(** * Concrete instances used by the examples *)

(** ** Even segmentation *)

Module EvenSegmentation.

(** A model with one regressor and the documented default of five
    segments, fitted on a series of 100 observations. *)
Definition args : Args.t := {|
  Args.level_knot_scale := 1 # 10;
  Args.regressor_col := Some ["x"%string];
  Args.regressor_sign := None;
  Args.regressor_init_knot_loc := None;
  Args.regressor_init_knot_scale := None;
  Args.regressor_knot_scale := None;
  Args.regression_segments := 5;
  Args.regression_knot_distance := None;
  Args.regression_knot_dates := None;
  Args.regression_rho := 15 # 100;
  Args.degree_of_freedom := 30;
  Args.coef_prior_list := None;
  Args.date_freq := None;
  Args.flat_multiplier := true
|}.

Definition dates : list Z := map Z.of_nat (seq 0 100).

Definition df : DataFrame := {| df_dates := dates; df_columns := [] |}.

Definition training_meta : TrainingMeta := {|
  num_of_observations := 100;
  date_array := dates;
  training_start := 0;
  training_end := 99
|}.

End EvenSegmentation.

(** ** Flat multiplier

    One regressor, unconstrained by default, flat multiplier left at its
    default [True], a knot every two observations. *)

Module FlatMultiplier.

Definition args : Args.t := {|
  Args.level_knot_scale := 1 # 10;
  Args.regressor_col := Some ["x"%string];
  Args.regressor_sign := None;
  Args.regressor_init_knot_loc := None;
  Args.regressor_init_knot_scale := None;
  Args.regressor_knot_scale := None;
  Args.regression_segments := 5;
  Args.regression_knot_distance := Some 2;
  Args.regression_knot_dates := None;
  Args.regression_rho := 15 # 100;
  Args.degree_of_freedom := 30;
  Args.coef_prior_list := None;
  Args.date_freq := None;
  Args.flat_multiplier := true
|}.

Definition df : DataFrame := {|
  df_dates := [0; 1; 2; 3];
  df_columns := [("x"%string, [100; 100; 100; 0]%Q)]
|}.

Definition training_meta : TrainingMeta := {|
  num_of_observations := 4;
  date_array := [0; 1; 2; 3];
  training_start := 0;
  training_end := 3
|}.

End FlatMultiplier.

(** ** Round trip of the regression coefficients

    One regressor on two observations; one posterior sample of the single
    coefficient knot. *)

Module RoundTrip.

Definition args : Args.t := {|
  Args.level_knot_scale := 1 # 10;
  Args.regressor_col := Some ["x"%string];
  Args.regressor_sign := None;
  Args.regressor_init_knot_loc := None;
  Args.regressor_init_knot_scale := None;
  Args.regressor_knot_scale := None;
  Args.regression_segments := 5;
  Args.regression_knot_distance := None;
  Args.regression_knot_dates := None;
  Args.regression_rho := 15 # 100;
  Args.degree_of_freedom := 30;
  Args.coef_prior_list := None;
  Args.date_freq := None;
  Args.flat_multiplier := true
|}.

Definition df : DataFrame := {|
  df_dates := [0; 1];
  df_columns := [("x"%string, [1; 2]%Q)]
|}.

Definition training_meta : TrainingMeta := {|
  num_of_observations := 2;
  date_array := [0; 1];
  training_start := 0;
  training_end := 1
|}.

Definition posterior : posteriors :=
  [(COEFFICIENTS_KNOT, Np.A3 [[[1%Q]]])].

End RoundTrip.

(** ** Partition of the regressors

    Three regressors declared positive, regular, positive. *)

Module Partition.

Definition cols : list string := ["a"%string; "b"%string; "c"%string].

Definition args : Args.t := {|
  Args.level_knot_scale := 1 # 10;
  Args.regressor_col := Some cols;
  Args.regressor_sign := Some ["+"%string; "="%string; "+"%string];
  Args.regressor_init_knot_loc := None;
  Args.regressor_init_knot_scale := None;
  Args.regressor_knot_scale := None;
  Args.regression_segments := 5;
  Args.regression_knot_distance := None;
  Args.regression_knot_dates := None;
  Args.regression_rho := 15 # 100;
  Args.degree_of_freedom := 30;
  Args.coef_prior_list := None;
  Args.date_freq := None;
  Args.flat_multiplier := true
|}.

(** The instance the constructor returns. *)
Definition model : KTRModel :=
  Eval vm_compute in
    match __init__ args with
    | Ok self => self
    | Raise _ => init_attributes args
    end.

End Partition.

(** ** Decomposition

    A model without regressors, built by the constructor and fitted by
    [set_dynamic_attributes] on four observations, the fit of KTRLite
    leaving two level knots at 1/2 and 1; two posterior samples; a forecast
    of two dates after the end of the training range.  The kernels and the
    random sources are simple stand-ins for the external utilities. *)

Module Decomposition.

(** Equal weight on every knot, whatever the time point. *)
Definition flat_kernel (tp knots : list Q) : Np.matrix :=
  map (fun _ => map (fun _ => (1 / inject_Z (Z.of_nat (length knots)))%Q) knots)
      tp.

Definition gauss_kernel (tp knots : list Q) (rho : Q) : Np.matrix :=
  flat_kernel tp knots.

Definition sandwich_kernel : list Q -> list Q -> Np.matrix := flat_kernel.

Definition make_fourier_series (rows : nat) (period : Q) (order shift : Z)
  : Np.matrix :=
  repeat [] rows.

(** Every draw equals the scale. *)
Definition laplace (scale : Q) (i j : nat) : Q := scale.

Definition nct_rvs (dof : Z) (scale : Q) (i j : nat) : Q := scale.

Definition constructed : KTRModel :=
  Eval vm_compute in
    match __init__ Args.default with
    | Ok self => self
    | Raise _ => init_attributes Args.default
    end.


Definition posterior : posteriors :=
  [(LEVEL_KNOT, Np.A2 [[1; 2]; [3; 4]]%Q);
   (OBS_SCALE, Np.A1 [1; 1]%Q)].

Definition df : DataFrame := {| df_dates := [10; 11]; df_columns := [] |}.

Definition training_meta : TrainingMeta := {|
  num_of_observations := 4;
  date_array := [0; 1; 2; 3];
  training_start := 0;
  training_end := 3
|}.

Definition prediction_meta : PredictionMeta := {|
  df_length := 2;
  prediction_start := 10;
  pm_date_array := [10; 11]
|}.

(** The training table and responses of four observations. *)
Definition training_df : DataFrame :=
  {| df_dates := [0; 1; 2; 3]; df_columns := [] |}.

Definition response : list float64 := [Fin 1; Fin 2; Fin 3; Fin 4].

(** One tick per day; the frequency of the dates is daily. *)
Definition timedelta64 (freq : string) : Z := 1.

Definition infer_freq (dates : list Z) : option string := Some "D"%string.

(** A comparison of means or sds that always refuses. *)
Definition value_eq (a b : prior_value) : result bool := Raise ValueError.

(** The level knots that the fit of KTRLite leaves: 1/2 and 1. *)
Definition level_knots_tp (self : KTRModel) (df : DataFrame)
           (training_meta : TrainingMeta) : result (list Q) :=
  Ok [(1 # 2)%Q; 1%Q].

(** The instance after [set_dynamic_attributes]. *)
Definition fitted : KTRModel :=
  Eval vm_compute in
    match set_dynamic_attributes gauss_kernel timedelta64 infer_freq
            value_eq level_knots_tp constructed training_df training_meta
            response with
    | Ok self => self
    | Raise _ => constructed
    end.

Definition predict' :=
  predict gauss_kernel sandwich_kernel make_fourier_series laplace nct_rvs.

End Decomposition.

(** ** A single level knot

    The instance of [Decomposition] when the fit of KTRLite leaves one
    level knot, which [_set_levs_and_seas] accepts (it asks for more than
    none). *)

Module SingleKnot.

Definition level_knots_tp (self : KTRModel) (df : DataFrame)
           (training_meta : TrainingMeta) : result (list Q) :=
  Ok [1%Q].

Definition fitted : KTRModel :=
  Eval vm_compute in
    match set_dynamic_attributes Decomposition.gauss_kernel
            Decomposition.timedelta64 Decomposition.infer_freq
            Decomposition.value_eq level_knots_tp Decomposition.constructed
            Decomposition.training_df Decomposition.training_meta
            Decomposition.response with
    | Ok self => self
    | Raise _ => Decomposition.constructed
    end.

(** Two samples of the one knot. *)
Definition posterior : posteriors :=
  [(LEVEL_KNOT, Np.A2 [[1]; [3]]%Q);
   (OBS_SCALE, Np.A1 [1; 1]%Q)].

End SingleKnot.

(** ** Coefficient priors

    Three priors on the regressor [x], on a table of ten rows: one that
    starts before the table, one whose window is empty, one that ends after
    the table. *)

Module PriorWindow.

Definition prior (n : string) (start_tp_idx end_tp_idx : Z) : CoefPrior := {|
  prior_keys := documented_keys;
  name := n;
  prior_start_tp_idx := start_tp_idx;
  prior_end_tp_idx := end_tp_idx;
  prior_mean := PriorList [0%Q];
  prior_sd := PriorList [1%Q];
  prior_regressor_col := ["x"%string];
  prior_regressor_col_idx := None
|}.

Definition priors : list CoefPrior :=
  [prior "early" (-3) 5; prior "empty" 5 3; prior "late" 8 20].

Definition args (cols : option (list string)) (l : list CoefPrior)
  : Args.t := {|
  Args.level_knot_scale := 1 # 10;
  Args.regressor_col := cols;
  Args.regressor_sign := None;
  Args.regressor_init_knot_loc := None;
  Args.regressor_init_knot_scale := None;
  Args.regressor_knot_scale := None;
  Args.regression_segments := 5;
  Args.regression_knot_distance := None;
  Args.regression_knot_dates := None;
  Args.regression_rho := 15 # 100;
  Args.degree_of_freedom := 30;
  Args.coef_prior_list := Some l;
  Args.date_freq := None;
  Args.flat_multiplier := true
|}.

(** The model with the regressor [x] and the three priors. *)
Definition model : KTRModel :=
  Eval vm_compute in
    match __init__ (args (Some ["x"%string]) priors) with
    | Ok self => self
    | Raise _ => init_attributes (args (Some ["x"%string]) priors)
    end.

(** A model without regressors that is given the prior with the empty
    window. *)
Definition bare_model : KTRModel :=
  Eval vm_compute in
    match __init__ (args None [prior "empty" 5 3]) with
    | Ok self => self
    | Raise _ => init_attributes (args None [prior "empty" 5 3])
    end.

Definition df : DataFrame := {|
  df_dates := [0; 1; 2; 3; 4; 5; 6; 7; 8; 9];
  df_columns := [("x"%string, repeat 0%Q 10)]
|}.

(** The comparison of an array of several entries with a list: NumPy
    compares entry by entry and refuses to give the result a truth
    value. *)
Definition value_eq (a b : prior_value) : result bool := Raise ValueError.

(** The priors "early" and "empty" written with the mean as the first key,
    which [_validate_coef_prior] accepts as well. *)
Definition mean_first (n : string) (start_tp_idx end_tp_idx : Z)
  : CoefPrior := {|
  prior_keys := [PRIOR_MEAN; NAME; PRIOR_START_TP_IDX; PRIOR_END_TP_IDX;
                 PRIOR_SD; PRIOR_REGRESSOR_COL];
  name := n;
  prior_start_tp_idx := start_tp_idx;
  prior_end_tp_idx := end_tp_idx;
  prior_mean := PriorList [0%Q];
  prior_sd := PriorList [1%Q];
  prior_regressor_col := ["x"%string];
  prior_regressor_col_idx := None
|}.

Definition mean_first_model : KTRModel :=
  Eval vm_compute in
    match __init__ (args (Some ["x"%string])
                         [mean_first "early" (-3) 5; mean_first "empty" 5 3])
    with
    | Ok self => self
    | Raise _ =>
        init_attributes (args (Some ["x"%string])
                              [mean_first "early" (-3) 5;
                               mean_first "empty" 5 3])
    end.

End PriorWindow.

Definition effective {A : Type} (given : option (list A)) (default : A)
           (n : nat) : list A :=
  match given with
  | Some l => l
  | None => repeat default n
  end.

Definition positive_group (self : KTRModel)
  : nat * list string * list Q * list Q * scale_array :=
  (_num_of_positive_regressors self, _positive_regressor_col self,
   _positive_regressor_init_knot_loc self,
   _positive_regressor_init_knot_scale self,
   _positive_regressor_knot_scale self).

Definition regular_group (self : KTRModel)
  : nat * list string * list Q * list Q * scale_array :=
  (_num_of_regular_regressors self, _regular_regressor_col self,
   _regular_regressor_init_knot_loc self,
   _regular_regressor_init_knot_scale self,
   _regular_regressor_knot_scale self).

Definition group_of (cols : list string) (locs scales knot_scales : list Q)
  : nat * list string * list Q * list Q * scale_array :=
  (length cols, cols, locs, scales, Scale1 knot_scales).

Definition consistent_length {A : Type} (given : option (list A)) (n : nat)
  : Prop :=
  match given with
  | Some l => length l = n
  | None => True
  end.

Definition push_group (g : nat * list string * list Q * list Q * scale_array)
           (col : string) (loc scale knot_scale : Q)
  : nat * list string * list Q * list Q * scale_array :=
  let '(n, cols, locs, scales, ks) := g in
  (S n, cols ++ [col], locs ++ [loc], scales ++ [scale],
   match ks with
   | Scale1 v => Scale1 (v ++ [knot_scale])
   | Scale2 m => Scale2 m
   end).

Definition is_1d (g : nat * list string * list Q * list Q * scale_array)
  : Prop :=
  exists v, snd g = Scale1 v.

Definition same_parameters (self self' : KTRModel) : Prop :=
  regressor_col self' = regressor_col self /\
  _regressor_sign self' = _regressor_sign self /\
  _regressor_init_knot_loc self' = _regressor_init_knot_loc self /\
  _regressor_init_knot_scale self' = _regressor_init_knot_scale self /\
  _regressor_knot_scale self' = _regressor_knot_scale self /\
  _num_of_regressors self' = _num_of_regressors self /\
  _coef_prior_list self' = _coef_prior_list self /\
  _regressor_col self' = _regressor_col self.

(** The group selected out of parallel lists by the sign tags. *)
Definition extend_group (positive : bool)
           (g : nat * list string * list Q * list Q * scale_array)
           (cols : list string) (locs scales kss : list Q)
           (signs : list string)
  : nat * list string * list Q * list Q * scale_array :=
  let pick {A : Type} (l : list A) : list A :=
    if positive then positive_of l signs else regular_of l signs in
  let '(n, c, l, s, ks) := g in
  ((n + length (pick cols))%nat, c ++ pick cols, l ++ pick locs,
   s ++ pick scales,
   match ks with
   | Scale1 v => Scale1 (v ++ pick kss)
   | Scale2 m => Scale2 m
   end).

Definition priors_of (a : Args.t) : list CoefPrior :=
  match Args.coef_prior_list a with
  | Some l => l
  | None => []
  end.

Definition prior_lengths_agree (p : CoefPrior) : Prop :=
  prior_value_len (prior_mean p) = prior_value_len (prior_sd p) /\
  prior_value_len (prior_mean p) = length (prior_regressor_col p).

(** The keys of the dict are the six documented ones and no other, and the
    mean, the sd and the list of target columns have the same length. *)
Definition valid_prior (p : CoefPrior) : Prop :=
  incl documented_keys (prior_keys p) /\
  incl (prior_keys p) documented_keys /\
  prior_regressor_col_idx p = None /\
  prior_lengths_agree p.

Definition consistent_regressor_args (a : Args.t) (n : nat) : Prop :=
  consistent_length (Args.regressor_sign a) n /\
  consistent_length (Args.regressor_init_knot_loc a) n /\
  consistent_length (Args.regressor_init_knot_scale a) n /\
  consistent_length (Args.regressor_knot_scale a) n.

Definition signs_of (a : Args.t) (n : nat) : list string :=
  effective (Args.regressor_sign a) DEFAULT_REGRESSOR_SIGN n.

(** [idx] holds, for every column name of [names], its first position in
    [cols]. *)
Definition first_positions (cols : list string) (idx : list nat)
           (names : list string) : Prop :=
  Forall2 (fun i c => nth_error cols i = Some c /\
                      forall j, (j < i)%nat -> nth_error cols j <> Some c)
          idx names.

Module Construction.

(** Three regressors and a sign list of one entry. *)
Definition short_signs : Args.t := {|
  Args.level_knot_scale := 1 # 10;
  Args.regressor_col := Some Partition.cols;
  Args.regressor_sign := Some ["+"%string];
  Args.regressor_init_knot_loc := None;
  Args.regressor_init_knot_scale := None;
  Args.regressor_knot_scale := None;
  Args.regression_segments := 5;
  Args.regression_knot_distance := None;
  Args.regression_knot_dates := None;
  Args.regression_rho := 15 # 100;
  Args.degree_of_freedom := 30;
  Args.coef_prior_list := None;
  Args.date_freq := None;
  Args.flat_multiplier := true
|}.

(** Three regressors tagged positive, regular, positive, each with its own
    priors. *)
Definition tagged : Args.t := {|
  Args.level_knot_scale := 1 # 10;
  Args.regressor_col := Some Partition.cols;
  Args.regressor_sign := Some ["+"%string; "="%string; "+"%string];
  Args.regressor_init_knot_loc := Some [1; 2; 3]%Q;
  Args.regressor_init_knot_scale := Some [4; 5; 6]%Q;
  Args.regressor_knot_scale := Some [7; 8; 9]%Q;
  Args.regression_segments := 5;
  Args.regression_knot_distance := None;
  Args.regression_knot_dates := None;
  Args.regression_rho := 15 # 100;
  Args.degree_of_freedom := 30;
  Args.coef_prior_list := None;
  Args.date_freq := None;
  Args.flat_multiplier := true
|}.

Definition tagged_model : KTRModel :=
  Eval vm_compute in
    match __init__ tagged with
    | Ok self => self
    | Raise _ => init_attributes tagged
    end.

End Construction.

(** The value of [round(d / 2)] on an int [d]: half of an even [d], and for
    an odd [d] the even one of the two neighbours of [d / 2]. *)
Definition half_rounded (d : Z) : Z :=
  if Z.even d then d / 2
  else if Z.even (d / 2) then d / 2 else d / 2 + 1.

Module KnotDistance.

(** One regressor, a knot every two observations, four observations. *)
Definition model : KTRModel :=
  Eval vm_compute in
    match __init__ FlatMultiplier.args with
    | Ok self => self
    | Raise _ => init_attributes FlatMultiplier.args
    end.

End KnotDistance.

Module KnotDates.

(** One regressor on ten daily observations; of the three knot dates the
    last one lies after the training range. *)
Definition args : Args.t := {|
  Args.level_knot_scale := 1 # 10;
  Args.regressor_col := Some ["x"%string];
  Args.regressor_sign := None;
  Args.regressor_init_knot_loc := None;
  Args.regressor_init_knot_scale := None;
  Args.regressor_knot_scale := None;
  Args.regression_segments := 5;
  Args.regression_knot_distance := None;
  Args.regression_knot_dates := Some [2; 7; 12];
  Args.regression_rho := 15 # 100;
  Args.degree_of_freedom := 30;
  Args.coef_prior_list := None;
  Args.date_freq := Some "D"%string;
  Args.flat_multiplier := true
|}.

Definition model : KTRModel :=
  Eval vm_compute in
    match __init__ args with
    | Ok self => self
    | Raise _ => init_attributes args
    end.

Definition training_meta : TrainingMeta := {|
  num_of_observations := 10;
  date_array := [0; 1; 2; 3; 4; 5; 6; 7; 8; 9];
  training_start := 0;
  training_end := 9
|}.

(** One tick per day. *)
Definition timedelta64 (freq : string) : Z := 1.

Definition infer_freq (dates : list Z) : option string := Some "D"%string.

Definition fitted : KTRModel :=
  Eval vm_compute in
    match _set_coefficients_kernel_matrix Decomposition.gauss_kernel
            timedelta64 infer_freq model PriorWindow.df training_meta with
    | Ok self => self
    | Raise _ => model
    end.

End KnotDates.

(** The values of column [c] of the table, and the 2-D array that holds
    the columns [cols] side by side, one row per table row. *)
Definition column_values (df : DataFrame) (c : string) : list Q :=
  match df_lookup df c with
  | Some v => v
  | None => []
  end.

Definition table_of (df : DataFrame) (cols : list string) : Np.matrix :=
  map (fun i => map (fun c => nth i (column_values df c) 0%Q) cols)
      (seq 0 (length (df_dates df))).

(** The table holds a column of that name. *)
Definition has_column (df : DataFrame) (c : string) : Prop :=
  df_lookup df c <> None.

Module RegressorTable.

(** A table of two rows with the columns a, b and c. *)
Definition df : DataFrame := {|
  df_dates := [0; 1];
  df_columns := [("a"%string, [1; 2]%Q); ("b"%string, [3; 4]%Q);
                 ("c"%string, [5; 6]%Q)]
|}.

(** The same table without the column b. *)
Definition df_without_b : DataFrame := {|
  df_dates := [0; 1];
  df_columns := [("a"%string, [1; 2]%Q); ("c"%string, [5; 6]%Q)]
|}.

End RegressorTable.

(** A multiplier entry: 1, or the lower bound 0.01. *)
Definition unit_or_lower_bound (x : float64) : Prop :=
  x = Fin 1 \/ x = Fin DEFAULT_LOWER_BOUND_SCALE_MULTIPLIER.

(** A 2-D array of [n] rows and [k] columns. *)
Definition has_shape {A : Type} (n k : nat) (a : list (list A)) : Prop :=
  length a = n /\ Forall (fun row => length row = k) a.

(** A prior scale [s] times a multiplier, with the lower bound 1e-4
    applied. *)
Definition floored_scale (s multiplier : Q) : float64 :=
  floor_scale (Fin (s * multiplier)).

(** A defined value that is at least 1e-4. *)
Definition at_least_floor (x : float64) : Prop :=
  exists q, x = Fin q /\ (1 # 10000 <= q)%Q.

(** The knot scales of one regressor: every entry is its prior scale, or
    one hundredth of it, with the lower bound applied. *)
Definition scaled_row (s : Q) (row : list float64) : Prop :=
  Forall (fun x => x = floored_scale s 1 \/
                   x = floored_scale s DEFAULT_LOWER_BOUND_SCALE_MULTIPLIER)
         row.

Module ScaleMatrix.

(** The model of one unconstrained regressor with a knot every two
    observations, after the regressor matrices and the kernel are set on
    the four observations 100, 100, 100, 0. *)
Definition fitted : KTRModel :=
  Eval vm_compute in
    match
      (self <- _set_regressor_matrix KnotDistance.model FlatMultiplier.df
                 FlatMultiplier.training_meta ;;
       _set_coefficients_kernel_matrix Decomposition.gauss_kernel
         KnotDates.timedelta64 KnotDates.infer_freq self FlatMultiplier.df
         FlatMultiplier.training_meta)
    with
    | Ok self => self
    | Raise _ => KnotDistance.model
    end.

Definition scaled : KTRModel :=
  Eval vm_compute in
    match _set_knots_scale_matrix fitted FlatMultiplier.training_meta with
    | Ok self => self
    | Raise _ => fitted
    end.

End ScaleMatrix.

(** One entry of [np.in1d(train_date_array, date_array)]: the training
    date [d] occurs among the given dates. *)
Definition occurs_in (dates : list Z) (d : Z) : bool :=
  existsb (Z.eqb d) dates.

(** The sum of the entrywise products of two vectors. *)
Definition inner_product (u v : Np.vector) : Q :=
  Np.sum (map (fun p => (fst p * snd p)%Q) (combine u v)).

(** The coefficient curves of the samples [coef_knots] (sample x regressor
    x knot) under the kernel [kernel] (time x knot): for every sample and
    time point, one value per regressor. *)
Definition coefficient_curves (coef_knots : Np.tensor3) (kernel : Np.matrix)
  : Np.tensor3 :=
  map (fun sample =>
         map (fun krow => map (fun row => inner_product row krow) sample)
             kernel)
      coef_knots.

(** Every sample holds at least one regressor, and every regressor as many
    knot values as the kernel has columns. *)
Definition conforms (coef_knots : Np.tensor3) (kernel : Np.matrix) : Prop :=
  Forall (fun sample =>
            sample <> [] /\
            Forall (fun row =>
                      Forall (fun krow => length row = length krow) kernel)
                   sample)
         coef_knots.

Module Curves.

(** Two samples of the knots of one regressor, two knots each. *)
Definition posterior : posteriors :=
  [(COEFFICIENTS_KNOT, Np.A3 [[[1; 3]]; [[2; 4]]]%Q)].

End Curves.

(** A regressor matrix as [_set_regressor_matrix] leaves it for a group of
    [n] regressors on a table that is not empty: at least one row, and [n]
    entries in every row. *)
Definition regressor_matrix_of (n : nat) (m : option Np.matrix) : Prop :=
  exists rows, m = Some rows /\ rows <> [] /\
               Forall (fun row => length row = n) rows.


(** * Properties *)

(** ** Reasoning about the error monad *)

Lemma bind_Ok {A B : Type} (c : result A) (k : A -> result B) (b : B) :
  bind c k = Ok b -> exists a, c = Ok a /\ k a = Ok b.
Proof.
  destruct c as [a | e]; simpl; intros H; [eauto | discriminate].
Qed.

Ltac inv_bind H :=
  let a := fresh "v" in
  let Ha := fresh "E" in
  apply bind_Ok in H; destruct H as (a & Ha & H).

Lemma require_Ok {A : Type} (o : option A) (e : exn) (a : A) :
  require o e = Ok a -> o = Some a.
Proof.
  destruct o; simpl; intros H; [injection H as -> | discriminate]; reflexivity.
Qed.

Lemma mapM_length {A B : Type} (f : A -> result B) (l : list A) (l' : list B) :
  mapM f l = Ok l' -> length l' = length l.
Proof.
  revert l'; induction l as [| a tl IH]; simpl; intros l' H.
  - injection H as <-; reflexivity.
  - inv_bind H. inv_bind H. injection H as <-. simpl. f_equal. eauto.
Qed.

Lemma mapM_Forall2 {A B : Type} (f : A -> result B) (l : list A) (l' : list B) :
  mapM f l = Ok l' -> Forall2 (fun a b => f a = Ok b) l l'.
Proof.
  revert l'; induction l as [| a tl IH]; simpl; intros l' H.
  - injection H as <-; constructor.
  - inv_bind H. inv_bind H. injection H as <-. constructor; eauto.
Qed.

(** ** Even segmentation of the regression knots *)

(** The placement function itself does what the specification describes:
    spacing 17 on a cutoff of 100 gives the knots 8, 25, ..., 93. *)
Lemma set_knots_tp_17_100 :
  Py.ceil_div 100 (5 + 1) = Ok 17 /\
  _set_knots_tp 17 100 = Ok [8; 25; 42; 59; 76; 93].
Proof. split; reflexivity. Qed.

(** The constructor discards the segment count it is given. *)
Lemma init_regression_segments (a : Args.t) :
  regression_segments (init_attributes a) = 0.
Proof. reflexivity. Qed.

(** With the segment count at 0 the number of knots is 1 and the spacing
    is the cutoff itself. *)
Lemma ceil_div_one (cutoff : Z) : Py.ceil_div cutoff (0 + 1) = Ok cutoff.
Proof.
  unfold Py.ceil_div. simpl. f_equal.
  rewrite <- (Qceiling_Z cutoff) at 2. apply Qceiling_comp.
  unfold Qdiv. change (/ inject_Z 1)%Q with 1%Q. apply Qmult_1_r.
Qed.

(** C1 (code defect).  With [cutoff = 100] and [regression_segments = 5]
    the specification expects spacing 17 and the knots 8, 25, 42, 59, 76,
    93.  The code overwrites the segment count with 0 before it reads it, so
    the spacing is the whole cutoff and the fit places the single knot 50,
    whatever kernel and date utilities are used. *)
Theorem even_segmentation_ignores_segments :
  forall (gauss_kernel : list Q -> list Q -> Q -> Np.matrix)
         (timedelta64 : string -> Z) (infer_freq : list Z -> option string),
    (self <- __init__ EvenSegmentation.args ;;
     self <- _set_coefficients_kernel_matrix gauss_kernel timedelta64
               infer_freq self EvenSegmentation.df
               EvenSegmentation.training_meta ;;
     Ok (_regression_knots_idx self, regression_segments self))
    = Ok (Some [50], 1)
    /\ Py.ceil_div 100 (regression_segments
                          (init_attributes EvenSegmentation.args) + 1)
       = Ok 100
    /\ _set_knots_tp 100 100 = Ok [50].
Proof.
  intros gk td inf. repeat split; vm_compute; reflexivity.
Qed.

(** ** Knot scale multipliers *)

(** For the positive regressors the flat mode leaves every multiplier
    at 1. *)
Lemma positive_multiplier_flat (self : KTRModel) (n : Z) :
  flat_multiplier self = true ->
  positive_multiplier self n
  = Ok (ones (_num_of_positive_regressors self)
             (Z.to_nat (regression_segments self))).
Proof.
  intros H. unfold positive_multiplier. rewrite H. reflexivity.
Qed.

(** A flagged segment receives the lower bound, an unflagged one keeps its
    multiplier. *)
Lemma set_flagged_row (row : list float64) (flags : list bool) (j : nat) :
  length flags = length row ->
  (j < length row)%nat ->
  nth j (map (fun q => if (snd q : bool)
                       then Fin DEFAULT_LOWER_BOUND_SCALE_MULTIPLIER
                       else fst q) (combine row flags)) NaN
  = if nth j flags false
    then Fin (1 # 100)
    else nth j row NaN.
Proof.
  revert flags j; induction row as [| x row IH]; intros [| f flags] j Hl Hj;
    simpl in *; try lia.
  destruct j as [| j]; [reflexivity |].
  apply IH; lia.
Qed.

(** A row that is entirely undefined is reset to 1. *)
Lemma reset_nan_rows_undefined (row : list float64) :
  forallb Stats.isnan row = true ->
  reset_nan_rows [row] = [map (fun _ => Fin 1) row].
Proof.
  intros H. unfold reset_nan_rows. simpl. rewrite H. reflexivity.
Qed.

(** C2 (code defect).  The flat mode must leave every multiplier at 1 for
    positive and unconstrained regressors alike.  For the unconstrained
    ones the adjustment runs whatever the mode: with [flat_multiplier=True],
    the regressor [100, 100, 100, 0] and knots at 1 and 3, the last segment
    (local mean 0, below 1% of the global median 100) receives 0.01. *)
Theorem flat_multiplier_regular_adjusted :
  forall (gauss_kernel : list Q -> list Q -> Q -> Np.matrix)
         (timedelta64 : string -> Z) (infer_freq : list Z -> option string),
    (self <- __init__ FlatMultiplier.args ;;
     self <- _set_regressor_matrix self FlatMultiplier.df
               FlatMultiplier.training_meta ;;
     self <- _set_coefficients_kernel_matrix gauss_kernel timedelta64
               infer_freq self FlatMultiplier.df
               FlatMultiplier.training_meta ;;
     multiplier <- regular_multiplier self 4 ;;
     Ok (flat_multiplier self, _regression_knots_idx self, multiplier))
    = Ok (true, Some [1; 3], [[Fin 1; Fin (1 # 100)]]).
Proof.
  intros gk td inf. vm_compute. reflexivity.
Qed.

(** ** Round trip of the regression coefficients *)

(** The constructor never creates [rho_coefficients]; the bandwidth it is
    given is stored as [regression_rho]. *)
Lemma init_rho_coefficients (a : Args.t) :
  rho_coefficients (init_attributes a) = Missing /\
  regression_rho (init_attributes a) = Args.regression_rho a.
Proof. split; reflexivity. Qed.

(** With an explicit date array the reconstruction cannot return a curve
    as long as [rho_coefficients] is missing. *)
Lemma explicit_dates_without_rho
      (gauss_kernel : list Q -> list Q -> Q -> Np.matrix)
      (self : KTRModel) (training_meta : TrainingMeta) (p : posteriors)
      (dates : list Z) (betas : Np.tensor3) :
  rho_coefficients self = Missing ->
  _get_regression_coefs_matrix gauss_kernel self training_meta p (Some dates)
  <> Ok (Some betas).
Proof.
  intros Hrho H. unfold _get_regression_coefs_matrix in H.
  destruct (_ =? 0)%nat; [discriminate |].
  destruct (negb _); [discriminate |].
  inv_bind H.
  destruct (_ <? _); [discriminate |].
  inv_bind H.
  rewrite Hrho in H. discriminate.
Qed.

(** C3 (code defect).  The round trip must return the in-sample curve when
    the training dates are passed explicitly.  The in-sample path multiplies
    the knots by the stored kernel, built with [regression_rho]; the
    explicit path asks for [rho_coefficients], which no statement of the
    class assigns, and raises [AttributeError] before any kernel is built. *)
Theorem explicit_training_dates_raise :
  forall (gauss_kernel : list Q -> list Q -> Q -> Np.matrix)
         (timedelta64 : string -> Z) (infer_freq : list Z -> option string),
    (self <- __init__ RoundTrip.args ;;
     self <- _set_coefficients_kernel_matrix gauss_kernel timedelta64
               infer_freq self RoundTrip.df RoundTrip.training_meta ;;
     _get_regression_coefs_matrix gauss_kernel self RoundTrip.training_meta
       RoundTrip.posterior (Some (date_array RoundTrip.training_meta)))
    = Raise AttributeError
    /\
    (self <- __init__ RoundTrip.args ;;
     self <- _set_coefficients_kernel_matrix gauss_kernel timedelta64
               infer_freq self RoundTrip.df RoundTrip.training_meta ;;
     _get_regression_coefs_matrix gauss_kernel self RoundTrip.training_meta
       RoundTrip.posterior None)
    = (betas <- Np.matmul_t3 [[[1%Q]]]
                  (gauss_kernel (time_points 1 3 2) [(2 # 2)%Q] (15 # 100)%Q) ;;
       Ok (Some (Np.transpose_021 betas))).
Proof.
  intros gk td inf. split.
  - vm_compute. reflexivity.
  - reflexivity.
Qed.

(** ** Partition of the regressors *)



Lemma skipn_nth_error {A : Type} (l : list A) (i : nat) (x : A) :
  nth_error l i = Some x -> skipn i l = x :: skipn (S i) l.
Proof.
  revert i; induction l as [| y l IH]; intros [| i] H; simpl in *;
    try discriminate.
  - injection H as ->; reflexivity.
  - apply IH; assumption.
Qed.







(** ** The keys of a prior dict *)

Lemma PriorKey_eqb_eq (k k' : PriorKey) :
  In k documented_keys \/ In k' documented_keys ->
  PriorKey_eqb k k' = true -> k = k'.
Proof.
  intros Hin H. destruct k, k'; try discriminate; try reflexivity.
  exfalso. simpl in Hin. intuition discriminate.
Qed.

Lemma PriorKey_eqb_refl (k : PriorKey) : PriorKey_eqb k k = true.
Proof. destruct k; simpl; try reflexivity. apply String.eqb_refl. Qed.

Lemma has_key_In (p : CoefPrior) (k : PriorKey) :
  In k documented_keys -> has_key p k = true <-> In k (prior_keys p).
Proof.
  intros Hk. unfold has_key. rewrite existsb_exists. split.
  - intros (k' & Hin & Heq).
    apply PriorKey_eqb_eq in Heq; [subst k'; assumption | left; assumption].
  - intros Hin. exists k. split; [assumption | apply PriorKey_eqb_refl].
Qed.

(** The test of the key set, in terms of the keys that the dict lists. *)
Lemma has_documented_keys_spec (p : CoefPrior) :
  has_documented_keys p = true <->
  incl documented_keys (prior_keys p) /\
  incl (prior_keys p) documented_keys /\
  prior_regressor_col_idx p = None.
Proof.
  unfold has_documented_keys. rewrite !andb_true_iff, !forallb_forall. split.
  - intros [[H1 H2] H3]. split; [| split].
    + intros k Hk. apply has_key_In; auto.
    + intros k Hk. specialize (H2 k Hk). rewrite existsb_exists in H2.
      destruct H2 as (k' & Hin & Heq).
      apply PriorKey_eqb_eq in Heq; [subst k'; assumption | right; assumption].
    + destruct (prior_regressor_col_idx p); [discriminate | reflexivity].
  - intros (H1 & H2 & H3). split; [split |].
    + intros k Hk. apply has_key_In; auto.
    + intros k Hk. apply existsb_exists. exists k.
      split; [apply H2; assumption | apply PriorKey_eqb_refl].
    + rewrite H3. reflexivity.
Qed.

(** ** Prediction *)

Lemma time_points_length (lo hi n : Z) :
  length (time_points lo hi n) = Z.to_nat (hi - lo).
Proof.
  unfold time_points, Np.arange1. rewrite !length_map, length_seq. reflexivity.
Qed.


(** *** What the steps of the fit leave alone *)

Lemma same_attributes_refl (s : KTRModel) : same_attributes s s.
Proof. split; reflexivity. Qed.

Lemma same_attributes_trans (s1 s2 s3 : KTRModel) :
  same_attributes s1 s2 -> same_attributes s2 s3 -> same_attributes s1 s3.
Proof. intros [A1 B1] [A2 B2]. split; congruence. Qed.

Lemma set_default_args_seasonal (s s' : KTRModel) :
  _set_default_args s = Ok s' ->
  _seasonal_knots_input s' = _seasonal_knots_input s.
Proof.
  unfold _set_default_args. intros H.
  destruct (coef_prior_list s); cbn [assign_coef_prior_list regressor_col]
    in H; destruct (regressor_col s).
  1, 3: do 4 (inv_bind H; clear E); injection H as <-; reflexivity.
  all: injection H as <-; reflexivity.
Qed.

Lemma static_step_seasonal (s s' : KTRModel) (idx : nat) (sign : string) :
  static_regression_step s idx sign = Ok s' ->
  _seasonal_knots_input s' = _seasonal_knots_input s.
Proof.
  unfold static_regression_step. intros H.
  do 8 (inv_bind H; clear E).
  destruct (String.eqb sign "+"); inv_bind H; injection H as <-; reflexivity.
Qed.

Lemma static_loop_seasonal (signs : list string) :
  forall (s s' : KTRModel) (idx : nat),
    static_regression_loop s idx signs = Ok s' ->
    _seasonal_knots_input s' = _seasonal_knots_input s.
Proof.
  induction signs as [| sign signs IH]; intros s s' idx H.
  - injection H as <-. reflexivity.
  - cbn [static_regression_loop] in H. inv_bind H.
    rewrite (IH _ _ _ H). eapply static_step_seasonal. eassumption.
Qed.

(** The constructor never creates [_seasonal_knots_input]. *)
Lemma init_seasonal_knots_input (a : Args.t) (self : KTRModel) :
  __init__ a = Ok self -> _seasonal_knots_input self = Missing.
Proof.
  unfold __init__, _set_static_attributes. intros H.
  inv_bind H. rename v into s1, E into H1.
  inv_bind H. rename v into s2, E into H2.
  assert (Hs2 : _seasonal_knots_input s2 = Missing).
  { apply set_default_args_seasonal in H1.
    unfold _set_static_regression_attributes in H2.
    destruct (_num_of_regressors s1 =? 0)%nat.
    - injection H2 as <-. rewrite H1. reflexivity.
    - inv_bind H2. inv_bind H2. injection H2 as <-.
      cbn [assign_regressor_col _seasonal_knots_input].
      rewrite (static_loop_seasonal _ _ _ _ E0), H1. reflexivity. }
  destruct (negb (is_empty (_coef_prior_list s2))).
  - inv_bind H. unfold _set_coef_prior_idx in H.
    destruct (_ && _).
    + inv_bind H. injection H as <-. exact Hs2.
    + injection H as <-. exact Hs2.
  - injection H as <-. exact Hs2.
Qed.

Lemma set_regressor_matrix_same (s s' : KTRModel) (df : DataFrame)
      (training_meta : TrainingMeta) :
  _set_regressor_matrix s df training_meta = Ok s' -> same_attributes s s'.
Proof.
  unfold _set_regressor_matrix. intros H.
  inv_bind H. inv_bind H. injection H as <-. split; reflexivity.
Qed.

Lemma set_knots_scale_matrix_same (s s' : KTRModel)
      (training_meta : TrainingMeta) :
  _set_knots_scale_matrix s training_meta = Ok s' -> same_attributes s s'.
Proof.
  unfold _set_knots_scale_matrix. intros H.
  inv_bind H. rename v into s1, E into H1.
  assert (Hs1 : same_attributes s s1).
  { destruct (0 <? _num_of_positive_regressors s)%nat.
    - inv_bind H1. inv_bind H1. injection H1 as <-. split; reflexivity.
    - injection H1 as <-. apply same_attributes_refl. }
  apply (same_attributes_trans _ _ _ Hs1).
  destruct (0 <? _num_of_regular_regressors s1)%nat.
  - inv_bind H. inv_bind H. injection H as <-. split; reflexivity.
  - injection H as <-. apply same_attributes_refl.
Qed.

Section FitFrame.

Variable gauss_kernel : list Q -> list Q -> Q -> Np.matrix.
Variable timedelta64 : string -> Z.
Variable infer_freq : list Z -> option string.
Variable value_eq : prior_value -> prior_value -> result bool.
Variable level_knots_tp :
  KTRModel -> DataFrame -> TrainingMeta -> result (list Q).

Lemma set_coefficients_kernel_matrix_same (s s' : KTRModel) (df : DataFrame)
      (training_meta : TrainingMeta) :
  _set_coefficients_kernel_matrix gauss_kernel timedelta64 infer_freq
    s df training_meta = Ok s' ->
  same_attributes s s'.
Proof.
  unfold _set_coefficients_kernel_matrix. intros H.
  inv_bind H. clear E v.
  cbn [assign_kernel_coefficients _num_of_regressors] in H.
  destruct (0 <? _num_of_regressors s)%nat.
  - inv_bind H. rename v into s1, E into H1.
    inv_bind H. injection H as <-.
    cbn [assign_kernel_coefficients _regression_knot_dates
         regression_knot_distance date_freq] in H1.
    destruct (_regression_knot_dates s).
    + inv_bind H1. injection H1 as <-. split; reflexivity.
    + do 3 inv_bind H1. injection H1 as <-. split; reflexivity.
  - injection H as <-. split; reflexivity.
Qed.

Lemma filter_coef_prior_same (s s' : KTRModel) (df : DataFrame) :
  _filter_coef_prior value_eq s df = Ok s' -> same_attributes s s'.
Proof.
  unfold _filter_coef_prior. intros H. destruct (_ && _).
  - inv_bind H. injection H as <-. split; reflexivity.
  - injection H as <-. apply same_attributes_refl.
Qed.

(** The fit creates no [_seasonal_knots_input] and leaves the number of
    regressors as the constructor set it. *)
Lemma set_dynamic_attributes_same (s s' : KTRModel) (df : DataFrame)
      (training_meta : TrainingMeta) (response : list float64) :
  set_dynamic_attributes gauss_kernel timedelta64 infer_freq value_eq
    level_knots_tp s df training_meta response = Ok s' ->
  same_attributes s s'.
Proof.
  unfold set_dynamic_attributes, _set_levs_and_seas. intros H.
  inv_bind H. clear E v.
  inv_bind H. rename v into s1, E into H1.
  inv_bind H. rename v into s2, E into H2.
  inv_bind H. rename v into s3, E into H3.
  inv_bind H. rename v into s4, E into H4.
  inv_bind H4. injection H4 as <-.
  apply set_regressor_matrix_same in H1.
  apply set_coefficients_kernel_matrix_same in H2.
  apply set_knots_scale_matrix_same in H3.
  apply filter_coef_prior_same in H.
  eapply same_attributes_trans; [exact H1 |].
  eapply same_attributes_trans; [exact H2 |].
  eapply same_attributes_trans; [exact H3 |].
  eapply same_attributes_trans; [| exact H]. split; reflexivity.
Qed.

End FitFrame.

Section PredictFacts.

Variable gauss_kernel : list Q -> list Q -> Q -> Np.matrix.
Variable sandwich_kernel : list Q -> list Q -> Np.matrix.
Variable make_fourier_series : nat -> Q -> Z -> Z -> Np.matrix.
Variable laplace : Q -> nat -> nat -> Q.
Variable nct_rvs : Z -> Q -> nat -> nat -> Q.
Variable timedelta64 : string -> Z.
Variable infer_freq : list Z -> option string.
Variable value_eq : prior_value -> prior_value -> result bool.
Variable level_knots_tp :
  KTRModel -> DataFrame -> TrainingMeta -> result (list Q).

(** [predict] reads [self._seasonal_knots_input] unconditionally: on an
    instance that lacks the attribute it does not return. *)
Lemma predict_needs_seasonal_knots_input
      (self : KTRModel) (p : posteriors) (df : DataFrame)
      (training_meta : TrainingMeta) (prediction_meta : PredictionMeta)
      (include_error store : bool) :
  _seasonal_knots_input self = Missing ->
  exists e,
    predict gauss_kernel sandwich_kernel make_fourier_series laplace nct_rvs
            self p df training_meta prediction_meta include_error store
    = Raise e.
Proof.
  intros Hmissing.
  destruct (predict gauss_kernel sandwich_kernel make_fourier_series laplace
              nct_rvs self p df training_meta prediction_meta include_error
              store) as [r | e] eqn:H; [| eauto].
  exfalso. unfold predict in H.
  destruct p as [| p0 p]; [discriminate |]. cbn [bind] in H.
  inv_bind H. inv_bind H. destruct v0 as [knots lev]. cbn beta iota in H.
  inv_bind H. inv_bind H.
  rewrite Hmissing in E2. discriminate.
Qed.

(** A call that gets as far as the seasonality fails there. *)
Lemma predict_raises_at_seasonal_knots_input
      (self : KTRModel) (p : posteriors) (df : DataFrame)
      (training_meta : TrainingMeta) (prediction_meta : PredictionMeta)
      (include_error store : bool) (start : Z) (knots : list Q)
      (lev : option Np.ndarray) (obs_scale : Np.ndarray) :
  _seasonal_knots_input self = Missing ->
  p <> [] ->
  start_index training_meta (prediction_start prediction_meta) = Ok start ->
  predict_level_knots laplace self p
    (time_points (start + 1) (start + df_length prediction_meta + 1)
                 (num_of_observations training_meta)) include_error
  = Ok (knots, lev) ->
  dict_get p OBS_SCALE = Some obs_scale ->
  predict gauss_kernel sandwich_kernel make_fourier_series laplace nct_rvs
          self p df training_meta prediction_meta include_error store
  = Raise AttributeError.
Proof.
  intros Hmissing Hp Hstart Hknots Hobs. unfold predict.
  destruct p as [| p0 p]; [contradiction |]. cbn [bind].
  rewrite Hstart. cbn [bind]. rewrite Hknots. cbn [bind].
  rewrite Hobs. cbn [require bind]. rewrite Hmissing. reflexivity.
Qed.

(** C7 (code defect).  The specification expects every prediction call to
    return the four components.  [predict] reads
    [self._seasonal_knots_input] unconditionally, and no instance that the
    class builds has the attribute: the constructor does not create it and
    the fit would create it only under [self._seasonality], which is
    always [None].  So on an instance from the constructor, fitted or not,
    no prediction call returns; a call that gets past the start of the
    prediction, the level knots and the observation scale raises
    [AttributeError]. *)
Theorem predict_without_seasonal_input (a : Args.t)
        (self fitted : KTRModel) :
  __init__ a = Ok self ->
  (fitted = self \/
   exists df training_meta response,
     set_dynamic_attributes gauss_kernel timedelta64 infer_freq value_eq
       level_knots_tp self df training_meta response = Ok fitted) ->
  _seasonal_knots_input fitted = Missing /\
  forall (p : posteriors) (df : DataFrame) (training_meta : TrainingMeta)
         (prediction_meta : PredictionMeta) (include_error store : bool),
    (exists e,
        predict gauss_kernel sandwich_kernel make_fourier_series laplace
                nct_rvs fitted p df training_meta prediction_meta
                include_error store
        = Raise e) /\
    forall (start : Z) (knots : list Q) (lev : option Np.ndarray)
           (obs_scale : Np.ndarray),
      p <> [] ->
      start_index training_meta (prediction_start prediction_meta)
      = Ok start ->
      predict_level_knots laplace fitted p
        (time_points (start + 1) (start + df_length prediction_meta + 1)
                     (num_of_observations training_meta)) include_error
      = Ok (knots, lev) ->
      dict_get p OBS_SCALE = Some obs_scale ->
      predict gauss_kernel sandwich_kernel make_fourier_series laplace
              nct_rvs fitted p df training_meta prediction_meta
              include_error store
      = Raise AttributeError.
Proof.
  intros Hinit Hfit.
  assert (Hmissing : _seasonal_knots_input fitted = Missing).
  { pose proof (init_seasonal_knots_input a self Hinit) as Hself.
    destruct Hfit as [-> | (df & tm & response & Hfit)]; [exact Hself |].
    apply set_dynamic_attributes_same in Hfit. destruct Hfit as [Hs _].
    rewrite Hs. exact Hself. }
  split; [exact Hmissing |].
  intros p df tm pm ie st. split.
  - apply predict_needs_seasonal_knots_input. exact Hmissing.
  - intros start knots lev obs Hp Hstart Hknots Hobs.
    eapply predict_raises_at_seasonal_knots_input; eassumption.
Qed.


End PredictFacts.

Lemma predict_without_seasonal_input_witness :
  __init__ Args.default = Ok Decomposition.constructed /\
  set_dynamic_attributes Decomposition.gauss_kernel
    Decomposition.timedelta64 Decomposition.infer_freq
    Decomposition.value_eq Decomposition.level_knots_tp
    Decomposition.constructed Decomposition.training_df
    Decomposition.training_meta Decomposition.response
  = Ok Decomposition.fitted /\
  Decomposition.predict' Decomposition.fitted Decomposition.posterior
    Decomposition.df Decomposition.training_meta
    Decomposition.prediction_meta false false
  = Raise AttributeError.
Proof.
  assert (Hinit : __init__ Args.default = Ok Decomposition.constructed)
    by reflexivity.
  assert (Hfit : set_dynamic_attributes Decomposition.gauss_kernel
                   Decomposition.timedelta64 Decomposition.infer_freq
                   Decomposition.value_eq Decomposition.level_knots_tp
                   Decomposition.constructed Decomposition.training_df
                   Decomposition.training_meta Decomposition.response
                 = Ok Decomposition.fitted) by (vm_compute; reflexivity).
  split; [exact Hinit |]. split; [exact Hfit |].
  destruct (predict_without_seasonal_input
              Decomposition.gauss_kernel Decomposition.sandwich_kernel
              Decomposition.make_fourier_series Decomposition.laplace
              Decomposition.nct_rvs Decomposition.timedelta64
              Decomposition.infer_freq Decomposition.value_eq
              Decomposition.level_knots_tp
              Args.default Decomposition.constructed Decomposition.fitted
              Hinit)
    as [_ Hpredict].
  { right. eexists _, _, _. exact Hfit. }
  destruct (Hpredict Decomposition.posterior Decomposition.df
              Decomposition.training_meta Decomposition.prediction_meta
              false false) as [_ Hraise].
  apply (Hraise 4 [(1 # 2)%Q; 1%Q] (Some (Np.A2 [[1; 2]; [3; 4]]%Q))
                (Np.A1 [1; 1]%Q)).
  - discriminate.
  - reflexivity.
  - vm_compute. reflexivity.
  - reflexivity.
Defined.


(** ** Level knots of a noisy prediction *)















Section LevelKnots.

Variable laplace : Q -> nat -> nat -> Q.




End LevelKnots.



(** ** The coefficient prior filter *)

Section FilterFacts.

Variable value_eq : prior_value -> prior_value -> result bool.

Lemma keys_eq_window_differs (u d : CoefPrior) (keys : list PriorKey) :
  (In PRIOR_START_TP_IDX (keys_before_values keys) /\
   prior_start_tp_idx u <> prior_start_tp_idx d) \/
  (In PRIOR_END_TP_IDX (keys_before_values keys) /\
   prior_end_tp_idx u <> prior_end_tp_idx d) ->
  keys_eq value_eq keys u d = Ok false.
Proof.
  induction keys as [| k tl IH]; intros H.
  - simpl in H. destruct H as [[[] _] | [[] _]].
  - cbn [keys_eq]. destruct (negb (has_key d k)); [reflexivity |].
    destruct k; cbn [keys_before_values] in H; cbn [key_eq bind].
    + destruct (String.eqb (name u) (name d)); [| reflexivity].
      apply IH. destruct H as [[[Heq | Hin] Hne] | [[Heq | Hin] Hne]];
        try discriminate; [left | right]; split; assumption.
    + destruct (Z.eqb_spec (prior_start_tp_idx u) (prior_start_tp_idx d))
        as [Hs |]; [| reflexivity].
      apply IH. destruct H as [[_ Hne] | [[Heq | Hin] Hne]];
        [contradiction | discriminate |]. right. split; assumption.
    + destruct (Z.eqb_spec (prior_end_tp_idx u) (prior_end_tp_idx d))
        as [He |]; [| reflexivity].
      apply IH. destruct H as [[[Heq | Hin] Hne] | [_ Hne]];
        [discriminate | | contradiction]. left. split; assumption.
    + destruct H as [[[] _] | [[] _]].
    + destruct H as [[[] _] | [[] _]].
    + destruct (list_eqb String.eqb (prior_regressor_col u)
                         (prior_regressor_col d)); [| reflexivity].
      apply IH. destruct H as [[[Heq | Hin] Hne] | [[Heq | Hin] Hne]];
        try discriminate; [left | right]; split; assumption.
    + destruct H as [[[] _] | [[] _]].
Qed.

(** An entry that the loop has kept never compares equal to an entry that
    it drops: the two differ in a window index, and the comparison reaches
    that index before it reaches the mean or the sd. *)
Lemma dict_eq_kept_dropped (rows : Z) (u d : CoefPrior) :
  window_keys_first u ->
  kept_window rows u ->
  Z.min (prior_end_tp_idx d) rows <= Z.min (prior_start_tp_idx d) rows ->
  dict_eq value_eq u d = Ok false.
Proof.
  intros (_ & Hstart & Hend) [Hlt Hle] Hd. unfold dict_eq.
  destruct (negb (dict_len u =? dict_len d)%nat); [reflexivity |].
  apply keys_eq_window_differs.
  destruct (Z.eq_dec (prior_start_tp_idx u) (prior_start_tp_idx d)) as [Hs | Hs];
    [| left; split; assumption].
  right. split; [assumption |]. intros He. lia.
Qed.

Lemma list_remove_own (rows : Z) (acc rest : list (nat * CoefPrior))
      (id : nat) (d : CoefPrior) :
  Forall (fun q => window_keys_first (snd q)) acc ->
  Forall (fun q => kept_window rows (snd q)) acc ->
  Forall (fun q => fst q <> id) acc ->
  Z.min (prior_end_tp_idx d) rows <= Z.min (prior_start_tp_idx d) rows ->
  list_remove value_eq (acc ++ (id, d) :: rest) id d = Ok (acc ++ rest).
Proof.
  intros Hkeys Hkept Hfresh Hd.
  induction acc as [| [j u] acc IH]; simpl.
  - rewrite Nat.eqb_refl. reflexivity.
  - inversion Hkeys as [| ? ? Hk Hkeys']; subst.
    inversion Hkept as [| ? ? Hu Hkept']; subst.
    inversion Hfresh as [| ? ? Hj Hfresh']; subst. simpl in Hk, Hu, Hj.
    destruct (Nat.eqb_spec j id); [contradiction |].
    rewrite (dict_eq_kept_dropped rows u d Hk Hu Hd). cbn [bind].
    rewrite (IH Hkeys' Hkept' Hfresh'). reflexivity.
Qed.

Lemma update_in_place_fresh (l : list (nat * CoefPrior)) (id : nat)
      (x' : CoefPrior) :
  Forall (fun q => fst q <> id) l -> update_in_place l id x' = l.
Proof.
  unfold update_in_place. induction 1 as [| q l Hq _ IH]; [reflexivity |].
  simpl. rewrite IH. destruct (Nat.eqb_spec (fst q) id); [contradiction |].
  reflexivity.
Qed.

Lemma update_in_place_own (acc rest : list (nat * CoefPrior)) (id : nat)
      (d x' : CoefPrior) :
  Forall (fun q => fst q <> id) acc ->
  Forall (fun q => fst q <> id) rest ->
  update_in_place (acc ++ (id, d) :: rest) id x'
  = acc ++ (id, x') :: rest.
Proof.
  intros Ha Hr.
  assert (Hsplit : update_in_place (acc ++ (id, d) :: rest) id x'
                   = update_in_place acc id x'
                       ++ (id, x') :: update_in_place rest id x').
  { unfold update_in_place. rewrite map_app. cbn [map fst].
    rewrite Nat.eqb_refl. reflexivity. }
  rewrite Hsplit, !update_in_place_fresh by assumption. reflexivity.
Qed.

Lemma np_full_listed (window : nat) (cols : nat) (l : list Q) :
  length l = cols -> np_full window cols (PriorList l) = Ok (repeat l window).
Proof.
  intros H. unfold np_full, broadcast_row. rewrite H, Nat.eqb_refl.
  reflexivity.
Qed.

Lemma getitem_documented (p : CoefPrior) (k : PriorKey) :
  incl documented_keys (prior_keys p) ->
  In k documented_keys ->
  getitem p k = Ok tt.
Proof.
  intros H Hin. unfold getitem.
  rewrite (proj2 (has_key_In p k Hin) (H k Hin)). reflexivity.
Qed.

Lemma filter_loop_spec (rows : Z) (copy : list (nat * CoefPrior)) :
  forall acc : list (nat * CoefPrior),
    Forall (fun q => window_keys_first (snd q)) acc ->
    Forall (fun q => kept_window rows (snd q)) acc ->
    Forall (fun q => ~ In (fst q) (map fst copy)) acc ->
    NoDup (map fst copy) ->
    Forall (fun q => listed_prior (snd q)) copy ->
    Forall (fun q => window_keys_first (snd q)) copy ->
    filter_loop value_eq rows copy (acc ++ copy)
    = Ok (acc ++ flat_map (fun q => map (pair (fst q))
                                        (filtered_prior rows (snd q))) copy).
Proof.
  induction copy as [| [id d] rest IH];
    intros acc Hkeys Hkept Hfresh Hnodup Hlisted Hordered.
  - reflexivity.
  - inversion Hnodup as [| ? ? Hid Hnodup']; subst.
    inversion Hlisted as [| ? ? Hd Hlisted']; subst.
    inversion Hordered as [| ? ? Hk Hordered']; subst. simpl in Hk.
    destruct Hd as (m & sd & Hm & Hsd & Hlm & Hlsd). simpl in Hm, Hsd, Hlm, Hlsd.
    assert (Hacc : Forall (fun q => fst q <> id) acc).
    { eapply Forall_impl; [| exact Hfresh]. intros q Hq Heq. apply Hq.
      left. symmetry. exact Heq. }
    assert (Hrest : Forall (fun q => fst q <> id) rest).
    { apply Forall_forall. intros q Hq Heq. apply Hid.
      rewrite <- Heq. apply in_map. assumption. }
    cbn [filter_loop flat_map fst snd].
    rewrite !(getitem_documented d) by (first [apply Hk | simpl; tauto]).
    cbn [bind].
    unfold filtered_prior.
    destruct (Z.ltb_spec (Z.min (prior_start_tp_idx d) rows)
                         (Z.min (prior_end_tp_idx d) rows)) as [Hlt | Hge].
    + rewrite Hm, Hsd, !np_full_listed by assumption. cbn [bind expand map].
      rewrite update_in_place_own by assumption.
      change (acc ++ (id, ?x) :: rest) with (acc ++ [(id, x)] ++ rest).
      rewrite !app_assoc. apply IH; try assumption.
      * apply Forall_app. split; [assumption |]. constructor; [| constructor].
        exact Hk.
      * apply Forall_app. split; [assumption |]. constructor; [| constructor].
        unfold kept_window. simpl. lia.
      * apply Forall_app. split.
        -- eapply Forall_impl; [| exact Hfresh]. intros q Hq Hin. apply Hq.
           right. assumption.
        -- constructor; [| constructor]. simpl. assumption.
    + rewrite (list_remove_own rows) by assumption. cbn [bind map app].
      apply IH; try assumption.
      eapply Forall_impl; [| exact Hfresh]. intros q Hq Hin. apply Hq.
      right. assumption.
Qed.

Lemma enumerate_fst {A : Type} (l : list A) :
  forall k, map fst (combine (seq k (length l)) l) = seq k (length l).
Proof.
  induction l as [| x l IH]; intros k; [reflexivity |].
  simpl. rewrite IH. reflexivity.
Qed.

Lemma flat_map_enumerated {A B : Type} (f : A -> list B) (l : list A) :
  forall k,
    map snd (flat_map (fun q => map (pair (fst q)) (f (snd q)))
                      (combine (seq k (length l)) l))
    = flat_map f l.
Proof.
  induction l as [| x l IH]; intros k; [reflexivity |].
  simpl. rewrite map_app, IH, map_map. simpl. rewrite map_id. reflexivity.
Qed.

Lemma filtered_prior_shape (rows : Z) (p q : CoefPrior) :
  listed_prior p ->
  In q (filtered_prior rows p) ->
  q = with_window p (Z.min (prior_start_tp_idx p) rows)
                  (Z.min (prior_end_tp_idx p) rows)
                  (expand (prior_mean p)
                          (Z.to_nat (prior_end_tp_idx q - prior_start_tp_idx q)))
                  (expand (prior_sd p)
                          (Z.to_nat (prior_end_tp_idx q - prior_start_tp_idx q))) /\
  prior_start_tp_idx q < prior_end_tp_idx q <= rows /\
  exists m sd,
    prior_mean q = PriorArray m /\ prior_sd q = PriorArray sd /\
    length m = Z.to_nat (prior_end_tp_idx q - prior_start_tp_idx q) /\
    length sd = Z.to_nat (prior_end_tp_idx q - prior_start_tp_idx q) /\
    Forall (fun r => length r = length (prior_regressor_col q)) m /\
    Forall (fun r => length r = length (prior_regressor_col q)) sd.
Proof.
  intros (m & sd & Hm & Hsd & Hlm & Hlsd) Hin. unfold filtered_prior in Hin.
  destruct (Z.ltb_spec (Z.min (prior_start_tp_idx p) rows)
                       (Z.min (prior_end_tp_idx p) rows)) as [Hlt | Hge];
    [| contradiction].
  destruct Hin as [<- | []]. cbn [with_window prior_start_tp_idx prior_end_tp_idx
                                  prior_mean prior_sd prior_regressor_col].
  split; [reflexivity |]. split; [lia |].
  rewrite Hm, Hsd. cbn [expand]. eexists _, _.
  split; [reflexivity |]. split; [reflexivity |].
  rewrite !repeat_length. split; [reflexivity |]. split; [reflexivity |].
  split; apply Forall_forall; intros r Hr; apply repeat_spec in Hr; subst r;
    assumption.
Qed.

(** C4 (amended).  For a model with at least one regressor whose priors
    are dicts that hold the six documented keys with both window indices
    written before the mean and the sd (as in the documented order), and
    that carry list-valued mean and sd with one entry per target column,
    the filter returns without error, whatever the comparison of an array
    with a list does.  It caps both window indices at the number of rows
    (there is no lower bound at 0); a prior whose capped window is not empty
    is kept with the capped indices and with mean and sd arrays of
    window_length rows and one column per target column; a prior whose
    capped window is empty is removed. *)
Theorem filter_coef_prior_caps_window (self : KTRModel) (df : DataFrame) :
  let rows := Z.of_nat (length (df_dates df)) in
  _regressor_col self <> [] ->
  Forall listed_prior (_coef_prior_list self) ->
  Forall window_keys_first (_coef_prior_list self) ->
  exists self',
    _filter_coef_prior value_eq self df = Ok self' /\
    _coef_prior_list self'
    = flat_map (filtered_prior rows) (_coef_prior_list self) /\
    (forall p, In p (_coef_prior_list self) ->
               Z.min (prior_end_tp_idx p) rows
               <= Z.min (prior_start_tp_idx p) rows ->
               filtered_prior rows p = []) /\
    Forall (fun q =>
              prior_start_tp_idx q < prior_end_tp_idx q <= rows /\
              exists m sd,
                prior_mean q = PriorArray m /\ prior_sd q = PriorArray sd /\
                length m = Z.to_nat (prior_end_tp_idx q - prior_start_tp_idx q) /\
                length sd = Z.to_nat (prior_end_tp_idx q - prior_start_tp_idx q) /\
                Forall (fun r => length r = length (prior_regressor_col q)) m /\
                Forall (fun r => length r = length (prior_regressor_col q)) sd)
           (_coef_prior_list self').
Proof.
  intros rows Hcols Hlisted Hordered.
  assert (Hrun : exists self',
             _filter_coef_prior value_eq self df = Ok self' /\
             _coef_prior_list self'
             = flat_map (filtered_prior rows) (_coef_prior_list self)).
  { unfold _filter_coef_prior.
    destruct (_coef_prior_list self) as [| p l] eqn:Hl.
    - exists self. rewrite Hl. split; reflexivity.
    - rewrite <- Hl in *.
      assert (Hguard : negb (is_empty (_coef_prior_list self))
                       && (0 <? length (_regressor_col self))%nat = true).
      { rewrite Hl. simpl. apply Nat.ltb_lt.
        destruct (_regressor_col self); [contradiction | simpl; lia]. }
      rewrite Hguard. unfold enumerate.
      pose proof (filter_loop_spec rows
                    (combine (seq 0 (length (_coef_prior_list self)))
                             (_coef_prior_list self)) []) as Hloop.
      simpl app in Hloop. fold rows. rewrite Hloop.
      + cbn [bind]. eexists. split; [reflexivity |]. simpl.
        apply flat_map_enumerated.
      + constructor.
      + constructor.
      + constructor.
      + rewrite enumerate_fst. apply seq_NoDup.
      + apply Forall_forall. intros [i q] Hq. apply in_combine_r in Hq.
        rewrite Forall_forall in Hlisted. apply Hlisted. assumption.
      + apply Forall_forall. intros [i q] Hq. apply in_combine_r in Hq.
        rewrite Forall_forall in Hordered. apply Hordered. assumption. }
  destruct Hrun as (self' & Hrun & Hlist).
  exists self'. split; [assumption |]. split; [assumption |]. split.
  - intros p _ Hge. unfold filtered_prior.
    destruct (Z.ltb_spec (Z.min (prior_start_tp_idx p) rows)
                         (Z.min (prior_end_tp_idx p) rows)); [lia | reflexivity].
  - rewrite Hlist. apply Forall_forall. intros q Hq.
    apply in_flat_map in Hq. destruct Hq as (p & Hp & Hq).
    rewrite Forall_forall in Hlisted.
    destruct (filtered_prior_shape rows p q (Hlisted p Hp) Hq) as (_ & H1 & H2).
    split; assumption.
Qed.

End FilterFacts.

(** C4 (counterexample).  On ten rows the prior with window [-3, 5) keeps
    its start index -3, outside [0, 10], and receives arrays of 8 rows; and
    in a model without regressors the prior with window [5, 3) is not
    removed. *)
Lemma prior_window_not_clamped :
  match _filter_coef_prior PriorWindow.value_eq PriorWindow.model
          PriorWindow.df with
  | Ok self' =>
      map (fun p => (name p, prior_start_tp_idx p, prior_end_tp_idx p,
                     prior_value_len (prior_mean p)))
          (_coef_prior_list self')
      = [("early"%string, -3, 5, 8%nat); ("late"%string, 8, 10, 2%nat)] /\
      ~ Forall (clamped_to_window 10) (_coef_prior_list self')
  | Raise _ => False
  end
  /\
  match _filter_coef_prior PriorWindow.value_eq PriorWindow.bare_model
          PriorWindow.df with
  | Ok self' =>
      map (fun p => (name p, prior_start_tp_idx p, prior_end_tp_idx p))
          (_coef_prior_list self')
      = [("empty"%string, 5, 3)]
  | Raise _ => False
  end.
Proof.
  split.
  - vm_compute. split; [reflexivity |].
    intros Hall. inversion Hall as [| ? ? Hearly _].
    destruct Hearly as [[Hlow _] _]. apply Hlow. reflexivity.
  - vm_compute. reflexivity.
Qed.

Lemma filter_coef_prior_witness :
  _regressor_col PriorWindow.model <> [] /\
  Forall listed_prior (_coef_prior_list PriorWindow.model) /\
  Forall window_keys_first (_coef_prior_list PriorWindow.model) /\
  exists self',
    _filter_coef_prior PriorWindow.value_eq PriorWindow.model PriorWindow.df
    = Ok self' /\
    map name (_coef_prior_list self') = ["early"%string; "late"%string] /\
    filtered_prior 10 (PriorWindow.prior "empty" 5 3) = [].
Proof.
  assert (Hcols : _regressor_col PriorWindow.model <> []) by discriminate.
  assert (Hlisted : Forall listed_prior (_coef_prior_list PriorWindow.model)).
  { repeat constructor; eexists _, _; repeat split; reflexivity. }
  assert (Hordered : Forall window_keys_first
                            (_coef_prior_list PriorWindow.model)).
  { repeat (constructor;
            [split; [apply incl_refl | split; simpl; tauto] |]).
    constructor. }
  split; [exact Hcols |]. split; [exact Hlisted |]. split; [exact Hordered |].
  destruct (filter_coef_prior_caps_window PriorWindow.value_eq
              PriorWindow.model PriorWindow.df Hcols Hlisted Hordered)
    as (self' & Hrun & Hlist & _).
  exists self'. split; [exact Hrun |]. rewrite Hlist.
  split; reflexivity.
Defined.

(** The order of the keys matters: when a dict lists its mean before the
    window indices, the removal of a prior with an empty window compares the
    array of a kept prior with a list, and the filter raises when that
    comparison is refused. *)
Lemma filter_coef_prior_mean_first :
  Forall listed_prior (_coef_prior_list PriorWindow.mean_first_model) /\
  _filter_coef_prior PriorWindow.value_eq PriorWindow.mean_first_model
    PriorWindow.df
  = Raise ValueError.
Proof.
  split; [| vm_compute; reflexivity].
  repeat constructor; eexists _, _; repeat split; reflexivity.
Qed.

(** ** Normalized time positions *)

Lemma time_points_nth (lo hi n : Z) (k : nat) :
  Z.of_nat k < hi - lo ->
  nth_error (time_points lo hi n) k
  = Some (inject_Z (lo + Z.of_nat k) / inject_Z n)%Q.
Proof.
  intros Hk. unfold time_points, Np.arange1.
  rewrite !nth_error_map, nth_error_seq.
  destruct (Nat.ltb_spec k (Z.to_nat (hi - lo))); [reflexivity | lia].
Qed.

Lemma positions_In (l : list Z) (x : Z) :
  forall from p,
    In p (positions l x from) ->
    from <= p /\ nth_error l (Z.to_nat (p - from)) = Some x.
Proof.
  induction l as [| y l IH]; intros from p Hin; simpl in Hin; [contradiction |].
  destruct (Z.eqb_spec y x) as [-> | Hne].
  - destruct Hin as [<- | Hin].
    + split; [lia |]. rewrite Z.sub_diag. reflexivity.
    + apply IH in Hin. destruct Hin as [Hle Hnth]. split; [lia |].
      replace (Z.to_nat (p - from)) with (S (Z.to_nat (p - (from + 1)))) by lia.
      exact Hnth.
  - apply IH in Hin. destruct Hin as [Hle Hnth]. split; [lia |].
    replace (Z.to_nat (p - from)) with (S (Z.to_nat (p - (from + 1)))) by lia.
    exact Hnth.
Qed.

Lemma positions_missing (l : list Z) (x : Z) :
  ~ In x l -> forall from, positions l x from = [].
Proof.
  induction l as [| y l IH]; intros Hx from; [reflexivity |]. simpl.
  destruct (Z.eqb_spec y x) as [-> | Hne].
  - exfalso. apply Hx. left. reflexivity.
  - apply IH. intros Hin. apply Hx. right. assumption.
Qed.

Lemma positions_unique (l : list Z) (x : Z) :
  NoDup l -> In x l -> forall from, exists i, positions l x from = [i].
Proof.
  induction 1 as [| y l Hy Hnd IH]; intros Hin from; [contradiction |].
  simpl. destruct (Z.eqb_spec y x) as [-> | Hne].
  - exists from. rewrite (positions_missing l x Hy). reflexivity.
  - destruct Hin as [Heq | Hin]; [contradiction |]. apply IH. assumption.
Qed.

Lemma get_loc_Ok (l : list Z) (x i : Z) :
  get_loc l x = Ok i -> 0 <= i /\ nth_error l (Z.to_nat i) = Some x.
Proof.
  unfold get_loc. intros H.
  destruct (positions l x 0) as [| p [| ? ?]] eqn:Hp; try discriminate.
  injection H as ->.
  destruct (positions_In l x 0 i) as [Hle Hnth].
  - rewrite Hp. left. reflexivity.
  - rewrite Z.sub_0_r in Hnth. auto.
Qed.

Lemma get_loc_missing (l : list Z) (x : Z) :
  ~ In x l -> get_loc l x = Raise KeyError.
Proof.
  intros H. unfold get_loc. rewrite (positions_missing l x H). reflexivity.
Qed.

Lemma get_loc_unique (l : list Z) (x : Z) :
  NoDup l -> In x l -> exists i, get_loc l x = Ok i.
Proof.
  intros Hnd Hin. destruct (positions_unique l x Hnd Hin 0) as (i & Hi).
  exists i. unfold get_loc. rewrite Hi. reflexivity.
Qed.

(** C8.  On a training set of [n > 0] observations the time position of
    index [i] is (i + 1) / n: the positions lie in (0, 1], the first is 1/n
    and the last is 1.  For prediction dates that start after the training
    end the positions continue from [n], the first being (n + 1) / n; a
    start inside the training range is the position of its exact match in
    the training dates (found whenever the date occurs in a duplicate-free
    index, a [KeyError] when it does not occur). *)
Theorem normalized_time_positions (training_meta : TrainingMeta) :
  let n := num_of_observations training_meta in
  0 < n ->
  (length (time_points 1 (n + 1) n) = Z.to_nat n /\
   (forall i, 0 <= i < n ->
              nth_error (time_points 1 (n + 1) n) (Z.to_nat i)
              = Some (inject_Z (i + 1) / inject_Z n)%Q /\
              (0 < inject_Z (i + 1) / inject_Z n)%Q /\
              (inject_Z (i + 1) / inject_Z n <= 1)%Q) /\
   hd_error (time_points 1 (n + 1) n) = Some (inject_Z 1 / inject_Z n)%Q /\
   (inject_Z (n - 1 + 1) / inject_Z n == 1)%Q)
  /\
  forall (first : Z) (rest : list Z),
    let prediction_date_array := first :: rest in
    let output_len := Z.of_nat (length prediction_date_array) in
    (training_end training_meta < first ->
     start_index training_meta first = Ok n /\
     _generate_tp training_meta prediction_date_array
     = Ok (time_points (n + 1) (n + output_len + 1) n) /\
     hd_error (time_points (n + 1) (n + output_len + 1) n)
     = Some (inject_Z (n + 1) / inject_Z n)%Q)
    /\
    (first <= training_end training_meta ->
     (forall i, start_index training_meta first = Ok i ->
                0 <= i /\
                nth_error (date_array training_meta) (Z.to_nat i) = Some first /\
                _generate_tp training_meta prediction_date_array
                = Ok (time_points (i + 1) (i + output_len + 1) n)) /\
     (NoDup (date_array training_meta) ->
      In first (date_array training_meta) ->
      exists i, start_index training_meta first = Ok i) /\
     (~ In first (date_array training_meta) ->
      _generate_tp training_meta prediction_date_array = Raise KeyError)).
Proof.
  intros n Hn.
  assert (Hnq : (inject_Z 0 < inject_Z n)%Q) by (rewrite <- Zlt_Qlt; assumption).
  split.
  - split; [rewrite time_points_length; f_equal; lia |]. split; [| split].
    + intros i Hi. split; [| split].
      * rewrite time_points_nth by lia. do 3 f_equal. lia.
      * apply Qlt_shift_div_l; [assumption |]. rewrite Qmult_0_l.
        change (inject_Z 0 < inject_Z (i + 1))%Q. rewrite <- Zlt_Qlt. lia.
      * apply Qle_shift_div_r; [assumption |]. rewrite Qmult_1_l.
        rewrite <- Zle_Qle. lia.
    + change (hd_error (time_points 1 (n + 1) n))
        with (nth_error (time_points 1 (n + 1) n) 0).
      rewrite time_points_nth by (simpl; lia). reflexivity.
    + replace (n - 1 + 1) with n by lia. unfold Qdiv.
      apply Qmult_inv_r. intros H. rewrite H in Hnq. discriminate.
  - intros first rest pda output_len.
    assert (Hidx : Py.index pda 0 = Ok first) by reflexivity.
    split.
    + intros Hlate.
      assert (Hstart : start_index training_meta first = Ok n).
      { unfold start_index. fold n.
        destruct (Z.ltb_spec (training_end training_meta) first);
          [reflexivity | lia]. }
      split; [exact Hstart |]. split.
      * unfold _generate_tp. rewrite Hidx. cbn [bind]. rewrite Hstart.
        reflexivity.
      * change (hd_error ?l) with (nth_error l 0).
        rewrite time_points_nth by (unfold output_len; simpl length; lia).
        do 3 f_equal. lia.
    + intros Hin.
      assert (Hstart : start_index training_meta first
                       = get_loc (date_array training_meta) first).
      { unfold start_index.
        destruct (Z.ltb_spec (training_end training_meta) first);
          [lia | reflexivity]. }
      split; [| split].
      * intros i Hi. rewrite Hstart in Hi.
        destruct (get_loc_Ok _ _ _ Hi) as [Hle Hnth].
        split; [assumption |]. split; [assumption |].
        unfold _generate_tp. rewrite Hidx. cbn [bind]. rewrite Hstart, Hi.
        reflexivity.
      * intros Hnd Hmem. rewrite Hstart. apply get_loc_unique; assumption.
      * intros Hmiss. unfold _generate_tp. rewrite Hidx. cbn [bind].
        rewrite Hstart, (get_loc_missing _ _ Hmiss). reflexivity.
Qed.

Lemma normalized_time_positions_witness :
  0 < num_of_observations Decomposition.training_meta /\
  _generate_tp Decomposition.training_meta [10; 11]
  = Ok [(inject_Z 5 / inject_Z 4)%Q; (inject_Z 6 / inject_Z 4)%Q] /\
  _generate_tp Decomposition.training_meta [2; 3]
  = Ok [(inject_Z 3 / inject_Z 4)%Q; (inject_Z 4 / inject_Z 4)%Q].
Proof.
  assert (Hpos : 0 < num_of_observations Decomposition.training_meta)
    by reflexivity.
  split; [exact Hpos |].
  destruct (normalized_time_positions Decomposition.training_meta Hpos)
    as [_ Hpred].
  split.
  - destruct (Hpred 10 [11]) as [Hlate _].
    destruct Hlate as (_ & Hgen & _); [reflexivity |].
    rewrite Hgen. reflexivity.
  - destruct (Hpred 2 [3]) as [_ Hin].
    destruct Hin as (Hloc & _ & _); [discriminate |].
    destruct (Hloc 2) as (_ & _ & Hgen); [reflexivity |].
    rewrite Hgen. reflexivity.
Defined.

(** ** Validation of an explicit date array *)

Lemma is_ordered_cons (tl : list Z) :
  forall x,
    is_ordered_datetime (x :: tl) = true ->
    is_ordered_datetime tl = true /\ Forall (Z.lt x) tl.
Proof.
  induction tl as [| y tl IH]; intros x H.
  - split; [reflexivity | constructor].
  - cbn [is_ordered_datetime] in H. apply andb_true_iff in H.
    destruct H as [Hxy Htl]. apply Z.ltb_lt in Hxy.
    split; [assumption |].
    destruct (IH y Htl) as [_ Hall].
    constructor; [assumption |].
    eapply Forall_impl; [| exact Hall]. intros z Hz. lia.
Qed.

Lemma is_ordered_increasing (l : list Z) :
  is_ordered_datetime l = true ->
  forall i j, (i < j < length l)%nat -> nth i l 0 < nth j l 0.
Proof.
  induction l as [| x l IH]; intros H i j Hij; [simpl in Hij; lia |].
  destruct (is_ordered_cons l x H) as [Hl Hall].
  destruct j as [| j]; [lia |]. simpl in Hij.
  destruct i as [| i].
  - cbn [nth]. rewrite Forall_forall in Hall. apply Hall.
    apply nth_In. lia.
  - cbn [nth]. apply IH; [assumption | lia].
Qed.

Lemma increasing_is_ordered (l : list Z) :
  (forall i j, (i < j < length l)%nat -> nth i l 0 < nth j l 0) ->
  is_ordered_datetime l = true.
Proof.
  induction l as [| x l IH]; intros H; [reflexivity |].
  destruct l as [| y l]; [reflexivity |].
  cbn [is_ordered_datetime]. apply andb_true_iff. split.
  - apply Z.ltb_lt. apply (H 0%nat 1%nat). simpl. lia.
  - apply IH. intros i j Hij. apply (H (S i) (S j)). simpl in *. lia.
Qed.

(** C9 (amended).  For a model with at least one regressor, the
    reconstruction for an explicit date array raises [IllegalArgument] when
    some date is not strictly after an earlier one (the array is unordered
    or repeats a date), and raises [ModelException] when the array is
    strictly increasing and its first date is before the training start; in
    both cases nothing is returned. *)
Theorem explicit_dates_validated
        (gauss_kernel : list Q -> list Q -> Q -> Np.matrix)
        (self : KTRModel) (training_meta : TrainingMeta) (p : posteriors)
        (dates : list Z) :
  (_num_of_regular_regressors self + _num_of_positive_regressors self
   <> 0)%nat ->
  ((exists i j, (i < j < length dates)%nat /\ nth j dates 0 <= nth i dates 0) ->
   _get_regression_coefs_matrix gauss_kernel self training_meta p (Some dates)
   = Raise IllegalArgument)
  /\
  ((forall i j, (i < j < length dates)%nat -> nth i dates 0 < nth j dates 0) ->
   forall first rest,
     dates = first :: rest ->
     first < training_start training_meta ->
     _get_regression_coefs_matrix gauss_kernel self training_meta p (Some dates)
     = Raise ModelException).
Proof.
  intros Hreg. unfold _get_regression_coefs_matrix.
  destruct (Nat.eqb_spec (_num_of_regular_regressors self
                          + _num_of_positive_regressors self) 0);
    [contradiction |].
  split.
  - intros (i & j & Hij & Hle).
    destruct (is_ordered_datetime dates) eqn:Hord; [| reflexivity].
    pose proof (is_ordered_increasing dates Hord i j Hij). lia.
  - intros Hinc first rest -> Hearly.
    rewrite (increasing_is_ordered _ Hinc). cbn [negb].
    change (Py.index (first :: rest) 0) with (Ok first). cbn [bind].
    destruct (Z.ltb_spec first (training_start training_meta));
      [reflexivity | lia].
Qed.

(** C9 (counterexample).  Without regressors the reconstruction returns
    [None] before it looks at the dates: neither an unordered array with a
    repeated date nor a start before the training start raises. *)
Lemma no_regressors_skip_validation :
  _get_regression_coefs_matrix Decomposition.gauss_kernel
    Decomposition.constructed Decomposition.training_meta [] (Some [3; 1; 1])
  = Ok None /\
  _get_regression_coefs_matrix Decomposition.gauss_kernel
    Decomposition.constructed Decomposition.training_meta [] (Some [-5; -4])
  = Ok None.
Proof. split; reflexivity. Qed.

Lemma explicit_dates_validated_witness :
  (_num_of_regular_regressors Partition.model
   + _num_of_positive_regressors Partition.model <> 0)%nat /\
  _get_regression_coefs_matrix Decomposition.gauss_kernel Partition.model
    Decomposition.training_meta [] (Some [3; 1; 1])
  = Raise IllegalArgument /\
  _get_regression_coefs_matrix Decomposition.gauss_kernel Partition.model
    Decomposition.training_meta [] (Some [-5; -4])
  = Raise ModelException.
Proof.
  assert (Hreg : (_num_of_regular_regressors Partition.model
                  + _num_of_positive_regressors Partition.model <> 0)%nat)
    by discriminate.
  split; [exact Hreg |]. split.
  - apply (explicit_dates_validated Decomposition.gauss_kernel
             Partition.model Decomposition.training_meta [] [3; 1; 1] Hreg).
    exists 0%nat, 1%nat. split; [simpl; lia | discriminate].
  - apply (explicit_dates_validated Decomposition.gauss_kernel
             Partition.model Decomposition.training_meta [] [-5; -4] Hreg)
      with (first := -5) (rest := [-4]).
    + intros i j Hij. simpl in Hij.
      assert (i = 0%nat /\ j = 1%nat) as [-> ->] by lia. reflexivity.
    + reflexivity.
    + reflexivity.
Defined.

Lemma validate_params_len_cases {A : Type} (p : option (list A)) (n : nat) :
  (consistent_length p n /\ _validate_params_len p n = Ok tt) \/
  (~ consistent_length p n /\ _validate_params_len p n = Raise IllegalArgument).
Proof.
  destruct p as [l |]; simpl; [| left; auto].
  destruct (Nat.eqb_spec (length l) n); [left | right]; auto.
Qed.

Lemma set_default_args_regressors (a : Args.t) (cols : list string) :
  Args.regressor_col a = Some cols ->
  let n := length cols in
  (consistent_length (Args.regressor_sign a) n /\
   consistent_length (Args.regressor_init_knot_loc a) n /\
   consistent_length (Args.regressor_init_knot_scale a) n /\
   consistent_length (Args.regressor_knot_scale a) n /\
   exists s1,
     _set_default_args (init_attributes a) = Ok s1 /\
     regressor_col s1 = Some cols /\
     _num_of_regressors s1 = n /\
     _regressor_sign s1
     = Some (effective (Args.regressor_sign a) DEFAULT_REGRESSOR_SIGN n) /\
     _regressor_init_knot_loc s1
     = Some (effective (Args.regressor_init_knot_loc a)
                       DEFAULT_COEFFICIENTS_INIT_KNOT_LOC n) /\
     _regressor_init_knot_scale s1
     = Some (effective (Args.regressor_init_knot_scale a)
                       DEFAULT_COEFFICIENTS_INIT_KNOT_SCALE n) /\
     _regressor_knot_scale s1
     = Some (effective (Args.regressor_knot_scale a)
                       DEFAULT_COEFFICIENTS_KNOT_SCALE n) /\
     positive_group s1 = group_of [] [] [] [] /\
     regular_group s1 = group_of [] [] [] [] /\
     _regressor_col s1 = [] /\
     _coef_prior_list s1
     = match Args.coef_prior_list a with Some l => l | None => [] end)
  \/
  (~ (consistent_length (Args.regressor_sign a) n /\
      consistent_length (Args.regressor_init_knot_loc a) n /\
      consistent_length (Args.regressor_init_knot_scale a) n /\
      consistent_length (Args.regressor_knot_scale a) n) /\
   _set_default_args (init_attributes a) = Raise IllegalArgument).
Proof.
  intros Hcols n. unfold _set_default_args.
  destruct a as [lks rc rs ril ris rks seg dist kd rho dof cpl df fm].
  simpl in Hcols. subst rc. cbn [Args.regressor_sign Args.regressor_init_knot_loc
    Args.regressor_init_knot_scale Args.regressor_knot_scale Args.coef_prior_list].
  fold n.
  destruct (validate_params_len_cases rs n) as [[H1 E1] | [H1 E1]];
  destruct (validate_params_len_cases ril n) as [[H2 E2] | [H2 E2]];
  destruct (validate_params_len_cases ris n) as [[H3 E3] | [H3 E3]];
  destruct (validate_params_len_cases rks n) as [[H4 E4] | [H4 E4]].
  1: { left. repeat (split; [assumption |]).
       destruct cpl as [l |]; cbn; fold n; rewrite E1, E2, E3, E4; cbn;
         eexists; (split; [reflexivity |]); cbn;
         destruct rs, ril, ris, rks; cbn; repeat split; reflexivity. }
  all: right; split; [tauto |].
  all: destruct cpl as [l |]; cbn; fold n;
    rewrite ?E1; cbn; rewrite ?E2; cbn; rewrite ?E3; cbn; rewrite ?E4;
    reflexivity.
Qed.

Lemma same_parameters_refl (self : KTRModel) : same_parameters self self.
Proof. repeat split. Qed.

Lemma same_parameters_trans (s1 s2 s3 : KTRModel) :
  same_parameters s1 s2 -> same_parameters s2 s3 -> same_parameters s1 s3.
Proof.
  unfold same_parameters. intros H1 H2.
  destruct H1 as (? & ? & ? & ? & ? & ? & ? & ?).
  destruct H2 as (? & ? & ? & ? & ? & ? & ? & ?).
  repeat split; congruence.
Qed.

Lemma nth_error_item {A : Type} (l : list A) (i : nat) :
  (i < length l)%nat -> exists x, nth_error l i = Some x /\ item l i = Ok x.
Proof.
  intros H. destruct (nth_error l i) as [x |] eqn:E.
  - exists x. split; [reflexivity |]. unfold item. rewrite E. reflexivity.
  - apply nth_error_None in E. lia.
Qed.

Lemma static_step_total (self : KTRModel) (idx : nat) (s : string)
      (cols : list string) (locs scales kss : list Q) :
  regressor_col self = Some cols ->
  _regressor_init_knot_loc self = Some locs ->
  _regressor_init_knot_scale self = Some scales ->
  _regressor_knot_scale self = Some kss ->
  is_1d (positive_group self) -> is_1d (regular_group self) ->
  (idx < length cols)%nat -> (idx < length locs)%nat ->
  (idx < length scales)%nat -> (idx < length kss)%nat ->
  exists self' col loc scale ks,
    static_regression_step self idx s = Ok self' /\
    nth_error cols idx = Some col /\ nth_error locs idx = Some loc /\
    nth_error scales idx = Some scale /\ nth_error kss idx = Some ks /\
    same_parameters self self' /\
    positive_group self'
    = (if is_positive s then push_group (positive_group self) col loc scale ks
       else positive_group self) /\
    regular_group self'
    = (if is_positive s then regular_group self
       else push_group (regular_group self) col loc scale ks).
Proof.
  intros Hc Hl Hs Hk [pv Hpv] [rv Hrv] H1 H2 H3 H4.
  destruct (nth_error_item cols idx H1) as (col & Ncol & Icol).
  destruct (nth_error_item locs idx H2) as (loc & Nloc & Iloc).
  destruct (nth_error_item scales idx H3) as (scale & Nscale & Iscale).
  destruct (nth_error_item kss idx H4) as (ks & Nks & Iks).
  simpl in Hpv, Hrv.
  unfold static_regression_step.
  rewrite Hc, Hl, Hs, Hk. cbn [require bind].
  rewrite Icol, Iloc, Iscale, Iks. cbn [bind].
  unfold is_positive.
  destruct (String.eqb s "+").
  - rewrite Hpv. cbn [scale_append bind].
    eexists _, col, loc, scale, ks. split; [reflexivity |].
    repeat (split; [assumption |]). split; [repeat split |].
    unfold positive_group, regular_group. cbn. rewrite Hpv. split; reflexivity.
  - rewrite Hrv. cbn [scale_append bind].
    eexists _, col, loc, scale, ks. split; [reflexivity |].
    repeat (split; [assumption |]). split; [repeat split |].
    unfold positive_group, regular_group. cbn. rewrite Hrv. split; reflexivity.
Qed.

Lemma extend_group_nil (positive : bool) g cols locs scales kss :
  is_1d g -> extend_group positive g cols locs scales kss [] = g.
Proof.
  destruct g as [[[[n c] l] s] ks]. intros [v Hv]. simpl in Hv. subst ks.
  unfold extend_group, positive_of, regular_of.
  rewrite !combine_nil. destruct positive; cbn; rewrite !app_nil_r, Nat.add_0_r;
    reflexivity.
Qed.

Lemma extend_group_cons (positive : bool) g col cols loc locs scale scales
      ks kss s signs :
  extend_group positive g (col :: cols) (loc :: locs) (scale :: scales)
               (ks :: kss) (s :: signs)
  = extend_group positive
      (if Bool.eqb positive (is_positive s)
       then push_group g col loc scale ks else g)
      cols locs scales kss signs.
Proof.
  destruct g as [[[[n c] l] sc] k].
  unfold extend_group, positive_of, regular_of. cbn [combine filter snd].
  destruct positive, (is_positive s);
    cbn [negb Bool.eqb map fst push_group length];
    rewrite <- ?app_assoc; cbn [app]; destruct k;
    rewrite <- ?app_assoc; cbn [app];
    try reflexivity; f_equal; f_equal; f_equal; f_equal; lia.
Qed.

Lemma is_1d_push g col loc scale ks : is_1d g -> is_1d (push_group g col loc scale ks).
Proof.
  destruct g as [[[[n c] l] sc] k]. intros [v Hv]. simpl in Hv. subst k.
  eexists. reflexivity.
Qed.

Lemma static_loop_total (signs : list string) :
  forall (self : KTRModel) (idx : nat) (cols : list string)
         (locs scales kss : list Q),
    regressor_col self = Some cols ->
    _regressor_init_knot_loc self = Some locs ->
    _regressor_init_knot_scale self = Some scales ->
    _regressor_knot_scale self = Some kss ->
    is_1d (positive_group self) -> is_1d (regular_group self) ->
    (idx + length signs <= length cols)%nat ->
    (idx + length signs <= length locs)%nat ->
    (idx + length signs <= length scales)%nat ->
    (idx + length signs <= length kss)%nat ->
    exists self',
      static_regression_loop self idx signs = Ok self' /\
      same_parameters self self' /\
      positive_group self'
      = extend_group true (positive_group self) (skipn idx cols)
                     (skipn idx locs) (skipn idx scales) (skipn idx kss) signs /\
      regular_group self'
      = extend_group false (regular_group self) (skipn idx cols)
                     (skipn idx locs) (skipn idx scales) (skipn idx kss) signs.
Proof.
  induction signs as [| s signs IH];
    intros self idx cols locs scales kss Hc Hl Hs Hk Hp Hr H1 H2 H3 H4.
  - exists self. split; [reflexivity |]. split; [apply same_parameters_refl |].
    rewrite !extend_group_nil by assumption. split; reflexivity.
  - simpl in H1, H2, H3, H4.
    destruct (static_step_total self idx s cols locs scales kss)
      as (s1 & col & loc & scale & ks & Hstep & Ncol & Nloc & Nscale & Nks
          & Hsame & Hpos & Hreg); try assumption; try lia.
    destruct Hsame as (Ec & Esg & El & Es & Ek & En & Ep & Erc).
    destruct (IH s1 (S idx) cols locs scales kss) as (s2 & Hloop & Hsame2 & Hpos2 & Hreg2);
      try congruence; try lia.
    { rewrite Hpos. destruct (is_positive s); [apply is_1d_push |]; assumption. }
    { rewrite Hreg. destruct (is_positive s); [| apply is_1d_push]; assumption. }
    exists s2. split.
    { cbn [static_regression_loop]. rewrite Hstep. cbn [bind]. exact Hloop. }
    split.
    { eapply same_parameters_trans; [| exact Hsame2]. repeat split; assumption. }
    rewrite (skipn_nth_error _ _ _ Ncol), (skipn_nth_error _ _ _ Nloc),
      (skipn_nth_error _ _ _ Nscale), (skipn_nth_error _ _ _ Nks).
    rewrite !extend_group_cons. rewrite Hpos2, Hreg2, Hpos, Hreg.
    destruct (is_positive s); cbn [Bool.eqb]; split; reflexivity.
Qed.

Lemma mapM_raise {A B : Type} (f : A -> result B) (e : exn) (l : list A) :
  Forall (fun x => (exists y, f x = Ok y) \/ f x = Raise e) l ->
  Exists (fun x => f x = Raise e) l ->
  mapM f l = Raise e.
Proof.
  induction 1 as [| x l Hx _ IH]; intros Hex; [inversion Hex |].
  cbn [mapM]. destruct Hx as [[y Hy] | Hx].
  - rewrite Hy. cbn [bind]. inversion Hex as [? ? Hbad | ? ? Hbad]; subst.
    + congruence.
    + rewrite (IH Hbad). reflexivity.
  - rewrite Hx. reflexivity.
Qed.

Lemma mapM_total {A B : Type} (f : A -> result B) (l : list A) :
  Forall (fun x => exists y, f x = Ok y) l ->
  exists l', mapM f l = Ok l'.
Proof.
  induction 1 as [| x l [y Hy] _ [l' IH]].
  - exists []. reflexivity.
  - exists (y :: l'). cbn [mapM]. rewrite Hy, IH. reflexivity.
Qed.

Lemma partition_length {A : Type} (cols : list A) (signs : list string) :
  (length (regular_of cols signs) + length (positive_of cols signs)
   = length (combine cols signs))%nat.
Proof.
  unfold regular_of, positive_of. rewrite !length_map.
  induction (combine cols signs) as [| p l IH]; [reflexivity |].
  cbn [filter]. destruct (is_positive (snd p)); cbn [negb length]; lia.
Qed.

Lemma partition_In {A : Type} (cols : list A) (signs : list string) (x : A) :
  length signs = length cols ->
  In x cols -> In x (regular_of cols signs ++ positive_of cols signs).
Proof.
  intros Hlen Hin. apply In_nth_error in Hin. destruct Hin as [i Hi].
  assert (Hi' : (i < length signs)%nat).
  { rewrite Hlen. apply nth_error_Some. congruence. }
  destruct (nth_error signs i) as [s |] eqn:Hs;
    [| apply nth_error_None in Hs; lia].
  assert (Hpair : In (x, s) (combine cols signs)).
  { clear Hlen Hi'. revert cols signs Hi Hs.
    induction i as [| i IH]; intros [| c cols] [| g signs] Hi Hs;
      simpl in *; try discriminate.
    - injection Hi as ->. injection Hs as ->. left. reflexivity.
    - right. apply IH; assumption. }
  apply in_or_app. unfold regular_of, positive_of.
  destruct (is_positive s) eqn:Hp; [right | left];
    apply (in_map fst _ (x, s)); apply filter_In; split; try assumption;
    cbn [snd]; rewrite Hp; reflexivity.
Qed.

Lemma partition_incl {A : Type} (cols : list A) (signs : list string) (x : A) :
  In x (regular_of cols signs ++ positive_of cols signs) -> In x cols.
Proof.
  intros Hin. apply in_app_or in Hin. unfold regular_of, positive_of in Hin.
  destruct Hin as [Hin | Hin]; apply in_map_iff in Hin;
    destruct Hin as ([y s] & <- & Hin); apply filter_In in Hin;
    destruct Hin as [Hin _]; apply in_combine_l in Hin; assumption.
Qed.

Lemma set_static_regression_attributes_spec (s1 : KTRModel)
      (cols signs : list string) (locs scales kss : list Q) :
  regressor_col s1 = Some cols ->
  _num_of_regressors s1 = length cols ->
  _regressor_sign s1 = Some signs ->
  _regressor_init_knot_loc s1 = Some locs ->
  _regressor_init_knot_scale s1 = Some scales ->
  _regressor_knot_scale s1 = Some kss ->
  positive_group s1 = group_of [] [] [] [] ->
  regular_group s1 = group_of [] [] [] [] ->
  _regressor_col s1 = [] ->
  length signs = length cols -> length locs = length cols ->
  length scales = length cols -> length kss = length cols ->
  exists s2,
    _set_static_regression_attributes s1 = Ok s2 /\
    regressor_col s2 = Some cols /\
    _num_of_regressors s2 = length cols /\
    _regressor_sign s2 = Some signs /\
    _coef_prior_list s2 = _coef_prior_list s1 /\
    positive_group s2
    = group_of (positive_of cols signs) (positive_of locs signs)
               (positive_of scales signs) (positive_of kss signs) /\
    regular_group s2
    = group_of (regular_of cols signs) (regular_of locs signs)
               (regular_of scales signs) (regular_of kss signs) /\
    _regressor_col s2 = regular_of cols signs ++ positive_of cols signs.
Proof.
  intros Hc Hn Hsg Hl Hs Hk Hp Hr Hrc L1 L2 L3 L4.
  unfold _set_static_regression_attributes.
  destruct (Nat.eqb_spec (_num_of_regressors s1) 0) as [Hz | Hz].
  - exists s1. rewrite Hn in Hz.
    destruct cols; [| discriminate]. destruct signs; [| discriminate].
    destruct locs; [| discriminate]. destruct scales; [| discriminate].
    destruct kss; [| discriminate].
    repeat split; assumption.
  - rewrite Hsg. cbn [require bind].
    destruct (static_loop_total signs s1 0 cols locs scales kss)
      as (s2 & Hloop & Hsame & Hpos & Hreg); try assumption; try (simpl; lia).
    { rewrite Hp. eexists. reflexivity. }
    { rewrite Hr. eexists. reflexivity. }
    rewrite Hloop. cbn [bind]. eexists. split; [reflexivity |].
    destruct Hsame as (Ec & Esg & El & Es & Ek & En & Ep & Erc).
    cbn [skipn] in Hpos, Hreg. rewrite Hp in Hpos. rewrite Hr in Hreg.
    unfold positive_group, regular_group, group_of, extend_group in *.
    cbn in Hpos, Hreg.
    injection Hpos as P1 P2 P3 P4 P5. injection Hreg as R1 R2 R3 R4 R5.
    cbn. rewrite P1, P2, P3, P4, P5, R1, R2, R3, R4, R5.
    repeat split; try congruence.
Qed.

Lemma effective_length {A : Type} (given : option (list A)) (d : A) (n : nat) :
  consistent_length given n -> length (effective given d n) = n.
Proof.
  destruct given as [l |]; simpl; [trivial | intros _; apply repeat_length].
Qed.

Lemma validate_coef_prior_cases (l : list CoefPrior) :
  (Forall valid_prior l /\ _validate_coef_prior l = Ok tt) \/
  (~ Forall valid_prior l /\
   _validate_coef_prior l = Raise IllegalArgument).
Proof.
  unfold _validate_coef_prior.
  set (f := fun test_dict : CoefPrior =>
              if negb (has_documented_keys test_dict)
              then Raise IllegalArgument
              else
                if all_equal_nat [prior_value_len (prior_mean test_dict);
                                  prior_value_len (prior_sd test_dict);
                                  length (prior_regressor_col test_dict)]
                then Ok tt else Raise IllegalArgument).
  assert (Hf : forall p, (valid_prior p /\ f p = Ok tt) \/
                         (~ valid_prior p /\ f p = Raise IllegalArgument)).
  { intros p. unfold f, all_equal_nat, valid_prior, prior_lengths_agree.
    destruct (has_documented_keys p) eqn:Hk; cbn [negb].
    2: { right. split; [| reflexivity]. intros (H1 & H2 & H3 & _).
         assert (Hk' : has_documented_keys p = true)
           by (apply has_documented_keys_spec; auto).
         congruence. }
    apply has_documented_keys_spec in Hk.
    cbn [forallb].
    rewrite Nat.eqb_refl. cbn [andb].
    destruct (Nat.eqb_spec (prior_value_len (prior_mean p))
                           (prior_value_len (prior_sd p)));
      destruct (Nat.eqb_spec (prior_value_len (prior_mean p))
                             (length (prior_regressor_col p)));
      cbn [andb]; [left | right | right | right];
      (split; [tauto | reflexivity]). }
  induction l as [| p l IH].
  - left. split; [constructor | reflexivity].
  - cbn [mapM]. destruct (Hf p) as [[Hp Ep] | [Hp Ep]]; rewrite Ep; cbn [bind].
    + destruct IH as [[Hl El] | [Hl El]].
      * left. split; [constructor; assumption |].
        destruct (mapM f l); [reflexivity | discriminate].
      * right. split; [intros H; inversion H; contradiction |].
        destruct (mapM f l); [discriminate | assumption].
    + right. split; [intros H; inversion H; contradiction | reflexivity].
Qed.

Lemma first_index_Some (cols : list string) (col : string) :
  In col cols ->
  exists i, first_index cols col = Ok i /\ nth_error cols i = Some col.
Proof.
  induction cols as [| c cols IH]; intros Hin; [contradiction |].
  cbn [first_index]. destruct (String.eqb_spec c col) as [-> | Hne].
  - exists 0%nat. split; reflexivity.
  - destruct Hin as [Heq | Hin]; [contradiction |].
    destruct (IH Hin) as (i & Hi & Hnth). exists (S i). rewrite Hi.
    split; [reflexivity | assumption].
Qed.

Lemma first_index_Ok (cols : list string) (col : string) (i : nat) :
  first_index cols col = Ok i ->
  nth_error cols i = Some col /\
  forall j, (j < i)%nat -> nth_error cols j <> Some col.
Proof.
  revert i; induction cols as [| c cols IH]; intros i H; [discriminate |].
  cbn [first_index] in H. destruct (String.eqb_spec c col) as [-> | Hne].
  - injection H as <-. split; [reflexivity | intros j Hj; lia].
  - inv_bind H. injection H as <-. destruct (IH v E) as [Hnth Hmin].
    split; [assumption |]. intros [| j] Hj; cbn [nth_error].
    + congruence.
    + apply Hmin. lia.
Qed.

Lemma first_index_missing (cols : list string) (col : string) :
  ~ In col cols -> first_index cols col = Raise IndexError.
Proof.
  induction cols as [| c cols IH]; intros Hin; [reflexivity |].
  cbn [first_index]. destruct (String.eqb_spec c col) as [-> | Hne].
  - exfalso. apply Hin. left. reflexivity.
  - rewrite IH; [reflexivity |]. intros H. apply Hin. right. assumption.
Qed.

Lemma first_index_cases (cols : list string) (col : string) :
  (exists i, first_index cols col = Ok i) \/
  first_index cols col = Raise IndexError.
Proof.
  destruct (in_dec string_dec col cols) as [Hin | Hout].
  - left. destruct (first_index_Some cols col Hin) as (i & Hi & _). eauto.
  - right. apply first_index_missing. assumption.
Qed.

(** The constructor up to the coefficient priors. *)
Lemma init_stage (a : Args.t) (cols : list string) :
  Args.regressor_col a = Some cols ->
  let n := length cols in
  consistent_regressor_args a n ->
  let signs := signs_of a n in
  exists s2,
    regressor_col s2 = Some cols /\
    _num_of_regressors s2 = n /\
    _regressor_sign s2 = Some signs /\
    _coef_prior_list s2 = priors_of a /\
    positive_group s2
    = group_of (positive_of cols signs)
        (positive_of (effective (Args.regressor_init_knot_loc a)
                                DEFAULT_COEFFICIENTS_INIT_KNOT_LOC n) signs)
        (positive_of (effective (Args.regressor_init_knot_scale a)
                                DEFAULT_COEFFICIENTS_INIT_KNOT_SCALE n) signs)
        (positive_of (effective (Args.regressor_knot_scale a)
                                DEFAULT_COEFFICIENTS_KNOT_SCALE n) signs) /\
    regular_group s2
    = group_of (regular_of cols signs)
        (regular_of (effective (Args.regressor_init_knot_loc a)
                               DEFAULT_COEFFICIENTS_INIT_KNOT_LOC n) signs)
        (regular_of (effective (Args.regressor_init_knot_scale a)
                               DEFAULT_COEFFICIENTS_INIT_KNOT_SCALE n) signs)
        (regular_of (effective (Args.regressor_knot_scale a)
                               DEFAULT_COEFFICIENTS_KNOT_SCALE n) signs) /\
    _regressor_col s2 = regular_of cols signs ++ positive_of cols signs /\
    __init__ a
    = (if negb (is_empty (priors_of a)) then
         _ <- _validate_coef_prior (priors_of a) ;; _set_coef_prior_idx s2
       else Ok s2).
Proof.
  intros Hcols n Hcons signs.
  destruct (set_default_args_regressors a cols Hcols)
    as [(H1 & H2 & H3 & H4 & s1 & Hs1 & Hc & Hn & Hsg & Hl & Hs & Hk & Hp & Hr
         & Hrc & Hpl) | [Hbad _]]; [| contradiction].
  fold n in H1, H2, H3, H4, Hn, Hsg, Hl, Hs, Hk.
  destruct (set_static_regression_attributes_spec s1 cols signs _ _ _
              Hc Hn Hsg Hl Hs Hk Hp Hr Hrc)
    as (s2 & Hs2 & Hc2 & Hn2 & Hsg2 & Hpl2 & Hp2 & Hr2 & Hrc2);
    try (apply effective_length; assumption).
  exists s2. unfold priors_of.
  repeat (split; [first [assumption | congruence] |]).
  unfold __init__, _set_static_attributes. rewrite Hs1. cbn [bind].
  rewrite Hs2. cbn [bind]. rewrite Hpl2, Hpl. reflexivity.
Qed.

Lemma index_columns_cases (cols names : list string) :
  (incl names cols /\
   exists idx, mapM (first_index cols) names = Ok idx /\
               first_positions cols idx names) \/
  (~ incl names cols /\ mapM (first_index cols) names = Raise IndexError).
Proof.
  induction names as [| c names IH].
  - left. split; [intros x [] |]. exists []. split; [reflexivity | constructor].
  - cbn [mapM]. destruct (in_dec string_dec c cols) as [Hin | Hout].
    + destruct (first_index_Some cols c Hin) as (i & Hi & _). rewrite Hi.
      cbn [bind]. destruct (first_index_Ok cols c i Hi) as [Hnth Hmin].
      destruct IH as [(Hincl & idx & Hidx & Hpos) | (Hincl & Hidx)].
      * left. split; [intros x [<- | Hx]; auto |].
        exists (i :: idx). rewrite Hidx. split; [reflexivity |].
        constructor; auto.
      * right. split; [intros H; apply Hincl; intros x Hx; apply H; right;
                       assumption |].
        rewrite Hidx. reflexivity.
    + right. split; [intros H; apply Hout, H; left; reflexivity |].
      rewrite (first_index_missing cols c Hout). reflexivity.
Qed.

Lemma set_coef_prior_idx_cases (self : KTRModel) :
  let cols := _regressor_col self in
  let priors := _coef_prior_list self in
  (priors = [] \/ cols = []) /\ _set_coef_prior_idx self = Ok self
  \/
  (priors <> [] /\ cols <> [] /\
   Forall (fun p => incl (prior_regressor_col p) cols) priors /\
   exists l,
     _set_coef_prior_idx self = Ok (assign_coef_prior_list self l) /\
     Forall2 (fun p p' => exists idx,
                  p' = with_col_idx p idx /\
                  first_positions cols idx (prior_regressor_col p))
             priors l)
  \/
  (priors <> [] /\ cols <> [] /\
   ~ Forall (fun p => incl (prior_regressor_col p) cols) priors /\
   _set_coef_prior_idx self = Raise IndexError).
Proof.
  intros cols priors. unfold _set_coef_prior_idx. fold cols priors.
  destruct priors as [| p0 ps] eqn:Hp; [left; split; [left |]; reflexivity |].
  destruct cols as [| c0 cs] eqn:Hc; [left; split; [right |]; reflexivity |].
  cbn [is_empty negb length Nat.ltb Nat.leb andb]. right.
  rewrite <- Hp, <- Hc.
  assert (Hne1 : priors <> []) by (subst priors; rewrite Hp; discriminate).
  assert (Hne2 : cols <> []) by (subst cols; rewrite Hc; discriminate).
  fold cols in Hc. fold priors in Hp.
  clear Hp Hc.
  set (f := fun x : CoefPrior =>
              idx <- mapM (first_index cols) (prior_regressor_col x) ;;
              Ok (with_col_idx x idx)).
  assert (Hcases :
            (Forall (fun p => incl (prior_regressor_col p) cols) priors /\
             exists l, mapM f priors = Ok l /\
                       Forall2 (fun p p' => exists idx,
                                    p' = with_col_idx p idx /\
                                    first_positions cols idx
                                                    (prior_regressor_col p))
                               priors l) \/
            (~ Forall (fun p => incl (prior_regressor_col p) cols) priors /\
             mapM f priors = Raise IndexError)).
  { clear Hne1. induction priors as [| p ps' IH].
    - left. split; [constructor |]. exists []. split; [reflexivity | constructor].
    - cbn [mapM]. unfold f at 1 3.
      destruct (index_columns_cases cols (prior_regressor_col p))
        as [(Hincl & idx & Hidx & Hpos) | (Hincl & Hidx)]; rewrite Hidx;
        cbn [bind].
      + destruct IH as [(Hall & l & Hl & Hf2) | (Hall & Hl)]; rewrite Hl;
          cbn [bind].
        * left. split; [constructor; assumption |].
          eexists. split; [reflexivity |]. constructor; [| assumption].
          exists idx. split; [reflexivity | assumption].
        * right. split; [intros H; inversion H; contradiction | reflexivity].
      + right. split; [intros H; inversion H; contradiction | reflexivity]. }
  destruct Hcases as [(Hall & l & Hl & Hf2) | (Hall & Hl)].
  - left. repeat (split; [assumption |]). exists l. rewrite Hl.
    split; [reflexivity | assumption].
  - right. repeat (split; [assumption |]). rewrite Hl. reflexivity.
Qed.

(** X1.  With regressor columns given, the constructor raises
    [IllegalArgument] as soon as one of the four optional lists (signs,
    initial knot locations, initial knot scales, knot scales) is given
    with a length other than the number of columns. *)
Theorem init_rejects_inconsistent_lengths (a : Args.t) (cols : list string) :
  Args.regressor_col a = Some cols ->
  ~ consistent_regressor_args a (length cols) ->
  __init__ a = Raise IllegalArgument.
Proof.
  intros Hcols Hbad.
  destruct (set_default_args_regressors a cols Hcols)
    as [(H1 & H2 & H3 & H4 & _) | [_ Hraise]].
  - exfalso. apply Hbad. repeat split; assumption.
  - unfold __init__, _set_static_attributes. rewrite Hraise. reflexivity.
Qed.

Lemma init_Ok_consistent (a : Args.t) (cols : list string) (self : KTRModel) :
  Args.regressor_col a = Some cols ->
  __init__ a = Ok self ->
  consistent_regressor_args a (length cols).
Proof.
  intros Hcols H.
  destruct (set_default_args_regressors a cols Hcols)
    as [(H1 & H2 & H3 & H4 & _) | [_ Hraise]].
  - repeat split; assumption.
  - unfold __init__, _set_static_attributes in H. rewrite Hraise in H.
    discriminate.
Qed.

(** X2.  The constructor returns an instance whenever every given
    optional list has one entry per regressor column, every coefficient
    prior is a dict over exactly the six documented keys whose mean, sd and
    column lists have one length, and the priors name only declared
    columns: no other argument can make it fail. *)
Theorem init_accepts_consistent_arguments (a : Args.t) (cols : list string) :
  Args.regressor_col a = Some cols ->
  consistent_regressor_args a (length cols) ->
  Forall valid_prior (priors_of a) ->
  Forall (fun p => cols = [] \/ incl (prior_regressor_col p) cols)
         (priors_of a) ->
  exists self, __init__ a = Ok self.
Proof.
  intros Hcols Hcons Hlen Hknown.
  destruct (init_stage a cols Hcols Hcons)
    as (s2 & Hc & Hn & Hsg & Hpl & Hp & Hr & Hrc & Hinit).
  rewrite Hinit. destruct (is_empty (priors_of a)); cbn [negb]; [eauto |].
  destruct (validate_coef_prior_cases (priors_of a)) as [[_ Hv] | [Hbad _]];
    [| contradiction].
  rewrite Hv. cbn [bind].
  destruct (set_coef_prior_idx_cases s2)
    as [[_ Hok] | [(_ & _ & _ & l & Hok & _) | (_ & Hne & Hbad & _)]];
    [eauto | eauto |].
  exfalso. apply Hbad. rewrite Hpl. eapply Forall_impl; [| exact Hknown].
  intros p [-> | Hincl].
  - exfalso. apply Hne. rewrite Hrc. reflexivity.
  - intros c Hin. rewrite Hrc. apply partition_In; [| apply Hincl, Hin].
    apply effective_length. apply Hcons.
Qed.

Lemma init_Ok_stage (a : Args.t) (cols : list string) (self : KTRModel) :
  Args.regressor_col a = Some cols ->
  __init__ a = Ok self ->
  let n := length cols in
  let signs := signs_of a n in
  exists s2,
    positive_group self = positive_group s2 /\
    regular_group self = regular_group s2 /\
    _regressor_col self = _regressor_col s2 /\
    _num_of_regressors self = n /\
    positive_group s2
    = group_of (positive_of cols signs)
        (positive_of (effective (Args.regressor_init_knot_loc a)
                                DEFAULT_COEFFICIENTS_INIT_KNOT_LOC n) signs)
        (positive_of (effective (Args.regressor_init_knot_scale a)
                                DEFAULT_COEFFICIENTS_INIT_KNOT_SCALE n) signs)
        (positive_of (effective (Args.regressor_knot_scale a)
                                DEFAULT_COEFFICIENTS_KNOT_SCALE n) signs) /\
    regular_group s2
    = group_of (regular_of cols signs)
        (regular_of (effective (Args.regressor_init_knot_loc a)
                               DEFAULT_COEFFICIENTS_INIT_KNOT_LOC n) signs)
        (regular_of (effective (Args.regressor_init_knot_scale a)
                               DEFAULT_COEFFICIENTS_INIT_KNOT_SCALE n) signs)
        (regular_of (effective (Args.regressor_knot_scale a)
                               DEFAULT_COEFFICIENTS_KNOT_SCALE n) signs) /\
    _regressor_col s2 = regular_of cols signs ++ positive_of cols signs /\
    _coef_prior_list s2 = priors_of a /\
    (_coef_prior_list self = priors_of a /\
     (priors_of a = [] \/ cols = [])
     \/
     cols <> [] /\
     Forall2 (fun p p' => exists idx,
                  p' = with_col_idx p idx /\
                  first_positions (_regressor_col self) idx
                                  (prior_regressor_col p))
             (priors_of a) (_coef_prior_list self)).
Proof.
  intros Hcols H n signs.
  pose proof (init_Ok_consistent a cols self Hcols H) as Hcons.
  destruct (init_stage a cols Hcols Hcons)
    as (s2 & Hc & Hn & Hsg & Hpl & Hp & Hr & Hrc & Hinit).
  fold n signs in Hn, Hsg, Hp, Hr, Hrc.
  exists s2. rewrite Hinit in H.
  assert (Hcolsne : _regressor_col s2 = [] -> cols = []).
  { intros Hnil. rewrite Hrc in Hnil.
    pose proof (partition_length cols signs) as Hlen.
    assert (Hsigns : length signs = n)
      by (apply effective_length; apply Hcons).
    rewrite length_combine, Hsigns in Hlen. fold n in Hlen.
    rewrite Nat.min_id in Hlen.
    rewrite <- length_app, Hnil in Hlen. simpl in Hlen.
    destruct cols; [reflexivity | discriminate]. }
  destruct (is_empty (priors_of a)) eqn:Hempty; cbn [negb] in H.
  - injection H as <-. repeat (split; [first [reflexivity | assumption] |]).
    left. split; [assumption |]. left.
    destruct (priors_of a); [reflexivity | discriminate].
  - inv_bind H.
    destruct (set_coef_prior_idx_cases s2)
      as [[Hor Hok] | [(_ & Hne & _ & l & Hok & Hf2) | (_ & _ & _ & Hraise)]].
    + rewrite Hok in H. injection H as <-.
      repeat (split; [first [reflexivity | assumption] |]).
      left. split; [assumption |]. rewrite Hpl in Hor.
      destruct Hor as [Hor | Hor]; [left; assumption | right; auto].
    + rewrite Hok in H. injection H as <-. cbn.
      repeat (split; [first [reflexivity | assumption] |]).
      right. split; [intros ->; apply Hne; rewrite Hrc; reflexivity |].
      rewrite <- Hpl. exact Hf2.
    + rewrite Hraise in H. discriminate.
Qed.

Lemma positive_of_length {A B : Type} (l : list A) (l' : list B)
      (signs : list string) :
  length l = length l' ->
  length (positive_of l signs) = length (positive_of l' signs).
Proof.
  unfold positive_of. rewrite !length_map.
  revert l' signs; induction l as [| x l IH]; intros [| y l'] [| s signs] H;
    try discriminate; try reflexivity.
  cbn [combine filter snd]. destruct (is_positive s); cbn [length];
    [f_equal |]; apply IH; simpl in H; lia.
Qed.

Lemma regular_of_length {A B : Type} (l : list A) (l' : list B)
      (signs : list string) :
  length l = length l' ->
  length (regular_of l signs) = length (regular_of l' signs).
Proof.
  unfold regular_of. rewrite !length_map.
  revert l' signs; induction l as [| x l IH]; intros [| y l'] [| s signs] H;
    try discriminate; try reflexivity.
  cbn [combine filter snd]. destruct (is_positive s); cbn [negb length];
    [| f_equal]; apply IH; simpl in H; lia.
Qed.

(** X3.  The constructor keeps the parameters of a regressor with its
    column: the initial knot locations, initial knot scales and knot scales
    of the positive group are those given (or defaulted) at the positions
    of the columns tagged ['+'], in their order, and those of the regular
    group are the ones at the remaining positions. *)
Theorem init_groups_aligned (a : Args.t) (cols : list string)
        (self : KTRModel) :
  Args.regressor_col a = Some cols ->
  __init__ a = Ok self ->
  let n := length cols in
  let signs := signs_of a n in
  let locs := effective (Args.regressor_init_knot_loc a)
                        DEFAULT_COEFFICIENTS_INIT_KNOT_LOC n in
  let scales := effective (Args.regressor_init_knot_scale a)
                          DEFAULT_COEFFICIENTS_INIT_KNOT_SCALE n in
  let knot_scales := effective (Args.regressor_knot_scale a)
                               DEFAULT_COEFFICIENTS_KNOT_SCALE n in
  (_positive_regressor_col self = positive_of cols signs /\
   _positive_regressor_init_knot_loc self = positive_of locs signs /\
   _positive_regressor_init_knot_scale self = positive_of scales signs /\
   _positive_regressor_knot_scale self
   = Scale1 (positive_of knot_scales signs)) /\
  (_regular_regressor_col self = regular_of cols signs /\
   _regular_regressor_init_knot_loc self = regular_of locs signs /\
   _regular_regressor_init_knot_scale self = regular_of scales signs /\
   _regular_regressor_knot_scale self
   = Scale1 (regular_of knot_scales signs)).
Proof.
  intros Hcols H n signs locs scales knot_scales.
  destruct (init_Ok_stage a cols self Hcols H)
    as (s2 & Hp & Hr & _ & _ & Hp2 & Hr2 & _).
  rewrite Hp2 in Hp. rewrite Hr2 in Hr.
  unfold positive_group, regular_group, group_of in Hp, Hr.
  injection Hp as _ P2 P3 P4 P5. injection Hr as _ R2 R3 R4 R5.
  repeat split; assumption.
Qed.

(** X4.  After the constructor the number of regressors is the number of
    declared columns and the sum of the sizes of the two groups; the
    combined column list has that length, and within each group the column
    list, the initial knot locations, the initial knot scales and the (1-D)
    knot scales all have the group's size. *)
Theorem init_counts (a : Args.t) (cols : list string) (self : KTRModel) :
  Args.regressor_col a = Some cols ->
  __init__ a = Ok self ->
  _num_of_regressors self = length cols /\
  (_num_of_regular_regressors self + _num_of_positive_regressors self
   = _num_of_regressors self)%nat /\
  length (_regressor_col self) = _num_of_regressors self /\
  (length (_positive_regressor_col self) = _num_of_positive_regressors self /\
   length (_positive_regressor_init_knot_loc self)
   = _num_of_positive_regressors self /\
   length (_positive_regressor_init_knot_scale self)
   = _num_of_positive_regressors self /\
   exists v, _positive_regressor_knot_scale self = Scale1 v /\
             length v = _num_of_positive_regressors self) /\
  (length (_regular_regressor_col self) = _num_of_regular_regressors self /\
   length (_regular_regressor_init_knot_loc self)
   = _num_of_regular_regressors self /\
   length (_regular_regressor_init_knot_scale self)
   = _num_of_regular_regressors self /\
   exists v, _regular_regressor_knot_scale self = Scale1 v /\
             length v = _num_of_regular_regressors self).
Proof.
  intros Hcols H.
  pose proof (init_Ok_consistent a cols self Hcols H) as (C1 & C2 & C3 & C4).
  destruct (init_Ok_stage a cols self Hcols H)
    as (s2 & Hp & Hr & Hrc & Hn & Hp2 & Hr2 & Hrc2 & _).
  rewrite Hp2 in Hp. rewrite Hr2 in Hr. rewrite Hrc2 in Hrc.
  unfold positive_group, regular_group, group_of in Hp, Hr.
  injection Hp as P1 P2 P3 P4 P5. injection Hr as R1 R2 R3 R4 R5.
  set (n := length cols) in *. set (signs := signs_of a n) in *.
  assert (Hsigns : length signs = n) by (apply effective_length; exact C1).
  pose proof (partition_length cols signs) as Hsum.
  rewrite length_combine, Hsigns in Hsum. fold n in Hsum.
  rewrite Nat.min_id in Hsum.
  rewrite P1, P2, P3, P4, P5, R1, R2, R3, R4, R5, Hrc, Hn, length_app.
  split; [reflexivity |]. split; [exact Hsum |]. split; [exact Hsum |].
  split.
  - split; [reflexivity |].
    split; [apply positive_of_length; apply effective_length; exact C2 |].
    split; [apply positive_of_length; apply effective_length; exact C3 |].
    eexists. split; [reflexivity |].
    apply positive_of_length; apply effective_length; exact C4.
  - split; [reflexivity |].
    split; [apply regular_of_length; apply effective_length; exact C2 |].
    split; [apply regular_of_length; apply effective_length; exact C3 |].
    eexists. split; [reflexivity |].
    apply regular_of_length; apply effective_length; exact C4.
Qed.


(** X6.  After the constructor every coefficient prior carries, for each
    of its target columns, the first position of that column in the
    combined column list [_regressor_col] (regular columns first), and is
    otherwise as given. *)
Theorem init_prior_indices (a : Args.t) (cols : list string)
        (self : KTRModel) :
  Args.regressor_col a = Some cols ->
  cols <> [] ->
  __init__ a = Ok self ->
  Forall2 (fun p p' => exists idx,
               p' = with_col_idx p idx /\
               first_positions (_regressor_col self) idx
                               (prior_regressor_col p))
          (priors_of a) (_coef_prior_list self).
Proof.
  intros Hcols Hne H.
  destruct (init_Ok_stage a cols self Hcols H)
    as (s2 & _ & _ & _ & _ & _ & _ & _ & _ & [[Hl [Hnil | Hnil]] | [_ Hf2]]).
  - rewrite Hl, Hnil. constructor.
  - contradiction.
  - exact Hf2.
Qed.

(** X7.  A coefficient prior that names a column which is not among the
    regressor columns makes the constructor raise [IndexError], when the
    other arguments are consistent and every prior is a dict over exactly
    the six documented keys with mean, sd and column lists of one
    length. *)
Theorem init_unknown_prior_column (a : Args.t) (cols : list string) :
  Args.regressor_col a = Some cols ->
  cols <> [] ->
  consistent_regressor_args a (length cols) ->
  Forall valid_prior (priors_of a) ->
  Exists (fun p => ~ incl (prior_regressor_col p) cols) (priors_of a) ->
  __init__ a = Raise IndexError.
Proof.
  intros Hcols Hne Hcons Hlen Hex.
  destruct (init_stage a cols Hcols Hcons)
    as (s2 & Hc & Hn & Hsg & Hpl & Hp & Hr & Hrc & Hinit).
  rewrite Hinit.
  destruct (priors_of a) as [| p0 ps] eqn:Hpriors; [inversion Hex |].
  cbn [is_empty negb]. rewrite <- Hpriors in *.
  destruct (validate_coef_prior_cases (priors_of a)) as [[_ Hv] | [Hbad _]];
    [| contradiction].
  rewrite Hv. cbn [bind].
  destruct (set_coef_prior_idx_cases s2)
    as [[Hor _] | [(_ & _ & Hall & _) | (_ & _ & _ & Hraise)]].
  - exfalso. rewrite Hpl, Hpriors in Hor. destruct Hor as [Hor | Hor];
      [discriminate |].
    apply Hne. rewrite Hrc in Hor.
    pose proof (partition_length cols (signs_of a (length cols))) as Hsum.
    rewrite length_combine in Hsum. unfold signs_of in Hsum at 3.
    rewrite effective_length in Hsum by apply Hcons.
    rewrite Nat.min_id, <- length_app, Hor in Hsum. simpl in Hsum.
    destruct cols; [reflexivity | discriminate].
  - exfalso. rewrite Hpl in Hall. apply Exists_exists in Hex.
    destruct Hex as (p & Hp' & Hbad). rewrite Forall_forall in Hall.
    apply Hbad. intros c Hin. specialize (Hall p Hp' c Hin).
    rewrite Hrc in Hall. apply partition_incl in Hall. assumption.
  - exact Hraise.
Qed.

Lemma init_rejects_inconsistent_lengths_witness :
  ~ consistent_regressor_args Construction.short_signs 3 /\
  __init__ Construction.short_signs = Raise IllegalArgument.
Proof.
  assert (H : ~ consistent_regressor_args Construction.short_signs
                  (length Partition.cols)).
  { intros (H & _). vm_compute in H. discriminate. }
  split; [exact H |].
  exact (init_rejects_inconsistent_lengths Construction.short_signs
           Partition.cols eq_refl H).
Defined.

Lemma init_accepts_consistent_arguments_witness :
  exists self,
    __init__ (PriorWindow.args (Some ["x"%string]) PriorWindow.priors)
    = Ok self.
Proof.
  apply (init_accepts_consistent_arguments
           (PriorWindow.args (Some ["x"%string]) PriorWindow.priors)
           ["x"%string] eq_refl).
  - repeat split.
  - repeat (constructor;
            [repeat split; try reflexivity; apply incl_refl |]).
    constructor.
  - repeat (constructor; [right; intros c Hc; exact Hc |]). constructor.
Defined.

Lemma init_groups_aligned_witness :
  __init__ Construction.tagged = Ok Construction.tagged_model /\
  _positive_regressor_col Construction.tagged_model
  = ["a"%string; "c"%string] /\
  _positive_regressor_init_knot_loc Construction.tagged_model = [1; 3]%Q /\
  _regular_regressor_col Construction.tagged_model = ["b"%string] /\
  _regular_regressor_init_knot_loc Construction.tagged_model = [2]%Q.
Proof.
  assert (H : __init__ Construction.tagged = Ok Construction.tagged_model)
    by (vm_compute; reflexivity).
  split; [exact H |].
  destruct (init_groups_aligned Construction.tagged Partition.cols
              Construction.tagged_model eq_refl H)
    as ((P1 & P2 & _) & (R1 & R2 & _)).
  repeat split; assumption.
Defined.

Lemma init_counts_witness :
  __init__ Construction.tagged = Ok Construction.tagged_model /\
  (_num_of_regular_regressors Construction.tagged_model
   + _num_of_positive_regressors Construction.tagged_model
   = _num_of_regressors Construction.tagged_model)%nat.
Proof.
  assert (H : __init__ Construction.tagged = Ok Construction.tagged_model)
    by (vm_compute; reflexivity).
  split; [exact H |].
  exact (proj1 (proj2 (init_counts Construction.tagged Partition.cols
                         Construction.tagged_model eq_refl H))).
Defined.

Lemma init_prior_indices_witness :
  __init__ (PriorWindow.args (Some ["x"%string]) PriorWindow.priors)
  = Ok PriorWindow.model /\
  Forall2 (fun p p' => exists idx,
               p' = with_col_idx p idx /\
               first_positions (_regressor_col PriorWindow.model) idx
                               (prior_regressor_col p))
          PriorWindow.priors (_coef_prior_list PriorWindow.model).
Proof.
  assert (H : __init__ (PriorWindow.args (Some ["x"%string])
                                         PriorWindow.priors)
              = Ok PriorWindow.model) by (vm_compute; reflexivity).
  split; [exact H |].
  apply (init_prior_indices
           (PriorWindow.args (Some ["x"%string]) PriorWindow.priors)
           ["x"%string] PriorWindow.model eq_refl);
    [discriminate | exact H].
Defined.

Lemma init_unknown_prior_column_witness :
  __init__ (PriorWindow.args (Some ["y"%string]) PriorWindow.priors)
  = Raise IndexError.
Proof.
  apply (init_unknown_prior_column
           (PriorWindow.args (Some ["y"%string]) PriorWindow.priors)
           ["y"%string] eq_refl).
  - discriminate.
  - repeat split.
  - repeat (constructor;
            [repeat split; try reflexivity; apply incl_refl |]).
    constructor.
  - apply Exists_cons_hd. intros H.
    destruct (H "x"%string (or_introl eq_refl)) as [E | []]. discriminate.
Defined.

Lemma Qfloor_half (d : Z) : Qfloor (inject_Z d / 2) = d / 2.
Proof.
  unfold Qdiv, Qinv, Qmult, inject_Z, Qfloor. simpl.
  rewrite Z.mul_1_r. reflexivity.
Qed.

Lemma round_half (d : Z) : Py.round (inject_Z d / 2) = half_rounded d.
Proof.
  unfold Py.round, half_rounded. rewrite Qfloor_half.
  assert (Hcmp : (inject_Z d / 2 - inject_Z (d / 2) ?= 1 # 2)%Q
                 = (d - 2 * (d / 2) ?= 1)).
  { unfold Qcompare, Qminus, Qplus, Qopp, Qdiv, Qmult, Qinv, inject_Z.
    cbn [Qnum Qden Z.of_nat Pos.mul]. rewrite !Z.mul_1_r.
    change (Z.pos (1 * 2 * 1)) with 2. change (Z.pos (1 * 2)) with 2.
    destruct (Z.compare_spec (d - 2 * (d / 2)) 1) as [E | E | E];
      [apply Z.compare_eq_iff | apply Z.compare_lt_iff
       | apply Z.compare_gt_iff]; lia. }
  rewrite Hcmp.
  pose proof (Z.div_mod d 2 ltac:(lia)) as Hdm.
  pose proof (Z.mod_pos_bound d 2 ltac:(lia)) as Hb.
  destruct (Z.even d) eqn:Hev.
  - apply Z.even_spec in Hev. destruct Hev as [k Hk].
    assert (d mod 2 = 0) by (subst d; rewrite Z.mul_comm; apply Z.mod_mul; lia).
    replace (d - 2 * (d / 2)) with 0 by lia. reflexivity.
  - assert (d mod 2 = 1).
    { destruct (Z.eq_dec (d mod 2) 0) as [E | E]; [| lia].
      exfalso. assert (Z.even d = true); [| congruence].
      apply Z.even_spec. exists (d / 2). lia. }
    replace (d - 2 * (d / 2)) with 1 by lia. reflexivity.
Qed.

Lemma half_rounded_bounds (d : Z) :
  0 < d -> d - 1 <= 2 * half_rounded d <= d + 1.
Proof.
  intros Hd. unfold half_rounded.
  pose proof (Z.div_mod d 2 ltac:(lia)) as Hdm.
  rewrite (Zmod_even d) in Hdm.
  destruct (Z.even d); [| destruct (Z.even (d / 2))]; lia.
Qed.

Lemma arange_count (start stop step : Z) :
  0 < step ->
  let n := - ((start - stop) / step) in
  (start < stop -> 0 < n /\ start + (n - 1) * step < stop <= start + n * step)
  /\ (stop <= start -> n <= 0).
Proof.
  intros Hs n. subst n.
  pose proof (Z.div_mod (start - stop) step ltac:(lia)) as Hdm.
  pose proof (Z.mod_pos_bound (start - stop) step Hs) as Hb.
  split; intros H.
  - assert ((start - stop) / step < 0) by (apply Z.div_lt_upper_bound; lia).
    nia.
  - assert (0 <= (start - stop) / step) by (apply Z.div_pos; lia). lia.
Qed.

Lemma arange_Ok (start stop step : Z) :
  0 < step ->
  Np.arange start stop step
  = Ok (map (fun i => start + Z.of_nat i * step)
            (seq 0 (Z.to_nat (- ((start - stop) / step))))).
Proof.
  intros Hs. unfold Np.arange.
  destruct (Z.eqb_spec step 0); [lia | reflexivity].
Qed.

Lemma nth_error_map_seq {A : Type} (f : nat -> A) (n i : nat) :
  nth_error (map f (seq 0 n)) i = if (i <? n)%nat then Some (f i) else None.
Proof.
  destruct (Nat.ltb_spec i n) as [H | H].
  - rewrite nth_error_map, nth_error_seq.
    destruct (Nat.ltb_spec i n); [reflexivity | lia].
  - apply nth_error_None. rewrite length_map, length_seq. exact H.
Qed.

(** X8.  The knots of [_set_knots_tp] for a positive spacing [d]: the first
    is [round(d / 2)], which lies within one half of [d / 2]; each next
    knot is [d] further; all of them are positions of [0 .. cutoff - 1];
    fewer than [d] positions follow the last one; and there is no knot at
    all exactly when the cutoff does not exceed [round(d / 2)]. *)
Theorem set_knots_tp_geometry (d cutoff : Z) :
  0 < d ->
  exists knots,
    _set_knots_tp d cutoff = Ok knots /\
    (forall k, nth_error knots 0 = Some k ->
               k = Py.round (inject_Z d / 2) /\ d - 1 <= 2 * k <= d + 1) /\
    (forall i k k', nth_error knots i = Some k ->
                    nth_error knots (S i) = Some k' -> k' = k + d) /\
    (forall k, In k knots -> 0 <= k < cutoff) /\
    (forall k, nth_error knots (length knots - 1) = Some k ->
               cutoff - d <= k) /\
    (knots = [] <-> cutoff <= Py.round (inject_Z d / 2)).
Proof.
  intros Hd. unfold _set_knots_tp. rewrite round_half, arange_Ok by assumption.
  pose proof (half_rounded_bounds d Hd) as Hh.
  destruct (arange_count (half_rounded d) cutoff d Hd) as [Hlt Hge].
  set (start := half_rounded d) in *.
  set (n := - ((start - cutoff) / d)) in *.
  eexists. split; [reflexivity |].
  split; [| split; [| split; [| split]]].
  - intros k Hk. rewrite nth_error_map_seq in Hk.
    destruct (0 <? Z.to_nat n)%nat; [| discriminate]. injection Hk as <-.
    split; lia.
  - intros i k k' Hk Hk'. rewrite nth_error_map_seq in Hk, Hk'.
    destruct (i <? Z.to_nat n)%nat; [| discriminate].
    destruct (S i <? Z.to_nat n)%nat; [| discriminate].
    assert (Ek : k = start + Z.of_nat i * d) by congruence.
    assert (Ek' : k' = start + Z.of_nat (S i) * d) by congruence.
    rewrite Ek, Ek', Nat2Z.inj_succ. ring.
  - intros k Hk. apply in_map_iff in Hk. destruct Hk as (i & <- & Hi).
    apply in_seq in Hi.
    destruct (Z_lt_le_dec start cutoff) as [Hsc | Hsc].
    + destruct (Hlt Hsc) as (Hn & Hlast & _).
      assert (0 <= Z.of_nat i * d) by (apply Z.mul_nonneg_nonneg; lia).
      assert (Z.of_nat i * d <= (n - 1) * d)
        by (apply Z.mul_le_mono_nonneg_r; lia).
      lia.
    + specialize (Hge Hsc). lia.
  - intros k Hk. rewrite length_map, length_seq, nth_error_map_seq in Hk.
    destruct (Nat.ltb_spec (Z.to_nat n - 1) (Z.to_nat n)); [| discriminate].
    injection Hk as <-.
    destruct (Z_lt_le_dec start cutoff) as [Hsc | Hsc].
    + destruct (Hlt Hsc) as (Hn & _ & Hlast).
      replace (Z.of_nat (Z.to_nat n - 1)) with (n - 1) by lia. lia.
    + specialize (Hge Hsc). lia.
  - split.
    + intros Hnil. apply (f_equal (@length Z)) in Hnil.
      rewrite length_map, length_seq in Hnil. simpl in Hnil.
      destruct (Z_lt_le_dec start cutoff) as [Hsc | Hsc]; [| assumption].
      destruct (Hlt Hsc) as (Hn & _). lia.
    + intros Hsc. specialize (Hge Hsc).
      replace (Z.to_nat n) with 0%nat by lia. reflexivity.
Qed.

Lemma set_knots_tp_geometry_witness :
  exists knots,
    _set_knots_tp 17 100 = Ok knots /\
    (forall k, In k knots -> 0 <= k < 100) /\
    (forall k, nth_error knots (length knots - 1) = Some k -> 100 - 17 <= k).
Proof.
  destruct (set_knots_tp_geometry 17 100 ltac:(lia))
    as (knots & H & _ & _ & Hin & Hlast & _).
  exists knots. repeat split; try assumption; apply Hin; assumption.
Defined.

Lemma py_index_in_range {A : Type} (l : list A) (i : Z) :
  0 <= i < Z.of_nat (length l) ->
  exists x, Py.index l i = Ok x /\ nth_error l (Z.to_nat i) = Some x.
Proof.
  intros [H0 H1]. unfold Py.index.
  destruct (Z.ltb_spec i 0); [lia |].
  destruct (Z.leb_spec 0 i); [| lia].
  destruct (Z.ltb_spec i (Z.of_nat (length l))); [| lia].
  cbn [andb]. destruct (nth_error l (Z.to_nat i)) as [x |] eqn:E.
  - exists x. split; reflexivity.
  - apply nth_error_None in E. lia.
Qed.

Lemma set_knots_tp_range (d cutoff : Z) :
  0 < d ->
  exists knots,
    _set_knots_tp d cutoff = Ok knots /\
    Forall (fun k => 0 <= k < cutoff) knots.
Proof.
  intros Hd. unfold _set_knots_tp. rewrite round_half, arange_Ok by assumption.
  pose proof (half_rounded_bounds d Hd) as Hh.
  destruct (arange_count (half_rounded d) cutoff d Hd) as [Hlt Hge].
  set (start := half_rounded d) in *.
  set (n := - ((start - cutoff) / d)) in *.
  eexists. split; [reflexivity |].
  apply Forall_forall. intros k Hk.
  apply in_map_iff in Hk. destruct Hk as (i & <- & Hi). apply in_seq in Hi.
  destruct (Z_lt_le_dec start cutoff) as [Hsc | Hsc].
  - destruct (Hlt Hsc) as (Hn & Hlast & _).
    assert (0 <= Z.of_nat i * d) by (apply Z.mul_nonneg_nonneg; lia).
    assert (Z.of_nat i * d <= (n - 1) * d)
      by (apply Z.mul_le_mono_nonneg_r; lia).
    lia.
  - specialize (Hge Hsc). lia.
Qed.

Section FitFacts.

Variable gauss_kernel : list Q -> list Q -> Q -> Np.matrix.
Variable timedelta64 : string -> Z.
Variable infer_freq : list Z -> option string.

(** X9.  Fitted with regressors, a positive knot distance [d] and no knot
    dates, on a table with one row per observation,
    [_set_coefficients_kernel_matrix] never fails.  The knot positions are
    those of [_set_knots_tp d n]; the knot dates are the training dates at
    these positions; the knots on the time scale are [(1 + k) / n], all in
    (0, 1]; [regression_segments] becomes the number of knots; and the
    kernel is the Gaussian kernel of the time points 1/n .. n/n against the
    knots. *)
Theorem kernel_matrix_by_distance (self : KTRModel) (df : DataFrame)
        (training_meta : TrainingMeta) (d : Z) :
  (0 < _num_of_regressors self)%nat ->
  _regression_knot_dates self = None ->
  regression_knot_distance self = Some d ->
  0 < d ->
  num_of_observations training_meta = Z.of_nat (length (df_dates df)) ->
  let n := num_of_observations training_meta in
  exists self' idx dates tp,
    _set_coefficients_kernel_matrix gauss_kernel timedelta64 infer_freq
      self df training_meta = Ok self' /\
    _set_knots_tp d n = Ok idx /\
    _regression_knots_idx self' = Some idx /\
    _regression_knot_dates self' = Some dates /\
    Forall2 (fun k date => nth_error (df_dates df) (Z.to_nat k) = Some date)
            idx dates /\
    _knots_tp_coefficients self' = Some tp /\
    Forall2 (fun k t => t = (inject_Z (1 + k) / inject_Z n)%Q
                        /\ (0 < t /\ t <= 1)%Q) idx tp /\
    regression_segments self' = Z.of_nat (length idx) /\
    _kernel_coefficients self'
    = Bound (gauss_kernel (time_points 1 (n + 1) n) tp (regression_rho self)).
Proof.
  intros Hreg Hdates Hdist Hd Hn n.
  destruct (set_knots_tp_range d n Hd) as (idx & Hidx & Hrange).
  assert (Hmap : exists dates,
             mapM (Py.index (df_dates df)) idx = Ok dates /\
             Forall2 (fun k date =>
                        nth_error (df_dates df) (Z.to_nat k) = Some date)
                     idx dates).
  { clear Hidx. induction Hrange as [| k idx Hk _ IH].
    - exists []. split; [reflexivity | constructor].
    - destruct IH as (dates & Hm & Hf).
      destruct (py_index_in_range (df_dates df) k) as (x & Hx & Hnth);
        [unfold n in Hk; lia |].
      exists (x :: dates). cbn [mapM]. rewrite Hx, Hm.
      split; [reflexivity | constructor; assumption]. }
  destruct Hmap as (dates & Hm & Hf).
  exists (assign_kernel_coefficients
            (assign_regression_knots
               (assign_kernel_coefficients self
                  (Bound (Np.zeros (Z.to_nat n) 0)) 0)
               (Some (map (fun i => (inject_Z (1 + i) / inject_Z n)%Q) idx))
               (Some dates) (Some idx))
            (Bound (gauss_kernel (time_points 1 (n + 1) n)
                      (map (fun i => (inject_Z (1 + i) / inject_Z n)%Q) idx)
                      (regression_rho self)))
            (Z.of_nat (length idx))),
    idx, dates, (map (fun i => (inject_Z (1 + i) / inject_Z n)%Q) idx).
  split.
  { unfold _set_coefficients_kernel_matrix. fold n.
    destruct (Z.ltb_spec n 0); [unfold n in *; lia |]. cbn [bind].
    cbn [assign_kernel_coefficients _num_of_regressors _regression_knot_dates
         regression_knot_distance].
    destruct (Nat.ltb_spec 0 (_num_of_regressors self)); [| lia].
    rewrite Hdates, Hdist. cbn [bind]. rewrite Hidx. cbn [bind].
    rewrite Hm. cbn [bind require assign_regression_knots
                     _knots_tp_coefficients regression_rho].
    rewrite length_map. reflexivity. }
  split; [exact Hidx |]. split; [reflexivity |]. split; [reflexivity |].
  split; [exact Hf |]. split; [reflexivity |].
  split; [| split; reflexivity].
  clear Hidx Hm Hf. induction Hrange as [| k idx Hk _ IH]; [constructor |].
  cbn [map]. constructor; [| exact IH].
  split; [reflexivity |].
  assert (Hpos : (0 < inject_Z n)%Q).
  { change (inject_Z 0 < inject_Z n)%Q. rewrite <- Zlt_Qlt. lia. }
  split.
  - apply Qlt_shift_div_l; [exact Hpos |]. rewrite Qmult_0_l.
    change (inject_Z 0 < inject_Z (1 + k))%Q. rewrite <- Zlt_Qlt. lia.
  - apply Qle_shift_div_r; [exact Hpos |]. rewrite Qmult_1_l.
    rewrite <- Zle_Qle. lia.
Qed.

End FitFacts.

Lemma kernel_matrix_by_distance_witness :
  exists self',
    _set_coefficients_kernel_matrix Decomposition.gauss_kernel
      (fun _ => 1) (fun _ => None)
      KnotDistance.model FlatMultiplier.df FlatMultiplier.training_meta
    = Ok self' /\
    _regression_knots_idx self' = Some [1; 3] /\
    regression_segments self' = 2.
Proof.
  destruct (kernel_matrix_by_distance Decomposition.gauss_kernel
              (fun _ => 1) (fun _ => None)
              KnotDistance.model FlatMultiplier.df
              FlatMultiplier.training_meta 2)
    as (self' & idx & dates & tp & H & Hidx & Hi & _ & _ & _ & _ & Hseg & _);
    try reflexivity; [vm_compute; lia |].
  exists self'. split; [exact H |].
  vm_compute in Hidx. injection Hidx as <-.
  split; [exact Hi | exact Hseg].
Defined.

Section KnotDates.

Variable gauss_kernel : list Q -> list Q -> Q -> Np.matrix.
Variable timedelta64 : string -> Z.
Variable infer_freq : list Z -> option string.

(** X11.  Whatever the configuration, a fit that returns leaves
    [regression_segments] equal to the number of coefficient knots.
    Without regressors that number is 0 and the kernel has one empty row
    per observation.  With regressors the knots on the time scale, the
    knot dates and the knot positions are three lists of that length, and
    the kernel is the Gaussian kernel of the time points 1/n .. n/n
    against the knots. *)
Theorem kernel_matrix_segments (self self' : KTRModel) (df : DataFrame)
        (training_meta : TrainingMeta) :
  _set_coefficients_kernel_matrix gauss_kernel timedelta64 infer_freq
    self df training_meta = Ok self' ->
  let n := num_of_observations training_meta in
  (_num_of_regressors self = 0%nat ->
   regression_segments self' = 0 /\
   _kernel_coefficients self' = Bound (Np.zeros (Z.to_nat n) 0) /\
   _knots_tp_coefficients self' = _knots_tp_coefficients self /\
   _regression_knot_dates self' = _regression_knot_dates self /\
   _regression_knots_idx self' = _regression_knots_idx self) /\
  ((0 < _num_of_regressors self)%nat ->
   exists tp dates idx,
     _knots_tp_coefficients self' = Some tp /\
     _regression_knot_dates self' = Some dates /\
     _regression_knots_idx self' = Some idx /\
     length dates = length tp /\ length idx = length tp /\
     regression_segments self' = Z.of_nat (length tp) /\
     _kernel_coefficients self'
     = Bound (gauss_kernel (time_points 1 (n + 1) n) tp
                           (regression_rho self))).
Proof.
  intros H n. unfold _set_coefficients_kernel_matrix in H. fold n in H.
  inv_bind H. clear E v.
  cbn [assign_kernel_coefficients _num_of_regressors] in H.
  destruct (Nat.ltb_spec 0 (_num_of_regressors self)) as [Hpos | Hzero].
  - split; [lia |]. intros _.
    inv_bind H. rename v into s1. rename E into Hs1.
    inv_bind H. rename v into tp. rename E into Htp.
    apply require_Ok in Htp. injection H as <-.
    cbn [assign_kernel_coefficients _knots_tp_coefficients
         _regression_knot_dates _regression_knots_idx regression_segments
         _kernel_coefficients].
    cbn [assign_kernel_coefficients _regression_knot_dates
         regression_knot_distance date_freq] in Hs1.
    destruct (_regression_knot_dates self) as [knot_dates |].
    + inv_bind Hs1. injection Hs1 as <-.
      cbn [assign_regression_knots _knots_tp_coefficients] in Htp.
      injection Htp as <-.
      cbn [assign_regression_knots assign_date_freq _knots_tp_coefficients
           _regression_knot_dates _regression_knots_idx regression_rho].
      eexists _, _, _. repeat (split; [reflexivity |]).
      rewrite !length_map. repeat split.
    + inv_bind Hs1. rename v into d. inv_bind Hs1. rename v into idx.
      inv_bind Hs1. rename v into dates. rename E1 into Hm.
      injection Hs1 as <-.
      cbn [assign_regression_knots _knots_tp_coefficients] in Htp.
      injection Htp as <-.
      cbn [assign_regression_knots _knots_tp_coefficients
           _regression_knot_dates _regression_knots_idx regression_rho].
      eexists _, _, _. repeat (split; [reflexivity |]).
      rewrite length_map. apply mapM_length in Hm.
      repeat split; assumption.
  - intros. split; [| lia]. intros _. injection H as <-.
    repeat split.
Qed.

End KnotDates.

Lemma kernel_matrix_segments_witness :
  _set_coefficients_kernel_matrix Decomposition.gauss_kernel
    KnotDates.timedelta64 KnotDates.infer_freq
    KnotDates.model PriorWindow.df KnotDates.training_meta
  = Ok KnotDates.fitted /\
  exists tp dates idx,
    _knots_tp_coefficients KnotDates.fitted = Some tp /\
    _regression_knot_dates KnotDates.fitted = Some dates /\
    _regression_knots_idx KnotDates.fitted = Some idx /\
    length dates = length tp /\ length idx = length tp /\
    regression_segments KnotDates.fitted = Z.of_nat (length tp).
Proof.
  assert (H : _set_coefficients_kernel_matrix Decomposition.gauss_kernel
                KnotDates.timedelta64 KnotDates.infer_freq
                KnotDates.model PriorWindow.df KnotDates.training_meta
              = Ok KnotDates.fitted) by (vm_compute; reflexivity).
  split; [exact H |].
  destruct (kernel_matrix_segments _ _ _ _ _ _ _ H) as [_ Hreg].
  destruct Hreg as (tp & dates & idx & H1 & H2 & H3 & H4 & H5 & H6 & _);
    [vm_compute; lia |].
  exists tp, dates, idx. repeat split; assumption.
Defined.

Lemma df_has_columns_spec (df : DataFrame) (cols : list string) :
  df_has_columns df cols = true <-> Forall (has_column df) cols.
Proof.
  unfold df_has_columns, has_column. rewrite forallb_forall, Forall_forall.
  split; intros H c Hc; specialize (H c Hc);
    destruct (df_lookup df c); congruence.
Qed.

Lemma df_filter_values_present (df : DataFrame) (cols : list string) :
  Forall (has_column df) cols ->
  df_filter_values df cols = table_of df cols.
Proof.
  intros H. unfold df_filter_values, table_of.
  assert (Hflat : flat_map (fun c => match df_lookup df c with
                                     | Some v => [v]
                                     | None => []
                                     end) cols
                  = map (column_values df) cols).
  { induction H as [| c cols Hc _ IH]; [reflexivity |].
    cbn [flat_map map]. rewrite IH. unfold has_column in Hc.
    assert (Ec : match df_lookup df c with
                 | Some v => [v]
                 | None => []
                 end = [column_values df c]).
    { unfold column_values.
      destruct (df_lookup df c); [reflexivity | contradiction]. }
    rewrite Ec. reflexivity. }
  rewrite Hflat. apply map_ext. intros i. rewrite map_map. reflexivity.
Qed.

Lemma table_of_no_columns (df : DataFrame) :
  table_of df [] = Np.zeros (length (df_dates df)) 0.
Proof.
  unfold table_of, Np.zeros. cbn [map repeat].
  induction (length (df_dates df)) as [| n IH]; [reflexivity |].
  rewrite seq_S, map_app, IH. cbn [map Nat.add].
  change [[]] with (repeat (@nil Q) 1). rewrite <- repeat_app.
  f_equal. lia.
Qed.

Lemma table_of_shape (df : DataFrame) (cols : list string) :
  length (table_of df cols) = length (df_dates df) /\
  Forall (fun row => length row = length cols) (table_of df cols).
Proof.
  unfold table_of. rewrite length_map, length_seq. split; [reflexivity |].
  apply Forall_forall. intros row Hrow. apply in_map_iff in Hrow.
  destruct Hrow as (i & <- & _). apply length_map.
Qed.

(** What the constructor leaves of the regressor columns. *)
Lemma init_Ok_columns (a : Args.t) (cols : list string) (self : KTRModel) :
  Args.regressor_col a = Some cols ->
  __init__ a = Ok self ->
  regressor_col self = Some cols /\
  incl (_positive_regressor_col self) cols /\
  incl (_regular_regressor_col self) cols /\
  _num_of_positive_regressors self = length (_positive_regressor_col self) /\
  _num_of_regular_regressors self = length (_regular_regressor_col self).
Proof.
  intros Hcols H.
  pose proof (init_Ok_consistent a cols self Hcols H) as Hcons.
  destruct (init_stage a cols Hcols Hcons)
    as (s2 & Hc & _ & _ & _ & Hp & Hr & Hrc & Hinit).
  assert (Hself : regressor_col self = regressor_col s2 /\
                  positive_group self = positive_group s2 /\
                  regular_group self = regular_group s2).
  { rewrite Hinit in H. destruct (negb (is_empty (priors_of a))).
    - inv_bind H.
      destruct (set_coef_prior_idx_cases s2)
        as [[_ Hok] | [(_ & _ & _ & l & Hok & _) | (_ & _ & _ & Hraise)]];
        rewrite ?Hok, ?Hraise in H; try discriminate;
        injection H as <-; repeat split.
    - injection H as <-. repeat split. }
  destruct Hself as (E1 & E2 & E3). rewrite E1. rewrite Hp in E2.
  rewrite Hr in E3. unfold positive_group, regular_group, group_of in E2, E3.
  injection E2 as P1 P2 _ _ _. injection E3 as R1 R2 _ _ _.
  rewrite P1, P2, R1, R2. split; [exact Hc |].
  repeat split; intros c Hin; apply (partition_incl cols (signs_of a (length cols)));
    apply in_or_app; [right | left]; exact Hin.
Qed.

(** X12.  On an instance built with regressor columns and a table with one
    row per observation, [_set_regressor_matrix] raises [ModelException]
    exactly when a declared column is missing from the table.  Otherwise
    it returns, and each of the two regressor matrices holds the table's
    columns of its group side by side, in the order of the group: one row
    per table row and one entry per regressor of the group. *)
Theorem regressor_matrices_of_table (a : Args.t) (cols : list string)
        (self : KTRModel) (df : DataFrame) (training_meta : TrainingMeta) :
  Args.regressor_col a = Some cols ->
  __init__ a = Ok self ->
  num_of_observations training_meta = Z.of_nat (length (df_dates df)) ->
  (~ Forall (has_column df) cols ->
   _set_regressor_matrix self df training_meta = Raise ModelException) /\
  (Forall (has_column df) cols ->
   exists self',
     _set_regressor_matrix self df training_meta = Ok self' /\
     _positive_regressor_matrix self'
     = Some (table_of df (_positive_regressor_col self)) /\
     _regular_regressor_matrix self'
     = Some (table_of df (_regular_regressor_col self)) /\
     Forall (fun row => length row = _num_of_positive_regressors self)
            (table_of df (_positive_regressor_col self)) /\
     Forall (fun row => length row = _num_of_regular_regressors self)
            (table_of df (_regular_regressor_col self))).
Proof.
  intros Hcols H Hn.
  destruct (init_Ok_columns a cols self Hcols H)
    as (Hrc & Hpos & Hreg & Hnp & Hnr).
  unfold _set_regressor_matrix. rewrite Hrc. split.
  - intros Hmiss. destruct (df_has_columns df cols) eqn:E.
    + apply df_has_columns_spec in E. contradiction.
    + reflexivity.
  - intros Hall. rewrite (proj2 (df_has_columns_spec df cols) Hall).
    cbn [negb bind].
    destruct (Z.ltb_spec (num_of_observations training_meta) 0); [lia |].
    cbn [bind]. eexists. split; [reflexivity |].
    cbn [assign_regressor_matrices _positive_regressor_matrix
         _regular_regressor_matrix].
    assert (Hp : Forall (has_column df) (_positive_regressor_col self)).
    { rewrite Forall_forall in *. intros c Hc. apply Hall, Hpos, Hc. }
    assert (Hr : Forall (has_column df) (_regular_regressor_col self)).
    { rewrite Forall_forall in *. intros c Hc. apply Hall, Hreg, Hc. }
    rewrite Hn, Nat2Z.id.
    split; [| split; [| split]].
    + rewrite Hnp. destruct (_positive_regressor_col self) as [| c l] eqn:E.
      * cbn [length Nat.ltb Nat.leb]. rewrite table_of_no_columns. reflexivity.
      * cbn [length Nat.ltb Nat.leb]. rewrite df_filter_values_present
          by assumption. reflexivity.
    + rewrite Hnr. destruct (_regular_regressor_col self) as [| c l] eqn:E.
      * cbn [length Nat.ltb Nat.leb]. rewrite table_of_no_columns. reflexivity.
      * cbn [length Nat.ltb Nat.leb]. rewrite df_filter_values_present
          by assumption. reflexivity.
    + rewrite Hnp. apply table_of_shape.
    + rewrite Hnr. apply table_of_shape.
Qed.

Lemma regressor_matrices_of_table_witness :
  _set_regressor_matrix Construction.tagged_model RegressorTable.df_without_b
    RoundTrip.training_meta = Raise ModelException /\
  exists self',
    _set_regressor_matrix Construction.tagged_model RegressorTable.df
      RoundTrip.training_meta = Ok self' /\
    _positive_regressor_matrix self' = Some [[1; 5]; [2; 6]]%Q /\
    _regular_regressor_matrix self' = Some [[3]; [4]]%Q.
Proof.
  assert (H : __init__ Construction.tagged = Ok Construction.tagged_model)
    by (vm_compute; reflexivity).
  split.
  - apply (regressor_matrices_of_table Construction.tagged Partition.cols
             Construction.tagged_model RegressorTable.df_without_b
             RoundTrip.training_meta eq_refl H eq_refl).
    intros Hall. inversion Hall as [| ? ? _ Hb]. inversion Hb as [| ? ? Hb' _].
    apply Hb'. reflexivity.
  - destruct (regressor_matrices_of_table Construction.tagged Partition.cols
                Construction.tagged_model RegressorTable.df
                RoundTrip.training_meta eq_refl H eq_refl) as [_ Hok].
    destruct Hok as (self' & Hs & Hp & Hr & _).
    + repeat constructor; discriminate.
    + exists self'. split; [exact Hs |]. split; [exact Hp | exact Hr].
Defined.
Lemma ones_shape (n k : nat) : has_shape n k (ones n k).
Proof.
  unfold has_shape, ones. split; [apply repeat_length |].
  apply Forall_forall. intros row H. apply repeat_spec in H. subst row.
  apply repeat_length.
Qed.

Lemma ones_entries (n k : nat) :
  Forall (Forall unit_or_lower_bound) (ones n k).
Proof.
  unfold ones. apply Forall_forall. intros row H. apply repeat_spec in H.
  subst row. apply Forall_forall. intros x H. apply repeat_spec in H.
  left. exact H.
Qed.

Lemma set_nth_length {A : Type} (l l' : list A) (idx : nat) (x : A) :
  set_nth l idx x = Ok l' -> length l' = length l.
Proof.
  revert l' idx; induction l as [| y l IH]; intros l' idx H; [discriminate |].
  destruct idx as [| i]; cbn [set_nth] in H.
  - injection H as <-. reflexivity.
  - inv_bind H. injection H as <-. cbn [length]. f_equal. eauto.
Qed.

Lemma zipWithM_Forall2 {A B C : Type} (f : A -> B -> result C)
      (xs : list A) (ys : list B) (zs : list C) :
  length xs = length ys ->
  zipWithM f xs ys = Ok zs ->
  Forall2 (fun x z => exists y, In y ys /\ f x y = Ok z) xs zs.
Proof.
  revert ys zs; induction xs as [| x xs IH]; intros [| y ys] zs Hl H;
    try discriminate.
  - injection H as <-. constructor.
  - cbn [zipWithM] in H. inv_bind H. inv_bind H. injection H as <-.
    constructor.
    + exists y. split; [left; reflexivity | assumption].
    + eapply Forall2_impl; [| apply (IH ys); [simpl in Hl; lia | eassumption]].
      intros a c (b & Hb & Hf). exists b. split; [right |]; assumption.
Qed.

Lemma Forall2_shape {A B : Type} (n k : nat) (a : list (list A))
      (b : list (list B)) :
  Forall2 (fun r r' => length r' = length r) a b ->
  has_shape n k a -> has_shape n k b.
Proof.
  intros H [Hn Hk]. split.
  - rewrite <- Hn. symmetry. eapply Forall2_length; eassumption.
  - clear Hn. induction H as [| r r' a b Hr _ IH]; constructor;
      inversion Hk; subst; [congruence | auto].
Qed.

Lemma set_column_shape {A : Type} (n k : nat) (a a' : list (list A))
      (idx : nat) (v : list A) :
  set_column a idx v = Ok a' -> has_shape n k a -> has_shape n k a'.
Proof.
  unfold set_column. intros H. apply Forall2_shape.
  destruct (Nat.eqb_spec (length v) (length a)) as [E | E].
  - apply zipWithM_Forall2 in H; [| congruence].
    eapply Forall2_impl; [| exact H].
    intros r r' (x & _ & Hx). eapply set_nth_length; eassumption.
  - destruct v as [| x [| ? ?]]; [discriminate | | discriminate].
    apply mapM_Forall2 in H. eapply Forall2_impl; [| exact H].
    intros r r' Hx. cbv beta in Hx. eapply set_nth_length; eassumption.
Qed.

Lemma foldM_invariant {A S : Type} (P : S -> Prop) (f : S -> A -> result S)
      (l : list A) :
  (forall s a s', f s a = Ok s' -> P s -> P s') ->
  forall s s', foldM f s l = Ok s' -> P s -> P s'.
Proof.
  intros Hf. induction l as [| a l IH]; intros s s' H Hs.
  - injection H as <-. exact Hs.
  - cbn [foldM] in H. inv_bind H. eapply IH; [eassumption |]. eauto.
Qed.

Lemma local_val_loop_shape (n k : nat) (m : Np.matrix) (knots_idx : list Z)
      (num_of_observations : Z) (local_val local_val' : list (list float64)) :
  local_val_loop m knots_idx num_of_observations local_val = Ok local_val' ->
  has_shape n k local_val -> has_shape n k local_val'.
Proof.
  unfold local_val_loop. apply foldM_invariant.
  intros s idx s' H. unfold local_val_step in H.
  inv_bind H. inv_bind H. eapply set_column_shape; eassumption.
Qed.

Lemma low_volume_flags_rows (n k : nat) (local_val : list (list float64))
      (global_med : list float64) (flags : list (list bool)) :
  low_volume_flags local_val global_med = Ok flags ->
  has_shape n k local_val ->
  Forall (fun row => length row = k) flags.
Proof.
  unfold low_volume_flags, Np.bzip. intros H [_ Hk].
  assert (Hrow : forall row g (r : list bool),
             In row local_val ->
             Ok (map (fun x => Stats.lt x (Stats.scale (1 # 100) g)) row)
             = Ok r -> length r = k).
  { intros row g r Hin Hr. injection Hr as <-. rewrite length_map.
    rewrite Forall_forall in Hk. auto. }
  destruct (Nat.eqb_spec (length local_val) (length global_med)) as [E | E].
  - apply zipWithM_Forall2 in H; [| assumption].
    clear E. induction H as [| row r lv fl (g & _ & Hr) _ IH];
      constructor.
    + eapply Hrow; [left; reflexivity | eassumption].
    + apply IH.
      * inversion Hk; assumption.
      * intros row' g' r' Hin. apply Hrow. right. assumption.
  - destruct local_val as [| x [| y lv]].
    + destruct global_med as [| g [| ? ?]]; try discriminate.
      injection H as <-. constructor.
    + apply mapM_Forall2 in H. clear E.
      induction H as [| g r gm fl Hr _ IH]; constructor; [| assumption].
      eapply Hrow; [left; reflexivity | eassumption].
    + destruct global_med as [| g [| ? ?]]; try discriminate.
      apply mapM_Forall2 in H. clear E.
      remember (x :: y :: lv) as l eqn:El. clear El.
      induction H as [| row r l' fl Hr _ IH]; constructor.
      * eapply Hrow; [left; reflexivity | eassumption].
      * apply IH.
        -- inversion Hk; assumption.
        -- intros row' g' r' Hin. apply Hrow. right. assumption.
Qed.

Lemma set_flagged_spec (n k : nat) (multiplier m : list (list float64))
      (flags : list (list bool)) :
  set_flagged multiplier flags = Ok m ->
  has_shape n k multiplier ->
  Forall (fun row => length row = k) flags ->
  Forall (Forall unit_or_lower_bound) multiplier ->
  has_shape n k m /\ Forall (Forall unit_or_lower_bound) m.
Proof.
  unfold set_flagged. intros H [Hn Hk] Hfk Hent.
  destruct (Nat.eqb_spec (length flags) (length multiplier)) as [E | E];
    [| discriminate].
  injection H as <-. split; [split |].
  - rewrite length_map, length_combine, E, Nat.min_id. exact Hn.
  - apply Forall_forall. intros row Hrow. apply in_map_iff in Hrow.
    destruct Hrow as ([r f] & <- & Hin). cbn [fst snd].
    rewrite length_map, length_combine.
    rewrite Forall_forall in Hk, Hfk.
    rewrite (Hk r (in_combine_l _ _ _ _ Hin)),
      (Hfk f (in_combine_r _ _ _ _ Hin)).
    apply Nat.min_id.
  - apply Forall_forall. intros row Hrow. apply in_map_iff in Hrow.
    destruct Hrow as ([r f] & <- & Hin). cbn [fst snd].
    apply Forall_forall. intros x Hx. apply in_map_iff in Hx.
    destruct Hx as ([y b] & <- & Hyb). cbn [fst snd].
    destruct b; [right; reflexivity |].
    rewrite Forall_forall in Hent.
    specialize (Hent r (in_combine_l _ _ _ _ Hin)).
    rewrite Forall_forall in Hent. apply Hent.
    eapply in_combine_l; eassumption.
Qed.

Lemma reset_nan_rows_spec (n k : nat) (m : list (list float64)) :
  has_shape n k m -> Forall (Forall unit_or_lower_bound) m ->
  has_shape n k (reset_nan_rows m) /\
  Forall (Forall unit_or_lower_bound) (reset_nan_rows m).
Proof.
  intros [Hn Hk] Hent. unfold reset_nan_rows. split; [split |].
  - rewrite length_map. exact Hn.
  - apply Forall_forall. intros row Hrow. apply in_map_iff in Hrow.
    destruct Hrow as (r & <- & Hin). rewrite Forall_forall in Hk.
    destruct (forallb Stats.isnan r); [rewrite length_map |]; auto.
  - apply Forall_forall. intros row Hrow. apply in_map_iff in Hrow.
    destruct Hrow as (r & <- & Hin). rewrite Forall_forall in Hent.
    destruct (forallb Stats.isnan r); [| auto].
    apply Forall_forall. intros x Hx. apply in_map_iff in Hx.
    destruct Hx as (y & <- & _). left. reflexivity.
Qed.

(** The part that the two multipliers share: the local values, the
    flags, the lower bound and the reset. *)
Lemma adjusted_multiplier_spec (n k : nat) (m : Np.matrix)
      (knots_idx : list Z) (num_of_observations : Z)
      (global_med : list float64) (multiplier : list (list float64)) :
  (local_val <- local_val_loop m knots_idx num_of_observations (ones n k) ;;
   test_flag <- low_volume_flags local_val global_med ;;
   multiplier <- set_flagged (ones n k) test_flag ;;
   Ok (reset_nan_rows multiplier)) = Ok multiplier ->
  has_shape n k multiplier /\ Forall (Forall unit_or_lower_bound) multiplier.
Proof.
  intros H. inv_bind H. rename v into local_val. rename E into Hloop.
  inv_bind H. rename v into flags. rename E into Hflags.
  inv_bind H. rename v into flagged. rename E into Hset.
  injection H as <-.
  pose proof (local_val_loop_shape n k _ _ _ _ _ Hloop (ones_shape n k))
    as Hlv.
  pose proof (low_volume_flags_rows n k _ _ _ Hflags Hlv) as Hfl.
  destruct (set_flagged_spec n k _ _ _ Hset (ones_shape n k) Hfl
              (ones_entries n k)) as [Hs He].
  apply reset_nan_rows_spec; assumption.
Qed.

Lemma multipliers_shape_entries (self : KTRModel)
      (num_of_observations : Z) (multiplier : list (list float64)) :
  (positive_multiplier self num_of_observations = Ok multiplier ->
   has_shape (_num_of_positive_regressors self)
             (Z.to_nat (regression_segments self)) multiplier /\
   Forall (Forall unit_or_lower_bound) multiplier) /\
  (regular_multiplier self num_of_observations = Ok multiplier ->
   has_shape (_num_of_regular_regressors self)
             (Z.to_nat (regression_segments self)) multiplier /\
   Forall (Forall unit_or_lower_bound) multiplier).
Proof.
  split; intros H.
  - unfold positive_multiplier in H. destruct (flat_multiplier self).
    + injection H as <-. split; [apply ones_shape | apply ones_entries].
    + inv_bind H. inv_bind H. eapply adjusted_multiplier_spec. exact H.
  - unfold regular_multiplier in H. inv_bind H. inv_bind H.
    destruct (flat_multiplier self);
      eapply adjusted_multiplier_spec; exact H.
Qed.

(** X13.  Every multiplier that [_set_knots_scale_matrix] computes, for
    the positive and for the regular regressors, flat or not, has one row
    per regressor of the group and one entry per regression segment, and
    every entry is 1 or the lower bound 0.01: no entry is ever undefined. *)
Theorem multipliers_one_or_lower_bound (self : KTRModel)
        (num_of_observations : Z) (multiplier : list (list float64)) :
  (positive_multiplier self num_of_observations = Ok multiplier ->
   has_shape (_num_of_positive_regressors self)
             (Z.to_nat (regression_segments self)) multiplier /\
   Forall (Forall unit_or_lower_bound) multiplier) /\
  (regular_multiplier self num_of_observations = Ok multiplier ->
   has_shape (_num_of_regular_regressors self)
             (Z.to_nat (regression_segments self)) multiplier /\
   Forall (Forall unit_or_lower_bound) multiplier).
Proof. exact (multipliers_shape_entries self num_of_observations multiplier). Qed.
Lemma floor_scale_at_least (q : Q) : at_least_floor (floor_scale (Fin q)).
Proof.
  unfold floor_scale, Stats.lt, at_least_floor.
  destruct (Qcompare_spec q (1 # 10000)) as [E | E | E].
  - exists q. split; [reflexivity |]. rewrite E. apply Qle_refl.
  - exists (1 # 10000). split; [reflexivity | apply Qle_refl].
  - exists q. split; [reflexivity | apply Qlt_le_weak; exact E].
Qed.

Lemma floor_scale_Q_at_least (l : list Q) :
  Forall (fun q => (1 # 10000 <= q)%Q) (map floor_scale_Q l) /\
  Forall2 (fun q q' => (1 # 10000 <= q)%Q -> q' = q) l (map floor_scale_Q l).
Proof.
  split.
  - apply Forall_forall. intros q Hq. apply in_map_iff in Hq.
    destruct Hq as (x & <- & _). unfold floor_scale_Q.
    destruct (Qcompare_spec x (1 # 10000)) as [E | E | E].
    + rewrite E. apply Qle_refl.
    + apply Qle_refl.
    + apply Qlt_le_weak. exact E.
  - induction l as [| x l IH]; constructor; [| exact IH].
    intros Hx. unfold floor_scale_Q.
    destruct (Qcompare_spec x (1 # 10000)) as [E | E | E]; try reflexivity.
    exfalso. apply (Qlt_irrefl x). eapply Qlt_le_trans; eassumption.
Qed.

Lemma scale_by_multiplier_spec (n k : nat)
      (multiplier : list (list float64)) (v : list Q) (sc : scale_array) :
  scale_by_multiplier multiplier (Scale1 v) = Ok sc ->
  has_shape n k multiplier ->
  Forall (Forall unit_or_lower_bound) multiplier ->
  length v = n ->
  exists m,
    sc = Scale2 m /\ has_shape n k m /\ Forall2 scaled_row v m /\
    Forall (Forall at_least_floor) m.
Proof.
  unfold scale_by_multiplier, Np.bzip. intros H [Hn Hk] Hent Hv.
  destruct (Nat.eqb_spec (length multiplier) (length v)) as [E | E];
    [| congruence].
  inv_bind H. rename v0 into rows. rename E0 into Hrows.
  injection H as <-. eexists. split; [reflexivity |].
  assert (Hall : length (map (map floor_scale) rows) = length multiplier /\
                 Forall (fun row => length row = k)
                        (map (map floor_scale) rows) /\
                 Forall2 scaled_row v (map (map floor_scale) rows) /\
                 Forall (Forall at_least_floor)
                        (map (map floor_scale) rows)).
  { clear Hn Hv. revert v rows E Hrows.
    induction multiplier as [| row multiplier IH];
      intros [| s v] rows E Hrows; try discriminate.
    - injection Hrows as <-. repeat split; constructor.
    - cbn [zipWithM] in Hrows. inv_bind Hrows. rename E0 into Hhead.
      injection Hhead as <-.
      inv_bind Hrows. rename E0 into Htail. rename v0 into tail.
      injection Hrows as <-.
      inversion Hk as [| ? ? Hk1 Hk2]; subst.
      inversion Hent as [| ? ? He1 He2]; subst.
      destruct (IH Hk2 He2 v tail ltac:(simpl in E; lia) Htail)
        as (Hl & Hs & Hf2 & Hfl).
      cbn [map]. split; [| split; [| split]].
      + cbn [length]. f_equal. exact Hl.
      + constructor; [| exact Hs]. rewrite !length_map. reflexivity.
      + constructor; [| exact Hf2]. unfold scaled_row.
        apply Forall_forall. intros x Hx. rewrite map_map in Hx.
        apply in_map_iff in Hx. destruct Hx as (y & <- & Hy).
        rewrite Forall_forall in He1.
        destruct (He1 y Hy) as [-> | ->]; [left | right]; reflexivity.
      + constructor; [| exact Hfl].
        apply Forall_forall. intros x Hx. rewrite map_map in Hx.
        apply in_map_iff in Hx. destruct Hx as (y & <- & Hy).
        rewrite Forall_forall in He1.
        destruct (He1 y Hy) as [-> | ->]; apply floor_scale_at_least. }
  destruct Hall as (Hl & Hs & Hf2 & Hfl).
  split; [split; [congruence | exact Hs] |]. split; assumption.
Qed.

(** X14.  On an instance whose knot scales are the 1-D arrays left by the
    constructor, one entry per regressor of the group,
    [_set_knots_scale_matrix] turns the knot scale of every group that has
    regressors into a 2-D array with one row per regressor and one entry
    per regression segment.  Each entry is the regressor's prior scale or
    one hundredth of it, raised to 1e-4 when it is below, so no scale is
    ever below 1e-4 or undefined.  The initial knot scales of such a group
    are raised to 1e-4 in the same way and are otherwise unchanged; a
    group without regressors keeps its scales. *)
Theorem knot_scales_floored (self self' : KTRModel)
        (training_meta : TrainingMeta) (vp vr : list Q) :
  _positive_regressor_knot_scale self = Scale1 vp ->
  length vp = _num_of_positive_regressors self ->
  _regular_regressor_knot_scale self = Scale1 vr ->
  length vr = _num_of_regular_regressors self ->
  _set_knots_scale_matrix self training_meta = Ok self' ->
  let k := Z.to_nat (regression_segments self) in
  (if (0 <? _num_of_positive_regressors self)%nat then
     exists m,
       _positive_regressor_knot_scale self' = Scale2 m /\
       has_shape (_num_of_positive_regressors self) k m /\
       Forall2 scaled_row vp m /\
       Forall (Forall at_least_floor) m /\
       _positive_regressor_init_knot_scale self'
       = map floor_scale_Q (_positive_regressor_init_knot_scale self) /\
       Forall (fun q => (1 # 10000 <= q)%Q)
              (_positive_regressor_init_knot_scale self') /\
       Forall2 (fun q q' => (1 # 10000 <= q)%Q -> q' = q)
               (_positive_regressor_init_knot_scale self)
               (_positive_regressor_init_knot_scale self')
   else
     _positive_regressor_knot_scale self' = Scale1 vp /\
     _positive_regressor_init_knot_scale self'
     = _positive_regressor_init_knot_scale self) /\
  (if (0 <? _num_of_regular_regressors self)%nat then
     exists m,
       _regular_regressor_knot_scale self' = Scale2 m /\
       has_shape (_num_of_regular_regressors self) k m /\
       Forall2 scaled_row vr m /\
       Forall (Forall at_least_floor) m /\
       _regular_regressor_init_knot_scale self'
       = map floor_scale_Q (_regular_regressor_init_knot_scale self) /\
       Forall (fun q => (1 # 10000 <= q)%Q)
              (_regular_regressor_init_knot_scale self') /\
       Forall2 (fun q q' => (1 # 10000 <= q)%Q -> q' = q)
               (_regular_regressor_init_knot_scale self)
               (_regular_regressor_init_knot_scale self')
   else
     _regular_regressor_knot_scale self' = Scale1 vr /\
     _regular_regressor_init_knot_scale self'
     = _regular_regressor_init_knot_scale self).
Proof.
  intros Hvp Hlp Hvr Hlr H k. unfold _set_knots_scale_matrix in H.
  inv_bind H. rename v into s1. rename E into Hs1.
  assert (Hpos :
    (if (0 <? _num_of_positive_regressors self)%nat then
       exists m,
         _positive_regressor_knot_scale s1 = Scale2 m /\
         has_shape (_num_of_positive_regressors self) k m /\
         Forall2 scaled_row vp m /\
         Forall (Forall at_least_floor) m /\
         _positive_regressor_init_knot_scale s1
         = map floor_scale_Q (_positive_regressor_init_knot_scale self)
     else
       _positive_regressor_knot_scale s1 = Scale1 vp /\
       _positive_regressor_init_knot_scale s1
       = _positive_regressor_init_knot_scale self) /\
    _num_of_regular_regressors s1 = _num_of_regular_regressors self /\
    regression_segments s1 = regression_segments self /\
    _regular_regressor_knot_scale s1 = _regular_regressor_knot_scale self /\
    _regular_regressor_init_knot_scale s1
    = _regular_regressor_init_knot_scale self /\
    regular_multiplier s1 (num_of_observations training_meta)
    = regular_multiplier self (num_of_observations training_meta)).
  { destruct (0 <? _num_of_positive_regressors self)%nat.
    - inv_bind Hs1. rename v into mult. rename E into Hmult.
      inv_bind Hs1. rename v into sc. rename E into Hsc.
      injection Hs1 as <-.
      destruct (proj1 (multipliers_shape_entries self _ mult) Hmult)
        as [Hsh Hent].
      rewrite Hvp in Hsc.
      destruct (scale_by_multiplier_spec _ _ _ _ _ Hsc Hsh Hent Hlp)
        as (m & -> & Hm & Hrow & Hfl).
      split; [| repeat split].
      exists m. repeat split; try assumption; apply Hm.
    - injection Hs1 as <-. repeat split; assumption. }
  destruct Hpos as (Hpos & En & Ek & Es & Ei & Em).
  rewrite En, Em, Es in H.
  assert (Hframe :
    (0 <? _num_of_regular_regressors self)%nat = true ->
    _positive_regressor_knot_scale self' = _positive_regressor_knot_scale s1
    /\ _positive_regressor_init_knot_scale self'
       = _positive_regressor_init_knot_scale s1).
  { intros Hr. rewrite Hr in H. inv_bind H. inv_bind H. injection H as <-.
    split; reflexivity. }
  split.
  - destruct (0 <? _num_of_regular_regressors self)%nat eqn:Hr.
    + destruct (Hframe eq_refl) as [F1 F2]. rewrite F1, F2.
      destruct (0 <? _num_of_positive_regressors self)%nat.
      * destruct Hpos as (m & H1 & H2 & H3 & H4 & H5). exists m.
        repeat (split; [assumption |]). rewrite H5.
        apply floor_scale_Q_at_least.
      * exact Hpos.
    + injection H as <-.
      destruct (0 <? _num_of_positive_regressors self)%nat.
      * destruct Hpos as (m & H1 & H2 & H3 & H4 & H5). exists m.
        repeat (split; [assumption |]). rewrite H5.
        apply floor_scale_Q_at_least.
      * exact Hpos.
  - destruct (0 <? _num_of_regular_regressors self)%nat eqn:Hr.
    + inv_bind H. rename v into mult. rename E into Hmult.
      inv_bind H. rename v into sc. rename E into Hsc.
      injection H as <-.
      destruct (proj2 (multipliers_shape_entries self _ mult) Hmult)
        as [Hsh Hent].
      rewrite Hvr in Hsc.
      destruct (scale_by_multiplier_spec _ _ _ _ _ Hsc Hsh Hent Hlr)
        as (m & -> & Hm & Hrow & Hfl).
      exists m. cbn [assign_regular_scales _regular_regressor_knot_scale
                     _regular_regressor_init_knot_scale].
      rewrite Ei. repeat (split; [first [reflexivity | assumption] |]).
      apply floor_scale_Q_at_least.
    + injection H as <-. rewrite Es, Ei. split; [exact Hvr | reflexivity].
Qed.
Lemma multipliers_one_or_lower_bound_witness :
  exists multiplier,
    regular_multiplier ScaleMatrix.fitted 4 = Ok multiplier /\
    has_shape 1 2 multiplier /\
    Forall (Forall unit_or_lower_bound) multiplier.
Proof.
  assert (H : regular_multiplier ScaleMatrix.fitted 4
              = Ok [[Fin 1; Fin (1 # 100)]]) by (vm_compute; reflexivity).
  exists [[Fin 1; Fin (1 # 100)]]. split; [exact H |].
  exact (proj2 (multipliers_one_or_lower_bound ScaleMatrix.fitted 4
                  [[Fin 1; Fin (1 # 100)]]) H).
Defined.

Lemma knot_scales_floored_witness :
  _set_knots_scale_matrix ScaleMatrix.fitted FlatMultiplier.training_meta
  = Ok ScaleMatrix.scaled /\
  exists m,
    _regular_regressor_knot_scale ScaleMatrix.scaled = Scale2 m /\
    has_shape 1 2 m /\
    Forall (Forall at_least_floor) m.
Proof.
  assert (H : _set_knots_scale_matrix ScaleMatrix.fitted
                FlatMultiplier.training_meta = Ok ScaleMatrix.scaled)
    by (vm_compute; reflexivity).
  split; [exact H |].
  destruct (knot_scales_floored ScaleMatrix.fitted ScaleMatrix.scaled
              FlatMultiplier.training_meta []
              [DEFAULT_COEFFICIENTS_KNOT_SCALE]
              eq_refl eq_refl eq_refl eq_refl H) as [_ Hreg].
  cbn in Hreg. destruct Hreg as (m & H1 & H2 & _ & H4 & _).
  exists m. repeat split; try assumption; apply H2.
Defined.

Lemma occurs_in_spec (dates : list Z) (d : Z) :
  occurs_in dates d = true <-> In d dates.
Proof.
  unfold occurs_in. rewrite existsb_exists. split.
  - intros (x & Hx & E). apply Z.eqb_eq in E. subst x. exact Hx.
  - intros H. exists d. split; [exact H | apply Z.eqb_refl].
Qed.

Lemma in1d_positions_In (train dates : list Z) (from p : Z) :
  In p (in1d_positions train dates from) <->
  exists i d, nth_error train i = Some d /\ In d dates /\
              p = from + Z.of_nat i.
Proof.
  revert from; induction train as [| d train IH]; intros from.
  - cbn [in1d_positions]. split; [intros [] |].
    intros (i & d & H & _). destruct i; discriminate.
  - cbn [in1d_positions]. fold (occurs_in dates d).
    assert (Hstep : (exists i d', nth_error (d :: train) i = Some d' /\
                                  In d' dates /\ p = from + Z.of_nat i) <->
                    (In d dates /\ p = from) \/
                    (exists i d', nth_error train i = Some d' /\
                                  In d' dates /\ p = from + 1 + Z.of_nat i)).
    { split.
      - intros ([| i] & d' & Hn & Hin & Hp).
        + injection Hn as <-. left. split; [exact Hin | lia].
        + right. exists i, d'. repeat split; try assumption. lia.
      - intros [[Hin Hp] | (i & d' & Hn & Hin & Hp)].
        + exists 0%nat, d. repeat split; try assumption. lia.
        + exists (S i), d'. repeat split; try assumption. lia. }
    rewrite Hstep, <- IH.
    destruct (occurs_in dates d) eqn:E.
    + apply occurs_in_spec in E. cbn [In]. split.
      * intros [<- | H]; [left; split; [exact E | reflexivity] | right; exact H].
      * intros [[_ ->] | H]; [left; reflexivity | right; exact H].
    + split; [intros H; right; exact H |].
      intros [[Hin _] | H]; [| exact H].
      apply occurs_in_spec in Hin. congruence.
Qed.

Lemma in1d_positions_ext (train dates dates' : list Z) (from : Z) :
  (forall d, In d train -> (In d dates <-> In d dates')) ->
  in1d_positions train dates from = in1d_positions train dates' from.
Proof.
  revert from; induction train as [| d train IH]; intros from H;
    [reflexivity |].
  cbn [in1d_positions]. fold (occurs_in dates d) (occurs_in dates' d).
  assert (E : occurs_in dates d = occurs_in dates' d).
  { destruct (occurs_in dates d) eqn:E1, (occurs_in dates' d) eqn:E2;
      try reflexivity.
    - apply occurs_in_spec in E1. apply (H d (or_introl eq_refl)) in E1.
      apply occurs_in_spec in E1. congruence.
    - apply occurs_in_spec in E2. apply (H d (or_introl eq_refl)) in E2.
      apply occurs_in_spec in E2. congruence. }
  rewrite E, (IH (from + 1)); [reflexivity |].
  intros d' Hd'. apply H. right. exact Hd'.
Qed.

Lemma in1d_positions_increasing (train dates : list Z) (from : Z) :
  forall i j p q,
    (i < j)%nat ->
    nth_error (in1d_positions train dates from) i = Some p ->
    nth_error (in1d_positions train dates from) j = Some q ->
    from <= p < q.
Proof.
  revert from; induction train as [| d train IH]; intros from i j p q Hij Hp Hq.
  - destruct i; discriminate.
  - cbn [in1d_positions] in Hp, Hq. destruct (existsb (Z.eqb d) dates).
    + destruct j as [| j]; [lia |]. cbn [nth_error] in Hq.
      destruct i as [| i]; cbn [nth_error] in Hp.
      * injection Hp as <-.
        assert (Hin : In q (in1d_positions train dates (from + 1)))
          by (eapply nth_error_In; eassumption).
        apply in1d_positions_In in Hin. destruct Hin as (k & _ & _ & _ & ->).
        lia.
      * specialize (IH (from + 1) i j p q ltac:(lia) Hp Hq). lia.
    + specialize (IH (from + 1) i j p q Hij Hp Hq). lia.
Qed.

Lemma in1d_positions_all (train dates : list Z) (from : Z) :
  incl train dates ->
  in1d_positions train dates from
  = map (fun i => from + Z.of_nat i) (seq 0 (length train)).
Proof.
  revert from; induction train as [| d train IH]; intros from H;
    [reflexivity |].
  cbn [in1d_positions length]. fold (occurs_in dates d).
  rewrite (proj2 (occurs_in_spec dates d) (H d (or_introl eq_refl))).
  cbn [seq map]. f_equal; [lia |].
  rewrite IH by (intros x Hx; apply H; right; exact Hx).
  rewrite <- seq_shift, map_map. apply map_ext. intros i. lia.
Qed.

(** X15.  [_generate_insample_tp] returns one time point for every
    position of the training dates whose date occurs among the given
    dates: [(i + 1) / n] for the position [i], by increasing position.
    Given dates that are not training dates are ignored, and neither the
    order nor the repetition of the given dates matters. *)
Theorem insample_tp_membership (training_meta : TrainingMeta)
        (dates : list Z) :
  let n := num_of_observations training_meta in
  let position_tp (i : nat) := (inject_Z (Z.of_nat i + 1) / inject_Z n)%Q in
  (exists idx : list nat,
      _generate_insample_tp training_meta dates = map position_tp idx /\
      (forall i, In i idx <->
                 exists d, nth_error (date_array training_meta) i = Some d /\
                           In d dates) /\
      (forall a b i j, (a < b)%nat -> nth_error idx a = Some i ->
                       nth_error idx b = Some j -> (i < j)%nat)) /\
  (forall dates',
      (forall d, In d (date_array training_meta) ->
                 (In d dates <-> In d dates')) ->
      _generate_insample_tp training_meta dates'
      = _generate_insample_tp training_meta dates).
Proof.
  intros n position_tp. split.
  - exists (map Z.to_nat
                (in1d_positions (date_array training_meta) dates 0)).
    split; [| split].
    + unfold _generate_insample_tp. rewrite map_map. apply map_ext_in.
      intros p Hp. apply in1d_positions_In in Hp.
      destruct Hp as (i & d & _ & _ & ->). unfold position_tp.
      rewrite Z2Nat.id by lia. reflexivity.
    + intros i. rewrite in_map_iff. split.
      * intros (p & <- & Hp). apply in1d_positions_In in Hp.
        destruct Hp as (k & d & Hk & Hd & ->). exists d.
        replace (Z.to_nat (0 + Z.of_nat k)) with k by lia. auto.
      * intros (d & Hi & Hd). exists (Z.of_nat i). split; [lia |].
        apply in1d_positions_In. exists i, d. repeat split; auto.
    + intros a b i j Hab Ha Hb. rewrite nth_error_map in Ha, Hb.
      destruct (nth_error _ a) as [p |] eqn:Hp; [| discriminate].
      destruct (nth_error _ b) as [q |] eqn:Hq; [| discriminate].
      injection Ha as <-. injection Hb as <-.
      pose proof (in1d_positions_increasing _ _ _ _ _ _ _ Hab Hp Hq). lia.
  - intros dates' H. unfold _generate_insample_tp.
    rewrite (in1d_positions_ext _ dates' dates); [reflexivity |].
    intros d Hd. symmetry. apply H. exact Hd.
Qed.

(** X16.  On the training dates themselves, when they do not repeat and
    there is one per observation, the two ways of computing time points
    agree: [_generate_tp] and [_generate_insample_tp] both return
    1/n, 2/n, ..., n/n, the time points of the fit. *)
Theorem training_dates_time_points (training_meta : TrainingMeta)
        (first : Z) (rest : list Z) :
  date_array training_meta = first :: rest ->
  NoDup (date_array training_meta) ->
  first <= training_end training_meta ->
  num_of_observations training_meta
  = Z.of_nat (length (date_array training_meta)) ->
  let n := num_of_observations training_meta in
  _generate_tp training_meta (date_array training_meta)
  = Ok (time_points 1 (n + 1) n) /\
  _generate_insample_tp training_meta (date_array training_meta)
  = time_points 1 (n + 1) n.
Proof.
  intros Hd Hnd Hfirst Hn n. split.
  - unfold _generate_tp. rewrite Hd at 1. cbn [Py.index length].
    change (Py.index (first :: rest) 0) with (Ok first : result Z).
    cbn [bind]. unfold start_index.
    destruct (Z.ltb_spec (training_end training_meta) first); [lia |].
    assert (Hloc : get_loc (date_array training_meta) first = Ok 0).
    { unfold get_loc. rewrite Hd. cbn [positions]. rewrite Z.eqb_refl.
      rewrite Hd in Hnd. inversion Hnd as [| ? ? Hnot _]; subst.
      rewrite (positions_missing rest first Hnot). reflexivity. }
    rewrite Hloc. cbn [bind]. fold n. do 2 f_equal. unfold n. rewrite Hn. lia.
  - unfold _generate_insample_tp, time_points, Np.arange1. fold n.
    rewrite in1d_positions_all by apply incl_refl.
    rewrite !map_map. replace (Z.to_nat (n + 1 - 1))
      with (length (date_array training_meta)) by (unfold n; lia).
    apply map_ext. intros i. do 2 f_equal. lia.
Qed.

Lemma training_dates_time_points_witness :
  _generate_tp KnotDates.training_meta (date_array KnotDates.training_meta)
  = Ok (time_points 1 11 10) /\
  _generate_insample_tp KnotDates.training_meta
    (date_array KnotDates.training_meta)
  = time_points 1 11 10.
Proof.
  apply (training_dates_time_points KnotDates.training_meta 0
           [1; 2; 3; 4; 5; 6; 7; 8; 9] eq_refl).
  - repeat constructor; cbn; intuition lia.
  - cbn. lia.
  - reflexivity.
Defined.

Lemma mapM_Ok_map {A B : Type} (f : A -> result B) (g : A -> B)
      (l : list A) :
  Forall (fun x => f x = Ok (g x)) l -> mapM f l = Ok (map g l).
Proof.
  induction 1 as [| x l Hx _ IH]; [reflexivity |].
  cbn [mapM map]. rewrite Hx, IH. reflexivity.
Qed.

Lemma dot_inner_product (u v : Np.vector) :
  length u = length v -> Np.dot u v = Ok (inner_product u v).
Proof.
  intros H. unfold Np.dot. rewrite H, Nat.eqb_refl. reflexivity.
Qed.

Lemma matmul_t_conforming (a k : Np.matrix) :
  Forall (fun row => Forall (fun krow => length row = length krow) k) a ->
  Np.matmul_t a k
  = Ok (map (fun row => map (fun krow => inner_product row krow) k) a).
Proof.
  intros H. unfold Np.matmul_t. apply mapM_Ok_map.
  eapply Forall_impl; [| exact H]. intros row Hrow. cbv beta.
  apply mapM_Ok_map. eapply Forall_impl; [| exact Hrow].
  intros krow Hk. apply dot_inner_product. exact Hk.
Qed.

Lemma map_nth_seq {A B : Type} (g : A -> B) (d : A) (l : list A) :
  map (fun j => g (nth j l d)) (seq 0 (length l)) = map g l.
Proof.
  induction l as [| x l IH]; [reflexivity |].
  cbn [length seq map nth]. f_equal.
  rewrite <- seq_shift, map_map. exact IH.
Qed.

Lemma transpose_products (sample k : Np.matrix) :
  sample <> [] ->
  let m := map (fun row => map (fun krow => inner_product row krow) k)
               sample in
  Np.transpose (Np.ncols m) m
  = map (fun krow => map (fun row => inner_product row krow) sample) k.
Proof.
  intros Hne m. unfold Np.transpose.
  assert (Hc : Np.ncols m = length k).
  { subst m. destruct sample as [| row sample]; [contradiction |].
    cbn [map Np.ncols]. apply length_map. }
  rewrite Hc.
  rewrite <- (map_nth_seq
                (fun krow => map (fun row => inner_product row krow) sample)
                [] k).
  apply map_ext_in. intros j Hj. apply in_seq in Hj.
  subst m. rewrite map_map. apply map_ext. intros row.
  rewrite (nth_indep _ 0%Q (inner_product row []))
    by (rewrite length_map; lia).
  apply (map_nth (fun krow => inner_product row krow)).
Qed.

Section CoefficientCurves.

Variable gauss_kernel : list Q -> list Q -> Q -> Np.matrix.

(** X17.  Asked for the training period (no date array) on a model with
    regressors, [_get_regression_coefs_matrix] returns, for knot samples
    whose knot axis matches the stored kernel, the array sample x time x
    regressor in which the coefficient of a regressor at a time point is
    the kernel-weighted sum of the knot values of that regressor in that
    sample: the inner product of the knot values with the kernel row of
    the time point. *)
Theorem insample_coefficient_curves (self : KTRModel)
        (training_meta : TrainingMeta) (p : posteriors)
        (kernel : Np.matrix) (coef_knots : Np.tensor3) :
  (0 < _num_of_regular_regressors self + _num_of_positive_regressors self)%nat ->
  _kernel_coefficients self = Bound kernel ->
  dict_get p COEFFICIENTS_KNOT = Some (Np.A3 coef_knots) ->
  conforms coef_knots kernel ->
  _get_regression_coefs_matrix gauss_kernel self training_meta p None
  = Ok (Some (coefficient_curves coef_knots kernel)).
Proof.
  intros Hreg Hk Hp Hconf. unfold _get_regression_coefs_matrix.
  destruct (Nat.eqb_spec (_num_of_regular_regressors self
                          + _num_of_positive_regressors self) 0); [lia |].
  rewrite Hk. cbn [getattr bind]. unfold get_tensor3. rewrite Hp.
  cbn [bind]. unfold Np.matmul_t3.
  rewrite (mapM_Ok_map _
             (fun sample =>
                map (fun row => map (fun krow => inner_product row krow)
                                    kernel) sample)).
  - cbn [bind]. do 2 f_equal. unfold Np.transpose_021, coefficient_curves.
    rewrite map_map. apply map_ext_in. intros sample Hs.
    unfold conforms in Hconf. rewrite Forall_forall in Hconf.
    apply transpose_products. apply (Hconf sample Hs).
  - eapply Forall_impl; [| exact Hconf]. intros sample [_ Hs]. cbv beta.
    apply matmul_t_conforming. exact Hs.
Qed.

End CoefficientCurves.

Lemma insample_coefficient_curves_witness :
  _get_regression_coefs_matrix Decomposition.gauss_kernel ScaleMatrix.fitted
    FlatMultiplier.training_meta Curves.posterior None
  = Ok (Some (coefficient_curves [[[1; 3]]; [[2; 4]]]%Q
                (Decomposition.gauss_kernel
                   (time_points 1 5 4) [2 # 4; 4 # 4]%Q (15 # 100)))).
Proof.
  apply (insample_coefficient_curves Decomposition.gauss_kernel
           ScaleMatrix.fitted FlatMultiplier.training_meta Curves.posterior).
  - vm_compute. lia.
  - vm_compute. reflexivity.
  - reflexivity.
  - repeat constructor; discriminate.
Defined.
Section PredictErrors.

Variable gauss_kernel : list Q -> list Q -> Q -> Np.matrix.
Variable sandwich_kernel : list Q -> list Q -> Np.matrix.
Variable make_fourier_series : nat -> Q -> Z -> Z -> Np.matrix.
Variable laplace : Q -> nat -> nat -> Q.
Variable nct_rvs : Z -> Q -> nat -> nat -> Q.

(** X18.  [predict] locates the start of the prediction before it touches
    the model: with posterior samples given and a prediction start that is
    not after the training end, it raises [KeyError] when the start is not
    one of the training dates, whatever the instance, the table and the
    flags; with no posterior entry at all it raises [IndexError]. *)
Theorem predict_unknown_start (self : KTRModel) (p : posteriors)
        (df : DataFrame) (training_meta : TrainingMeta)
        (prediction_meta : PredictionMeta) (include_error store : bool) :
  (p = [] ->
   predict gauss_kernel sandwich_kernel make_fourier_series laplace nct_rvs
     self p df training_meta prediction_meta include_error store
   = Raise IndexError) /\
  (p <> [] ->
   prediction_start prediction_meta <= training_end training_meta ->
   ~ In (prediction_start prediction_meta) (date_array training_meta) ->
   predict gauss_kernel sandwich_kernel make_fourier_series laplace nct_rvs
     self p df training_meta prediction_meta include_error store
   = Raise KeyError).
Proof.
  split.
  - intros ->. reflexivity.
  - intros Hp Hle Hnot. unfold predict.
    destruct p as [| p0 p]; [contradiction |]. cbn [bind].
    unfold start_index.
    destruct (Z.ltb_spec (training_end training_meta)
                         (prediction_start prediction_meta)); [lia |].
    rewrite (get_loc_missing _ _ Hnot). reflexivity.
Qed.

End PredictErrors.

Lemma predict_unknown_start_witness :
  Decomposition.predict' Decomposition.fitted Decomposition.posterior
    Decomposition.df Decomposition.training_meta
    {| df_length := 2; prediction_start := -1; pm_date_array := [-1; 0] |}
    false false
  = Raise KeyError.
Proof.
  apply (predict_unknown_start Decomposition.gauss_kernel
           Decomposition.sandwich_kernel Decomposition.make_fourier_series
           Decomposition.laplace Decomposition.nct_rvs).
  - discriminate.
  - vm_compute. discriminate.
  - vm_compute. intuition discriminate.
Defined.

Lemma where_true_In (flags : list bool) (from p : Z) :
  In p (where_true flags from) <->
  exists i, nth_error flags i = Some true /\ p = from + Z.of_nat i.
Proof.
  revert from; induction flags as [| b flags IH]; intros from.
  - cbn [where_true]. split; [intros [] |].
    intros (i & H & _). destruct i; discriminate.
  - assert (Hstep : (exists i, nth_error (b :: flags) i = Some true /\
                               p = from + Z.of_nat i) <->
                    (b = true /\ p = from) \/
                    (exists i, nth_error flags i = Some true /\
                               p = from + 1 + Z.of_nat i)).
    { split.
      - intros ([| i] & Hn & Hp).
        + injection Hn as ->. left. split; [reflexivity | lia].
        + right. exists i. split; [exact Hn | lia].
      - intros [[-> Hp] | (i & Hn & Hp)].
        + exists 0%nat. split; [reflexivity | lia].
        + exists (S i). split; [exact Hn | lia]. }
    rewrite Hstep, <- IH. cbn [where_true]. destruct b; cbn [In].
    + split.
      * intros [<- | H]; [left; split; reflexivity | right; exact H].
      * intros [[_ ->] | H]; [left; reflexivity | right; exact H].
    + split; [intros H; right; exact H |].
      intros [[Hb _] | H]; [discriminate | exact H].
Qed.

Lemma where_true_increasing (flags : list bool) (from : Z) :
  forall a b p q,
    (a < b)%nat ->
    nth_error (where_true flags from) a = Some p ->
    nth_error (where_true flags from) b = Some q ->
    from <= p < q.
Proof.
  revert from; induction flags as [| f flags IH]; intros from a b p q Hab Hp Hq.
  - destruct a; discriminate.
  - cbn [where_true] in Hp, Hq. destruct f.
    + destruct b as [| b]; [lia |]. cbn [nth_error] in Hq.
      destruct a as [| a]; cbn [nth_error] in Hp.
      * injection Hp as <-.
        assert (Hin : In q (where_true flags (from + 1)))
          by (eapply nth_error_In; eassumption).
        apply where_true_In in Hin. destruct Hin as (k & _ & ->). lia.
      * specialize (IH (from + 1) a b p q ltac:(lia) Hp Hq). lia.
    + specialize (IH (from + 1) a b p q Hab Hp Hq). lia.
Qed.

Lemma where_true_length (v : list float64) (from : Z) :
  length (where_true (map (fun x => negb (Stats.isnan x)) v) from)
  = length (defined_values v).
Proof.
  revert from; induction v as [| x v IH]; intros from; [reflexivity |].
  cbn [map where_true defined_values flat_map].
  destruct x as [q |]; cbn [Stats.isnan negb app length].
  - f_equal. apply IH.
  - apply IH.
Qed.

Lemma mean_undefined (v : list Q) : Stats.mean v = NaN <-> v = [].
Proof.
  destruct v; cbn [Stats.mean]; split; intros H;
    try reflexivity; discriminate.
Qed.

(** X20.  [_set_valid_response_attributes] lists in
    [which_valid_response], by increasing position, exactly the positions
    of the responses that are not nan; [num_of_valid_response] is their
    number, and [is_valid_response] has one flag per response.  The method
    raises [ModelException] exactly when a seasonality is set and there
    are fewer observations than the rounded largest seasonality, and
    raises nothing else.  With [_seasonality] left at [None], as the
    constructor leaves it, it always returns, and [response_offset] is the
    mean of the responses that are not nan: it is undefined exactly when
    no response is valid. *)
Theorem valid_response_attributes (_seasonality : option (list Q))
        (training_meta : TrainingMeta) (response : list float64) :
  (forall r,
      _set_valid_response_attributes _seasonality training_meta response
      = Ok r ->
      length (is_valid_response r) = length response /\
      (forall i, In i (which_valid_response r) <->
                 0 <= i /\
                 exists q, nth_error response (Z.to_nat i) = Some (Fin q)) /\
      (forall a b p q, (a < b)%nat ->
                       nth_error (which_valid_response r) a = Some p ->
                       nth_error (which_valid_response r) b = Some q ->
                       p < q) /\
      num_of_valid_response r = length (which_valid_response r) /\
      num_of_valid_response r = length (defined_values response) /\
      (num_of_valid_response r <= length response)%nat) /\
  (_set_valid_response_attributes _seasonality training_meta response
   = Raise ModelException <->
   exists s tl,
     _seasonality = Some (s :: tl) /\
     num_of_observations training_meta < Py.round (np_max s tl)) /\
  ((exists r,
       _set_valid_response_attributes _seasonality training_meta response
       = Ok r) \/
   _set_valid_response_attributes _seasonality training_meta response
   = Raise ModelException) /\
  (_seasonality = None ->
   exists r,
     _set_valid_response_attributes _seasonality training_meta response
     = Ok r /\
     response_offset r = Stats.mean (defined_values response) /\
     (response_offset r = NaN <-> num_of_valid_response r = 0%nat)).
Proof.
  split; [| split; [| split]].
  - intros r H. unfold _set_valid_response_attributes in H.
    inv_bind H. clear E v. injection H as <-.
    cbn [is_valid_response which_valid_response num_of_valid_response].
    split; [apply length_map |]. split; [| split; [| split; [| split]]].
    + intros i. rewrite where_true_In. split.
      * intros (k & Hk & ->). split; [lia |].
        rewrite nth_error_map in Hk.
        replace (Z.to_nat (0 + Z.of_nat k)) with k by lia.
        destruct (nth_error response k) as [[q |] |]; try discriminate.
        exists q. reflexivity.
      * intros (Hi & q & Hq). exists (Z.to_nat i). split; [| lia].
        rewrite nth_error_map, Hq. reflexivity.
    + intros a b p q Hab Hp Hq.
      pose proof (where_true_increasing _ _ _ _ _ _ Hab Hp Hq). lia.
    + reflexivity.
    + apply where_true_length.
    + rewrite where_true_length. unfold defined_values.
      induction response as [| [q |] v IH]; cbn [flat_map app length]; lia.
  - unfold _set_valid_response_attributes.
    destruct _seasonality as [[| s tl] |]; cbn [bind].
    + split; [discriminate | intros (s & tl & H & _); discriminate].
    + destruct (Z.ltb_spec (num_of_observations training_meta)
                           (Py.round (np_max s tl))); cbn [bind].
      * split; [| reflexivity]. intros _. exists s, tl. split; auto.
      * split; [discriminate |]. intros (s' & tl' & H' & Hlt).
        injection H' as <- <-. lia.
    + split; [discriminate | intros (s & tl & H & _); discriminate].
  - unfold _set_valid_response_attributes.
    destruct _seasonality as [[| s tl] |]; cbn [bind]; eauto.
    destruct (num_of_observations training_meta <? Py.round (np_max s tl));
      cbn [bind]; eauto.
  - intros ->. eexists. split; [reflexivity |].
    cbn [response_offset num_of_valid_response]. split; [reflexivity |].
    unfold nanmean. rewrite mean_undefined, where_true_length.
    split; [intros ->; reflexivity | apply length_zero_iff_nil].
Qed.
Section SeasonalCoefficients.

Variable sandwich_kernel : list Q -> list Q -> Np.matrix.

(** X21.  [_generate_coefs] works on a single sample of coefficient knots.
    When the time points of the prediction dates can be computed and the
    knot axis of the samples matches the kernel of these time points
    against the time points of the knot dates, one sample gives the array
    time x coefficient whose entries are the inner products of the knot
    values with the kernel rows, and any other number of samples raises
    [ValueError]. *)
Theorem generate_coefs_single_sample (training_meta : TrainingMeta)
        (prediction_date_array coef_knot_dates : list Z)
        (coef_knot : Np.tensor3) (new_tp : list Q) :
  _generate_tp training_meta prediction_date_array = Ok new_tp ->
  let kernel :=
    sandwich_kernel new_tp
      (_generate_insample_tp training_meta coef_knot_dates) in
  conforms coef_knot kernel ->
  (forall m,
      coef_knot = [m] ->
      _generate_coefs sandwich_kernel training_meta prediction_date_array
        coef_knot_dates coef_knot
      = Ok (map (fun krow => map (fun row => inner_product row krow) m)
                kernel)) /\
  (length coef_knot <> 1%nat ->
   _generate_coefs sandwich_kernel training_meta prediction_date_array
     coef_knot_dates coef_knot
   = Raise ValueError).
Proof.
  intros Htp kernel Hconf.
  assert (Hprod : Np.matmul_t3 coef_knot kernel
                  = Ok (map (fun sample =>
                               map (fun row =>
                                      map (fun krow => inner_product row krow)
                                          kernel) sample)
                            coef_knot)).
  { unfold Np.matmul_t3. apply mapM_Ok_map.
    eapply Forall_impl; [| exact Hconf]. intros sample [_ Hs]. cbv beta.
    apply matmul_t_conforming. exact Hs. }
  split.
  - intros m ->. unfold _generate_coefs. rewrite Htp. cbn [bind].
    fold kernel. rewrite Hprod. cbn [map bind squeeze0].
    f_equal. apply transpose_products.
    inversion Hconf as [| ? ? [Hne _] _]. exact Hne.
  - intros Hlen. unfold _generate_coefs. rewrite Htp. cbn [bind].
    fold kernel. rewrite Hprod. cbn [bind].
    destruct coef_knot as [| m [| m' t]]; cbn [map squeeze0 bind];
      try reflexivity.
    exfalso. apply Hlen. reflexivity.
Qed.

End SeasonalCoefficients.

Lemma generate_coefs_single_sample_witness :
  _generate_coefs Decomposition.sandwich_kernel KnotDates.training_meta
    [10; 11] [2; 7] [[[1; 3]]]%Q
  = Ok (map (fun krow => map (fun row => inner_product row krow) [[1; 3]]%Q)
            (Decomposition.sandwich_kernel
               (time_points 11 13 10)
               (_generate_insample_tp KnotDates.training_meta [2; 7]))) /\
  _generate_coefs Decomposition.sandwich_kernel KnotDates.training_meta
    [10; 11] [2; 7] [[[1; 3]]; [[2; 4]]]%Q
  = Raise ValueError.
Proof.
  split.
  - apply (generate_coefs_single_sample Decomposition.sandwich_kernel
             KnotDates.training_meta [10; 11] [2; 7] [[[1; 3]]]%Q
             (time_points 11 13 10) eq_refl).
    + repeat constructor; discriminate.
    + reflexivity.
  - apply (generate_coefs_single_sample Decomposition.sandwich_kernel
             KnotDates.training_meta [10; 11] [2; 7]
             [[[1; 3]]; [[2; 4]]]%Q
             (time_points 11 13 10) eq_refl).
    + repeat constructor; discriminate.
    + discriminate.
Defined.

Lemma set_nth_total {A : Type} (l : list A) (idx : nat) (x : A) :
  (idx < length l)%nat -> exists l', set_nth l idx x = Ok l'.
Proof.
  revert idx; induction l as [| y l IH]; intros idx H; [simpl in H; lia |].
  destruct idx as [| i]; cbn [set_nth]; [eauto |].
  destruct (IH i ltac:(simpl in H; lia)) as [l' Hl']. rewrite Hl'.
  cbn [bind]. eauto.
Qed.

Lemma zipWithM_total {A B C : Type} (f : A -> B -> result C)
      (xs : list A) (ys : list B) :
  (forall x y, In x xs -> exists z, f x y = Ok z) ->
  exists zs, zipWithM f xs ys = Ok zs /\
             length zs = Nat.min (length xs) (length ys).
Proof.
  revert ys; induction xs as [| x xs IH]; intros ys H.
  - exists []. split; reflexivity.
  - destruct ys as [| y ys]; [exists []; split; reflexivity |].
    cbn [zipWithM]. destruct (H x y (or_introl eq_refl)) as [z Hz].
    destruct (IH ys) as (zs & Hzs & Hl).
    { intros x' y' Hx'. apply H. right. exact Hx'. }
    rewrite Hz, Hzs. cbn [bind]. exists (z :: zs).
    split; [reflexivity |]. cbn [length Nat.min]. f_equal. exact Hl.
Qed.

Lemma set_column_total {A : Type} (n k : nat) (a : list (list A))
      (idx : nat) (v : list A) :
  has_shape n k a -> (idx < k)%nat -> length v = n ->
  exists a', set_column a idx v = Ok a'.
Proof.
  intros [Hn Hk] Hidx Hv. unfold set_column.
  destruct (Nat.eqb_spec (length v) (length a)); [| congruence].
  destruct (zipWithM_total (fun row x => set_nth row idx x) a v)
    as (a' & Ha' & _); [| eauto].
  intros row x Hrow. apply set_nth_total.
  rewrite Forall_forall in Hk. rewrite (Hk row Hrow). exact Hidx.
Qed.

Lemma item_total {A : Type} (l : list A) (i : nat) :
  (i < length l)%nat -> exists x, item l i = Ok x.
Proof.
  intros H. destruct (nth_error_item l i H) as (x & _ & Hx). eauto.
Qed.

Lemma segment_mean_length (c : nat) (m : Np.matrix) (s e : Z) :
  length (segment_mean c m s e) = c.
Proof. unfold segment_mean. rewrite length_map. apply length_seq. Qed.

Lemma local_val_loop_total (n : nat) (m : Np.matrix) (knots_idx : list Z)
      (num_of_observations : Z) (local_val : list (list float64)) :
  has_shape n (length knots_idx) local_val ->
  Np.ncols m = n ->
  exists local_val',
    local_val_loop m knots_idx num_of_observations local_val = Ok local_val'.
Proof.
  intros Hshape Hc. unfold local_val_loop.
  assert (Hidx : Forall (fun i => (i < length knots_idx)%nat)
                        (seq 0 (length knots_idx))).
  { apply Forall_forall. intros i Hi. apply in_seq in Hi. lia. }
  revert local_val Hshape.
  induction Hidx as [| i l Hi _ IH]; intros local_val Hshape.
  - exists local_val. reflexivity.
  - cbn [foldM].
    assert (Hstep : exists lv,
               local_val_step m knots_idx num_of_observations local_val i
               = Ok lv).
    { unfold local_val_step.
      destruct (item_total knots_idx i Hi) as [s Hs]. rewrite Hs.
      cbn [bind].
      assert (He : exists e,
                 (if (i <? length knots_idx - 1)%nat
                  then item knots_idx (i + 1)
                  else Ok num_of_observations) = Ok e).
      { destruct (Nat.ltb_spec i (length knots_idx - 1)); [| eauto].
        apply item_total. lia. }
      destruct He as [e He]. rewrite He. cbn [bind].
      eapply set_column_total; [exact Hshape | exact Hi |].
      rewrite segment_mean_length. exact Hc. }
    destruct Hstep as [lv Hlv]. rewrite Hlv. cbn [bind]. apply IH.
    unfold local_val_step in Hlv. inv_bind Hlv. inv_bind Hlv.
    eapply set_column_shape; eassumption.
Qed.

Lemma low_volume_flags_total (local_val : list (list float64))
      (global_med : list float64) :
  length local_val = length global_med ->
  exists flags,
    low_volume_flags local_val global_med = Ok flags /\
    length flags = length local_val.
Proof.
  intros H. unfold low_volume_flags, Np.bzip. rewrite H, Nat.eqb_refl.
  destruct (zipWithM_total
              (fun row g =>
                 Ok (map (fun x => Stats.lt x (Stats.scale (1 # 100) g)) row))
              local_val global_med) as (flags & Hf & Hl); [eauto |].
  exists flags. split; [exact Hf |]. rewrite Hl, H. apply Nat.min_id.
Qed.

(** The part that the two multipliers share never fails on a regressor
    matrix with one column per regressor and local values with one column
    per knot. *)
Lemma adjusted_multiplier_total (n : nat) (m : Np.matrix)
      (knots_idx : list Z) (num_of_observations : Z)
      (stat : list Q -> float64) :
  Np.ncols m = n ->
  exists multiplier,
    (local_val <- local_val_loop m knots_idx num_of_observations
                    (ones n (length knots_idx)) ;;
     test_flag <- low_volume_flags local_val
                    (map (fun j => stat (Stats.abs_column m j))
                         (seq 0 (Np.ncols m))) ;;
     multiplier <- set_flagged (ones n (length knots_idx)) test_flag ;;
     Ok (reset_nan_rows multiplier)) = Ok multiplier.
Proof.
  intros Hc.
  destruct (local_val_loop_total n m knots_idx num_of_observations
              (ones n (length knots_idx)) (ones_shape _ _) Hc)
    as [local_val Hloop].
  rewrite Hloop. cbn [bind].
  pose proof (local_val_loop_shape _ _ _ _ _ _ _ Hloop (ones_shape _ _))
    as [Hn _].
  destruct (low_volume_flags_total local_val
              (map (fun j => stat (Stats.abs_column m j))
                   (seq 0 (Np.ncols m)))) as (flags & Hflags & Hl).
  { rewrite length_map, length_seq. congruence. }
  rewrite Hflags. cbn [bind]. unfold set_flagged.
  destruct (ones_shape n (length knots_idx)) as [Hones _].
  rewrite Hl, Hn, Hones, Nat.eqb_refl. cbn [bind]. eauto.
Qed.

Lemma scale_by_multiplier_total (multiplier : list (list float64))
      (v : list Q) :
  length multiplier = length v ->
  exists sc, scale_by_multiplier multiplier (Scale1 v) = Ok sc.
Proof.
  intros H. unfold scale_by_multiplier, Np.bzip. rewrite H, Nat.eqb_refl.
  destruct (zipWithM_total
              (fun row s => Ok (map (Stats.scale s) row)) multiplier v)
    as (rows & Hr & _); [eauto |].
  rewrite Hr. cbn [bind]. eauto.
Qed.

(** X22.  [_set_knots_scale_matrix] never fails on an instance in the
    state the earlier steps of the fit leave: the knot scales of each
    group are 1-D with one entry per regressor, the knot positions are set
    and [regression_segments] is their number, and each group that has
    regressors has a regressor matrix with at least one row and one entry
    per regressor in every row.  This holds in flat mode or not. *)
Theorem knot_scale_matrix_total (self : KTRModel)
        (training_meta : TrainingMeta) (vp vr : list Q) (idx : list Z) :
  _positive_regressor_knot_scale self = Scale1 vp ->
  length vp = _num_of_positive_regressors self ->
  _regular_regressor_knot_scale self = Scale1 vr ->
  length vr = _num_of_regular_regressors self ->
  _regression_knots_idx self = Some idx ->
  regression_segments self = Z.of_nat (length idx) ->
  ((0 < _num_of_positive_regressors self)%nat ->
   regressor_matrix_of (_num_of_positive_regressors self)
                       (_positive_regressor_matrix self)) ->
  ((0 < _num_of_regular_regressors self)%nat ->
   regressor_matrix_of (_num_of_regular_regressors self)
                       (_regular_regressor_matrix self)) ->
  exists self', _set_knots_scale_matrix self training_meta = Ok self'.
Proof.
  intros Hvp Hlp Hvr Hlr Hidx Hseg Hmp Hmr.
  assert (Hk : Z.to_nat (regression_segments self) = length idx)
    by (rewrite Hseg; apply Nat2Z.id).
  assert (Hcols : forall n m, regressor_matrix_of n m ->
                              exists rows, m = Some rows /\ Np.ncols rows = n).
  { intros n m (rows & -> & Hne & Hall). exists rows. split; [reflexivity |].
    destruct rows as [| r rows]; [contradiction |].
    inversion Hall; subst. reflexivity. }
  assert (Hpos : exists s1,
             (if (0 <? _num_of_positive_regressors self)%nat then
                multiplier <- positive_multiplier self
                                (num_of_observations training_meta) ;;
                knot_scale <- scale_by_multiplier multiplier
                                (_positive_regressor_knot_scale self) ;;
                Ok (assign_positive_scales self knot_scale
                      (map floor_scale_Q
                           (_positive_regressor_init_knot_scale self)))
              else Ok self) = Ok s1 /\
             _num_of_regular_regressors s1 = _num_of_regular_regressors self /\
             _regular_regressor_knot_scale s1
             = _regular_regressor_knot_scale self /\
             regular_multiplier s1 (num_of_observations training_meta)
             = regular_multiplier self (num_of_observations training_meta)).
  { destruct (Nat.ltb_spec 0 (_num_of_positive_regressors self)) as [Hp | Hp];
      [| exists self; repeat split].
    destruct (Hcols _ _ (Hmp Hp)) as (rows & Hrows & Hc).
    assert (Hm : exists multiplier,
               positive_multiplier self (num_of_observations training_meta)
               = Ok multiplier).
    { unfold positive_multiplier. destruct (flat_multiplier self); [eauto |].
      rewrite Hidx, Hrows, Hk. cbn [require bind].
      apply adjusted_multiplier_total. exact Hc. }
    destruct Hm as [multiplier Hm]. rewrite Hm. cbn [bind].
    destruct (proj1 (multipliers_shape_entries self _ multiplier) Hm)
      as [[Hn _] _].
    rewrite Hvp.
    destruct (scale_by_multiplier_total multiplier vp) as [sc Hsc];
      [congruence |].
    rewrite Hsc. cbn [bind]. eexists. split; [reflexivity |].
    repeat split. }
  destruct Hpos as (s1 & Hs1 & En & Es & Em).
  unfold _set_knots_scale_matrix. rewrite Hs1. cbn [bind].
  rewrite En, Em, Es.
  destruct (Nat.ltb_spec 0 (_num_of_regular_regressors self)) as [Hr | Hr];
    [| eauto].
  destruct (Hcols _ _ (Hmr Hr)) as (rows & Hrows & Hc).
  assert (Hm : exists multiplier,
             regular_multiplier self (num_of_observations training_meta)
             = Ok multiplier).
  { unfold regular_multiplier.
    rewrite Hidx, Hrows, Hk. cbn [require bind].
    destruct (flat_multiplier self); apply adjusted_multiplier_total;
      exact Hc. }
  destruct Hm as [multiplier Hm]. rewrite Hm. cbn [bind].
  destruct (proj2 (multipliers_shape_entries self _ multiplier) Hm)
    as [[Hn _] _].
  rewrite Hvr.
  destruct (scale_by_multiplier_total multiplier vr) as [sc Hsc];
    [congruence |].
  rewrite Hsc. cbn [bind]. eauto.
Qed.

Lemma knot_scale_matrix_total_witness :
  exists self',
    _set_knots_scale_matrix ScaleMatrix.fitted FlatMultiplier.training_meta
    = Ok self'.
Proof.
  apply (knot_scale_matrix_total ScaleMatrix.fitted
           FlatMultiplier.training_meta []
           [DEFAULT_COEFFICIENTS_KNOT_SCALE] [1; 3]);
    try reflexivity.
  - cbn. lia.
  - intros _. eexists. split; [reflexivity |].
    split; [discriminate | repeat constructor].
Defined.

